(** * Agent test suite and dashboard server: a shallow embedding

    The development follows the three Python files of the repository:

    - [agent_test.py]: class [AgentTester] (methods [log_test], the five
      [test_*] checks with their helpers [fibonacci] and [is_prime],
      [generate_report]) and [main];
    - [server.py]: [start_server] and the method [end_headers] of
      [CustomHTTPRequestHandler];
    - [test_agent.py]: the unit tests of [TestAgentTester], among them
      [test_file_operations], which runs under [unittest.mock.patch].

    Python values are modelled as the interpreter has them: [int] is [Z]
    (unbounded), [float] is IEEE 754 binary64 through [SpecFloat] (the
    executable specification of the kernel's floats), [str] is [string],
    lists are [list], the set literals are [gset Z], the working directory
    is a [gmap string string].  Exceptions are values of type [exn]; a
    method is a state transformer that returns either an exception or a
    result.

    The runner is given twice.  Section [Runner] is the runner in a
    process started the usual way: the [assert] statements are compiled
    and the console takes every line, so that [print] appends to it.
    Module [Started] is the runner under any start of the interpreter,
    an [interp]: with [-O] the [assert] statements are not compiled, and
    [print] raises what the console answers to a line (a
    [UnicodeEncodeError] where the encoding of stdout lacks a character
    of the line, an [OSError] on a pipe that was closed).  The first is
    the second at the start [plain] (lemma [started_plain_main] and its
    neighbours).  What a check does when the console fails, and what
    depends on [-O], is stated on [Started].

    What the model leaves out: the marks of the printed lines that are
    not ASCII are not reproduced (an [interp] such as [ascii_console]
    tells which lines a console refuses); a write to the socket of a
    request cannot fail; asynchronous signals such as
    [KeyboardInterrupt] do not occur inside the runner; [serve_forever]
    is summarised by its end, the interrupt of the user; nothing is said
    of what the interpreter does after the last statement of the
    program.  The working directory is the map [files] from the names of
    its regular files to their contents: symbolic and hard links are not
    modelled (every name is a file of its own), which is why the
    theorems on the file check say nothing of the other names of a
    directory in which the name of the probe file exists beforehand.
    File operations fail when
    the operating system says so: the state carries, for every call, the
    [OSError] it raises, if any.  The class [TestMathOperations] of
    [test_agent.py] exercises the arithmetic of the interpreter and none
    of the repository's functions; it is not modelled. *)

From Stdlib Require Import ZArith Lia String List Bool Znumtheory QArith.
From Stdlib Require Import Floats.SpecFloat.
From Stdlib Require Import Uint63.
From stdpp Require Import base gmap strings list pretty sorting.

Local Open Scope Z_scope.

(** ** Python floats: IEEE 754 binary64 *)

Module Float64.

Definition float := spec_float.

Definition prec : Z := 53.
Definition emax : Z := 1024.

(** An [int] as an exact (not normalised) binary number [z * 2^0]. *)
Definition Z2SF (z : Z) : float :=
  match z with
  | Z0 => S754_zero false
  | Zpos p => S754_finite false p 0
  | Zneg p => S754_finite true p 0
  end.

(** [float(z)]: round to nearest, ties to even.  The result is an infinity
    when [z] is out of range; the callers turn that into [OverflowError]. *)
Definition of_int (z : Z) : float := binary_normalize prec emax z 0 false.

Definition mul (x y : float) : float := SFmul prec emax x y.
Definition div (x y : float) : float := SFdiv prec emax x y.
Definition sqrt (x : float) : float := SFsqrt prec emax x.

(** [x == y] on floats. *)
Definition eqb (x y : float) : bool := SFeqb x y.

Definition is_finite (x : float) : bool :=
  match x with
  | S754_zero _ | S754_finite _ _ _ => true
  | _ => false
  end.

(** Truncation toward zero of a finite float, as [int(x)] does. *)
Definition trunc (x : float) : Z :=
  match x with
  | S754_finite s m e =>
      let a := match e with
               | Z0 => Zpos m
               | Zpos _ => Zpos m * 2 ^ e
               | Zneg _ => Zpos m / 2 ^ (- e)
               end in
      if s then - a else a
  | _ => 0
  end.

(** The exact rational value of a finite float. *)
Definition to_Q (x : float) : Q :=
  match x with
  | S754_finite s m e =>
      let a := (inject_Z (Zpos m) * Qpower (inject_Z 2) e)%Q in
      if s then Qopp a else a
  | _ => inject_Z 0
  end.

End Float64.

Import Float64.

(** ** Python exceptions and results *)

(** The exception classes that the modelled code can raise
    ([UnicodeEncodeError] is what [print] raises on a console whose
    encoding lacks a character).  All of them derive from [Exception], so
    [except Exception] catches every value of this type; asynchronous
    signals ([KeyboardInterrupt]) are outside the runner's model. *)
Inductive exn_class :=
| AssertionError
| ZeroDivisionError
| IndexError
| TypeError
| OverflowError
| ValueError
| RecursionError
| UnicodeEncodeError
| OSError (errno : Z).

(** An exception instance: its class and [str(e)]. *)
Record exn := Exn { exn_cls : exn_class; exn_str : string }.

(** [inl e]: the evaluation raised [e]; [inr a]: it returned [a]. *)
Definition result (A : Type) : Type := exn + A.

Definition is_ZeroDivisionError (c : exn_class) : bool :=
  match c with ZeroDivisionError => true | _ => false end.
Definition is_IndexError (c : exn_class) : bool :=
  match c with IndexError => true | _ => false end.
Definition is_TypeError (c : exn_class) : bool :=
  match c with TypeError => true | _ => false end.

Definition dquote : string := String (Ascii.ascii_of_nat 34%nat) EmptyString.

(** ** Python values used by the checks *)

#[local] Set Warnings "-register-all".

Inductive pyval :=
| PyInt (z : Z)
| PyBool (b : bool)
| PyStr (s : string)
| PyFloat (x : float)
| PyList (l : list pyval)
| PyDict (d : list (string * pyval)).

Fixpoint assoc {A} (k : string) (d : list (string * A)) : option A :=
  match d with
  | [] => None
  | (k', v) :: d' => if String.eqb k k' then Some v else assoc k d'
  end.

(** [a == b]: lists compare element-wise, dicts as maps (key order is
    irrelevant), floats by IEEE equality. *)
Fixpoint py_eq (a b : pyval) {struct a} : bool :=
  match a, b with
  | PyInt x, PyInt y => x =? y
  | PyBool x, PyBool y => Bool.eqb x y
  | PyStr x, PyStr y => String.eqb x y
  | PyFloat x, PyFloat y => Float64.eqb x y
  | PyList l1, PyList l2 =>
      (fix go (l1 l2 : list pyval) {struct l1} : bool :=
         match l1, l2 with
         | [], [] => true
         | x :: l1', y :: l2' => py_eq x y && go l1' l2'
         | _, _ => false
         end) l1 l2
  | PyDict d1, PyDict d2 =>
      (length d1 =? length d2)%nat &&
      (fix go (d : list (string * pyval)) {struct d} : bool :=
         match d with
         | [] => true
         | (k, v) :: d' =>
             match assoc k d2 with
             | Some v' => py_eq v v'
             | None => false
             end && go d'
         end) d1
  | _, _ => false
  end.

(** [x + y] for the operand types the checks use. *)
Definition py_add (x y : pyval) : result pyval :=
  match x, y with
  | PyInt a, PyInt b => inr (PyInt (a + b))
  | PyStr a, PyStr b => inr (PyStr (a ++ b))
  | PyStr _, PyInt _ =>
      inl (Exn TypeError
             ("can only concatenate str (not " ++ dquote ++ "int" ++ dquote ++ ") to str"))
  | _, _ => inl (Exn TypeError "unsupported operand type(s) for +")
  end.

(** [a / b] on ints: the correctly rounded quotient. *)
Definition int_truediv (a b : Z) : result float :=
  if b =? 0 then inl (Exn ZeroDivisionError "division by zero")
  else
    let q := Float64.div (Z2SF a) (Z2SF b) in
    if is_finite q then inr q
    else inl (Exn OverflowError "integer division result too large for a float").

(** [lst[i]] with Python's negative indices. *)
Definition py_getitem (lst : list Z) (i : Z) : result Z :=
  let n := Z.of_nat (length lst) in
  let j := if i <? 0 then i + n else i in
  if (j <? 0) || (n <=? j) then inl (Exn IndexError "list index out of range")
  else match lst !! Z.to_nat j with
       | Some x => inr x
       | None => inl (Exn IndexError "list index out of range")
       end.

(** [math.sqrt(n)] on an int argument. *)
Definition math_sqrt (n : Z) : result float :=
  let x := Float64.of_int n in
  if negb (is_finite x) then inl (Exn OverflowError "int too large to convert to float")
  else if n <? 0 then inl (Exn ValueError "math domain error")
  else inr (Float64.sqrt x).

(** [int(x)] on a float. *)
Definition int_of_float (x : float) : result Z :=
  match x with
  | S754_nan => inl (Exn ValueError "cannot convert float NaN to integer")
  | S754_infinity _ => inl (Exn OverflowError "cannot convert float infinity to integer")
  | _ => inr (Float64.trunc x)
  end.

Definition repr_list (l : list Z) : string :=
  "[" ++ String.concat ", " (map pretty l) ++ "]".

Definition repr_set (l : list Z) : string :=
  "{" ++ String.concat ", " (map pretty l) ++ "}".

(** ** The runner's state and its monad *)

(** One entry of [self.test_results] (the dict built by [log_test]). *)
Record TestResult := {
  test : string;
  success : bool;
  details : string;
  timestamp : string
}.

(** A printed line keeps the pieces of its f-string. *)
Inductive piece :=
| PStr (s : string)
| PInt (z : Z)
| PFixed (ndigits : nat) (x : float).

(** The file operations that the operating system may refuse. *)
Inductive os_call :=
| OpenW (path : string)
| WriteTo (path : string)
| OpenR (path : string)
| ReadFrom (path : string)
| Remove (path : string).

(** The [AgentTester] instance ([test_results], [start_time]) together
    with the process environment it runs in: the working directory (its
    regular files by name), the console, the clock (the reading of the [n]-th call of
    [datetime.now()]) and the faults of the operating system (an errno and
    the text of the [OSError]). *)
Record state := {
  test_results : list TestResult;
  start_time : Z;
  files : gmap string string;
  stdout : list (list piece);
  clock : nat -> Z;
  ticks : nat;
  os_fault : os_call -> option (Z * string)
}.

Definition set_test_results (f : list TestResult -> list TestResult) (s : state) : state :=
  {| test_results := f (test_results s); start_time := start_time s;
     files := files s; stdout := stdout s; clock := clock s; ticks := ticks s;
     os_fault := os_fault s |}.

Definition set_start_time (t : Z) (s : state) : state :=
  {| test_results := test_results s; start_time := t;
     files := files s; stdout := stdout s; clock := clock s; ticks := ticks s;
     os_fault := os_fault s |}.

Definition set_files (f : gmap string string -> gmap string string) (s : state) : state :=
  {| test_results := test_results s; start_time := start_time s;
     files := f (files s); stdout := stdout s; clock := clock s; ticks := ticks s;
     os_fault := os_fault s |}.

Definition set_stdout (f : list (list piece) -> list (list piece)) (s : state) : state :=
  {| test_results := test_results s; start_time := start_time s;
     files := files s; stdout := f (stdout s); clock := clock s; ticks := ticks s;
     os_fault := os_fault s |}.

Definition set_ticks (f : nat -> nat) (s : state) : state :=
  {| test_results := test_results s; start_time := start_time s;
     files := files s; stdout := stdout s; clock := clock s; ticks := f (ticks s);
     os_fault := os_fault s |}.

(** A statement or expression: it reads and updates the state, and either
    raises or returns.  The state reached is kept in both cases. *)
Definition M (A : Type) : Type := state -> result A * state.

Definition ret {A} (a : A) : M A := fun s => (inr a, s).

Definition bind {A B} (m : M A) (k : A -> M B) : M B :=
  fun s => match m s with
           | (inl e, s') => (inl e, s')
           | (inr a, s') => k a s'
           end.

Definition raise {A} (e : exn) : M A := fun s => (inl e, s).

Definition lift {A} (r : result A) : M A := fun s => (r, s).

Definition get : M state := fun s => (inr s, s).

Definition modify (f : state -> state) : M unit := fun s => (inr tt, f s).

Declare Scope py_scope.
Delimit Scope py_scope with py.
Notation "x <- m ;; k" := (bind m (fun x => k))
  (at level 20, m at level 99, k at level 200, only parsing) : py_scope.
Notation "m ;; k" := (bind m (fun _ => k))
  (at level 100, k at level 200, only parsing, right associativity) : py_scope.
Local Open Scope py_scope.

(** [try: body except C as e: handler e], where [catches] tells which
    classes [C] covers. *)
Definition try_except {A} (catches : exn_class -> bool) (body : M A) (handler : exn -> M A) : M A :=
  fun s => match body s with
           | (inl e, s') => if catches (exn_cls e) then handler e s' else (inl e, s')
           | (inr a, s') => (inr a, s')
           end.

(** Every class of [exn_class] derives from [Exception]. *)
Definition Exception (c : exn_class) : bool := true.

(** [assert c, msg], compiled (the interpreter runs without [-O]). *)
Definition py_assert (c : bool) (msg : string) : M unit :=
  if c then ret tt else raise (Exn AssertionError msg).

(** [print(line)] on a console that takes the line. *)
Definition print (line : list piece) : M unit :=
  modify (set_stdout (fun out => out ++ [line])).

Definition datetime_now : M Z :=
  fun s => (inr (clock s (ticks s)), set_ticks S s).

(** The operating system refuses the call, or lets it through. *)
Definition os_check (c : os_call) : M unit :=
  fun s => match os_fault s c with
           | Some (errno, msg) => (inl (Exn (OSError errno) msg), s)
           | None => (inr tt, s)
           end.

Definition ENOENT : Z := 2.

Definition no_such_file (path : string) : exn :=
  Exn (OSError ENOENT) ("[Errno 2] No such file or directory: '" ++ path ++ "'").

(** [open(path, 'w')]: creates or truncates the file. *)
Definition open_w (path : string) : M unit :=
  os_check (OpenW path) ;;
  modify (set_files (insert path EmptyString)).

(** [f.write(data)] on a file opened for writing. *)
Definition file_write (path data : string) : M unit :=
  os_check (WriteTo path) ;;
  modify (set_files (fun fs => <[path := String.append (default EmptyString (fs !! path)) data]> fs)).

(** [open(path, 'r')]. *)
Definition open_r (path : string) : M unit :=
  os_check (OpenR path) ;;
  s <- get ;;
  match files s !! path with
  | Some _ => ret tt
  | None => raise (no_such_file path)
  end.

(** [f.read()] on a file opened for reading. *)
Definition file_read (path : string) : M string :=
  os_check (ReadFrom path) ;;
  s <- get ;;
  ret (default EmptyString (files s !! path)).

(** [os.remove(path)]. *)
Definition os_remove (path : string) : M unit :=
  os_check (Remove path) ;;
  s <- get ;;
  match files s !! path with
  | Some _ => modify (set_files (delete path))
  | None => raise (no_such_file path)
  end.

(** ** agent_test.py *)

(** What the interpreter and its libraries contribute and the repository
    does not define: the rendering of a timestamp, the [json] codec, and
    the strings that [main] prints about the process. *)
Record runtime := {
  isoformat : Z -> string;
  json_dumps : pyval -> result string;
  json_loads : string -> result pyval;
  sys_version : string;
  sys_platform : string;
  getcwd : string
}.

Definition newline : string := String (Ascii.ascii_of_nat 10%nat) EmptyString.

(** [sum(...)] over ints. *)
Definition py_sum (l : list Z) : Z := fold_left Z.add l 0.

(** [range(lo, hi)]. *)
Definition range (lo hi : Z) : list Z := seqZ lo (hi - lo).

Definition rbind {A B} (r : result A) (k : A -> result B) : result B :=
  match r with
  | inl e => inl e
  | inr a => k a
  end.

(** The nested helper [fibonacci] of [test_algorithms]; [depth] is the
    number of frames left before [RecursionError]. *)
Fixpoint fibonacci (depth : nat) (n : Z) : result Z :=
  match depth with
  | O => inl (Exn RecursionError "maximum recursion depth exceeded")
  | S d =>
      if n <=? 1 then inr n
      else rbind (fibonacci d (n - 1)) (fun a =>
           rbind (fibonacci d (n - 2)) (fun b => inr (a + b)))
  end.

Definition recursion_limit : nat := 1000.

(** The [for] loop of [is_prime]: [False] at the first divisor. *)
Fixpoint is_prime_loop (n : Z) (candidates : list Z) : bool :=
  match candidates with
  | [] => true
  | i :: rest => if n mod i =? 0 then false else is_prime_loop n rest
  end.

(** The nested helper [is_prime] of [test_algorithms]. *)
Definition is_prime (n : Z) : result bool :=
  if n <? 2 then inr false
  else rbind (math_sqrt n) (fun r =>
       rbind (int_of_float r) (fun k =>
       inr (is_prime_loop n (range 2 (k + 1))))).

(** The report dict returned by [generate_report]. *)
Record report := {
  total : Z;
  passed : Z;
  failed : Z;
  success_rate : float;
  duration_seconds : float;
  results : list TestResult
}.

(** [timedelta.total_seconds()], the duration being held in microseconds. *)
Definition total_seconds (d : Z) : float := Float64.div (Z2SF d) (Z2SF 1000000).

(** The literal [100.0]. *)
Definition float_100 : float := S754_finite false 7036874417766400 (-46).

Definition result_to_py (r : TestResult) : pyval :=
  PyDict [("test", PyStr (test r)); ("success", PyBool (success r));
          ("details", PyStr (details r)); ("timestamp", PyStr (timestamp r))].

Definition report_to_py (r : report) : pyval :=
  PyDict [("total", PyInt (total r)); ("passed", PyInt (passed r));
          ("failed", PyInt (failed r)); ("success_rate", PyFloat (success_rate r));
          ("duration_seconds", PyFloat (duration_seconds r));
          ("results", PyList (map result_to_py (results r)))].

Section Runner.

Variable rt : runtime.

(** [AgentTester.__init__] *)
Definition AgentTester_init : M unit :=
  modify (set_test_results (fun _ => [])) ;;
  t <- datetime_now ;;
  modify (set_start_time t).

(** [AgentTester.log_test] *)
Definition log_test (test_name : string) (ok : bool) (text : string) : M unit :=
  t <- datetime_now ;;
  modify (set_test_results (fun l =>
    l ++ [{| test := test_name; success := ok; details := text;
             timestamp := isoformat rt t |}])) ;;
  let status := if ok then "PASS" else "FAIL" in
  print [PStr status; PStr ": "; PStr test_name] ;;
  if String.eqb text EmptyString then ret tt
  else print [PStr "  Details: "; PStr text].

(** The [try] suite of [test_basic_operations]. *)
Definition test_basic_operations_body : M unit :=
  let result := 2 + 2 in
  py_assert (result =? 4) ("Expected 4, got " ++ pretty result) ;;
  let text := "Hello, Agent!" in
  py_assert (Z.of_nat (String.length text) =? 13)
    ("Expected length 13, got " ++ pretty (Z.of_nat (String.length text))) ;;
  let numbers := [1; 2; 3; 4; 5] in
  let squared := map (fun x => x ^ 2) numbers in
  py_assert (bool_decide (squared = [1; 4; 9; 16; 25]))
    ("Unexpected result: " ++ repr_list squared) ;;
  log_test "Basic Operations" true "Math, strings, and lists working correctly".

Definition test_basic_operations : M unit :=
  try_except Exception test_basic_operations_body
    (fun e => log_test "Basic Operations" false (exn_str e)).

Definition test_file : string := "temp_test_file.txt".

Definition test_content : string :=
  "This is a test file created by the agent." ++ newline ++ "Line 2" ++ newline ++ "Line 3".

(** The [try] suite of [test_file_operations]. *)
Definition test_file_operations_body : M unit :=
  open_w test_file ;;
  file_write test_file test_content ;;
  open_r test_file ;;
  read_content <- file_read test_file ;;
  py_assert (String.eqb read_content test_content) "File content mismatch" ;;
  os_remove test_file ;;
  log_test "File Operations" true "File write/read/delete successful".

Definition test_file_operations : M unit :=
  try_except Exception test_file_operations_body
    (fun e => log_test "File Operations" false (exn_str e)).

Definition data : pyval :=
  PyDict [("name", PyStr "Agent Test"); ("version", PyStr "1.0");
          ("features", PyList [PyStr "coding"; PyStr "testing"; PyStr "debugging"])].

(** The [try] suite of [test_data_structures]. *)
Definition test_data_structures_body : M unit :=
  json_str <- lift (json_dumps rt data) ;;
  parsed_data <- lift (json_loads rt json_str) ;;
  py_assert (py_eq parsed_data data) "JSON serialization/deserialization failed" ;;
  let set1 : gset Z := {[1; 2; 3; 4; 5]} in
  let set2 : gset Z := {[4; 5; 6; 7; 8]} in
  let intersection := set1 ∩ set2 in
  py_assert (bool_decide (intersection = {[4; 5]}))
    ("Expected (4, 5), got " ++ repr_set (elements intersection)) ;;
  log_test "Data Structures" true "Dictionaries, JSON, and sets working correctly".

Definition test_data_structures : M unit :=
  try_except Exception test_data_structures_body
    (fun e => log_test "Data Structures" false (exn_str e)).

(** The [try] suite of [test_algorithms]. *)
Definition test_algorithms_body : M unit :=
  fib_10 <- lift (fibonacci recursion_limit 10) ;;
  py_assert (fib_10 =? 55) ("Expected 55, got " ++ pretty fib_10) ;;
  let unsorted_list := [64; 34; 25; 12; 22; 11; 90] in
  let sorted_list := merge_sort Z.le unsorted_list in
  let expected := [11; 12; 22; 25; 34; 64; 90] in
  py_assert (bool_decide (sorted_list = expected))
    ("Expected " ++ repr_list expected ++ ", got " ++ repr_list sorted_list) ;;
  p17 <- lift (is_prime 17) ;;
  py_assert (Bool.eqb p17 true) "17 should be prime" ;;
  p18 <- lift (is_prime 18) ;;
  py_assert (Bool.eqb p18 false) "18 should not be prime" ;;
  log_test "Algorithms" true "Fibonacci, sorting, and prime checking working".

Definition test_algorithms : M unit :=
  try_except Exception test_algorithms_body
    (fun e => log_test "Algorithms" false (exn_str e)).

(** The [try] suite of [test_error_handling]: three inner [try] blocks,
    each logging a failure when its statement does not raise. *)
Definition test_error_handling_body : M unit :=
  try_except is_ZeroDivisionError
    (result <- lift (int_truediv 10 0) ;;
     log_test "Error Handling" false "Should have caught division by zero")
    (fun _ => ret tt) ;;
  try_except is_IndexError
    (let lst := [1; 2; 3] in
     item <- lift (py_getitem lst 10) ;;
     log_test "Error Handling" false "Should have caught index error")
    (fun _ => ret tt) ;;
  try_except is_TypeError
    (result <- lift (py_add (PyStr "string") (PyInt 42)) ;;
     log_test "Error Handling" false "Should have caught type error")
    (fun _ => ret tt) ;;
  log_test "Error Handling" true "All expected errors caught correctly".

Definition test_error_handling : M unit :=
  try_except Exception test_error_handling_body
    (fun e => log_test "Error Handling" false (exn_str e)).

(** The loop printing the failed tests. *)
Fixpoint print_failed (l : list TestResult) : M unit :=
  match l with
  | [] => ret tt
  | r :: l' =>
      (if negb (success r)
       then print [PStr "  - "; PStr (test r); PStr ": "; PStr (details r)]
       else ret tt) ;;
      print_failed l'
  end.

(** [AgentTester.generate_report] *)
Definition generate_report : M report :=
  end_time <- datetime_now ;;
  s <- get ;;
  let duration := end_time - start_time s in
  let n_passed := py_sum (map (fun _ => 1) (List.filter success (test_results s))) in
  let n_total := Z.of_nat (length (test_results s)) in
  print [PStr newline; PStr "=================================================="] ;;
  print [PStr "AGENT TEST REPORT"] ;;
  print [PStr "=================================================="] ;;
  print [PStr "Total Tests: "; PInt n_total] ;;
  print [PStr "Passed: "; PInt n_passed] ;;
  print [PStr "Failed: "; PInt (n_total - n_passed)] ;;
  ratio <- lift (int_truediv n_passed n_total) ;;
  print [PStr "Success Rate: "; PFixed 1 (Float64.mul ratio (Float64.of_int 100)); PStr "%"] ;;
  print [PStr "Duration: "; PFixed 2 (total_seconds duration); PStr " seconds"] ;;
  print [PStr "Timestamp: "; PStr (isoformat rt end_time)] ;;
  (if 0 <? n_total - n_passed
   then print [PStr newline; PStr "Failed Tests:"] ;; print_failed (test_results s)
   else ret tt) ;;
  ratio' <- lift (int_truediv n_passed n_total) ;;
  ret {| total := n_total;
         passed := n_passed;
         failed := n_total - n_passed;
         success_rate := Float64.mul ratio' (Float64.of_int 100);
         duration_seconds := total_seconds duration;
         results := test_results s |}.

Definition report_file : string := "agent_test_report.json".

(** [main] *)
Definition main : M bool :=
  print [PStr "Starting Agent Capability Tests..."] ;;
  print [PStr "Python Version: "; PStr (sys_version rt)] ;;
  print [PStr "Platform: "; PStr (sys_platform rt)] ;;
  print [PStr "Working Directory: "; PStr (getcwd rt)] ;;
  print [PStr "--------------------------------------------------"] ;;
  AgentTester_init ;;
  test_basic_operations ;;
  test_file_operations ;;
  test_data_structures ;;
  test_algorithms ;;
  test_error_handling ;;
  rep <- generate_report ;;
  open_w report_file ;;
  text <- lift (json_dumps rt (report_to_py rep)) ;;
  file_write report_file text ;;
  print [PStr newline; PStr "Test report saved to: agent_test_report.json"] ;;
  ret (Float64.eqb (success_rate rep) float_100).

(** The [__main__] block: [sys.exit(0 if success else 1)]; an exception
    that leaves [main] ends the process with status 1. *)
Definition exit_status (s : state) : Z :=
  match fst (main s) with
  | inr true => 0
  | inr false => 1
  | inl _ => 1
  end.

End Runner.

(** ** server.py *)

Inductive platform := Linux | Darwin | Windows.

(** The errno that the operating system gives to "address already in
    use" ([errno.EADDRINUSE]). *)
Definition EADDRINUSE (pf : platform) : Z :=
  match pf with
  | Linux => 98
  | Darwin => 48
  | Windows => 10048
  end.

(** The machine the server starts on: its operating system, the ports
    that another listener holds, any other refusal of [bind] (an errno and
    its text), and the fault of [os.chdir], if any. *)
Record host := {
  os : platform;
  occupied : Z -> bool;
  bind_fault : Z -> option (Z * string);
  chdir_fault : option (Z * string)
}.

(** How a call of [start_server] ends. *)
Inductive outcome :=
| Stopped (port : Z)
| Exit (status : Z)
| Uncaught (c : exn_class).

Inductive bind_outcome :=
| BindOk
| BindOSError (errno : Z) (msg : string)
| BindOverflow.

(** [socketserver.TCPServer(("", port), handler)]: the socket module
    refuses a port outside 0-65535 with [OverflowError]; the operating
    system refuses a port in use or any port it is told to. *)
Definition tcp_bind (h : host) (port : Z) : bind_outcome :=
  if (port <? 0) || (65535 <? port) then BindOverflow
  else if occupied h port
       then BindOSError (EADDRINUSE (os h))
              ("[Errno " ++ pretty (EADDRINUSE (os h)) ++ "] Address already in use")
  else match bind_fault h port with
       | Some (n, msg) => BindOSError n msg
       | None => BindOk
       end.

(** The [except OSError as e] clause; [retry] is the recursive call. *)
Definition on_OSError (retry : list (list piece) * outcome) (port errno : Z) (msg : string)
  : list (list piece) * outcome :=
  if errno =? 48
  then ([PStr "Port "; PInt port; PStr " is already in use. Trying port "; PInt (port + 1)]
          :: fst retry, snd retry)
  else ([[PStr "Error starting server: "; PStr msg]], Exit 1).

(** [start_server]: the lines printed and the way the call ends.
    [depth] is the number of frames left before [RecursionError];
    [Stopped port] stands for serving on [port] until the user
    interrupts, which the function answers by returning. *)
Fixpoint start_server (depth : nat) (h : host) (port : Z) : list (list piece) * outcome :=
  match depth with
  | O => ([], Uncaught RecursionError)
  | S d =>
      match chdir_fault h with
      | Some (n, msg) => on_OSError (start_server d h (port + 1)) port n msg
      | None =>
          match tcp_bind h port with
          | BindOverflow => ([], Uncaught OverflowError)
          | BindOSError n msg => on_OSError (start_server d h (port + 1)) port n msg
          | BindOk =>
              ([[PStr "Starting server at http://localhost:"; PInt port];
                [PStr "Serving files from: "];
                [PStr "Dashboard: http://localhost:"; PInt port; PStr "/dashboard.html"];
                [PStr "Press Ctrl+C to stop the server"];
                [PStr "--------------------------------------------------"];
                [PStr newline; PStr "Server stopped by user"]],
               Stopped port)
          end
      end
  end.


(** ** Vocabulary of the statements *)

(** The five checks of [AgentTester], by name. *)
Inductive check :=
| BasicOperations
| FileOperations
| DataStructures
| Algorithms
| ErrorHandling.

(** The name under which a check logs its result. *)
Definition check_name (c : check) : string :=
  match c with
  | BasicOperations => "Basic Operations"
  | FileOperations => "File Operations"
  | DataStructures => "Data Structures"
  | Algorithms => "Algorithms"
  | ErrorHandling => "Error Handling"
  end.

(** The [try] suite of a check. *)
Definition check_body (rt : runtime) (c : check) : M unit :=
  match c with
  | BasicOperations => test_basic_operations_body rt
  | FileOperations => test_file_operations_body rt
  | DataStructures => test_data_structures_body rt
  | Algorithms => test_algorithms_body rt
  | ErrorHandling => test_error_handling_body rt
  end.

(** The method of a check. *)
Definition run_check (rt : runtime) (c : check) : M unit :=
  match c with
  | BasicOperations => test_basic_operations rt
  | FileOperations => test_file_operations rt
  | DataStructures => test_data_structures rt
  | Algorithms => test_algorithms rt
  | ErrorHandling => test_error_handling rt
  end.

(** What a read-only method leaves alone: everything but the console and
    the number of clock readings. *)
Definition same_tester (s s' : state) : Prop :=
  test_results s' = test_results s /\ start_time s' = start_time s /\
  files s' = files s /\ clock s' = clock s /\ os_fault s' = os_fault s.

Definition all_passed (l : list TestResult) : Prop :=
  forall r, In r l -> success r = true.

(** [main] up to the report, and from the report on. *)
Definition checks_and_report (rt : runtime) : M report :=
  print [PStr "Starting Agent Capability Tests..."] ;;
  print [PStr "Python Version: "; PStr (sys_version rt)] ;;
  print [PStr "Platform: "; PStr (sys_platform rt)] ;;
  print [PStr "Working Directory: "; PStr (getcwd rt)] ;;
  print [PStr "--------------------------------------------------"] ;;
  AgentTester_init ;;
  test_basic_operations rt ;;
  test_file_operations rt ;;
  test_data_structures rt ;;
  test_algorithms rt ;;
  test_error_handling rt ;;
  generate_report rt.

Definition save_report (rt : runtime) (rep : report) : M bool :=
  open_w report_file ;;
  text <- lift (json_dumps rt (report_to_py rep)) ;;
  file_write report_file text ;;
  print [PStr newline; PStr "Test report saved to: agent_test_report.json"] ;;
  ret (Float64.eqb (success_rate rep) float_100).

(** [int(math.sqrt(n))], the bound of the loop of [is_prime]. *)
Definition sqrt_bound (n : Z) : result Z := rbind (math_sqrt n) int_of_float.

(** Trial division on machine integers, for the primality of one large
    number: [n] odd candidates from [d] on, [m] times over. *)
Fixpoint trial_inner (n : nat) (p d : int) : option int :=
  match n with
  | O => Some d
  | S n' => if Uint63.eqb (Uint63.mod p d) 0%uint63 then None
            else trial_inner n' p (Uint63.add d 2%uint63)
  end.

Fixpoint trial_outer (m n : nat) (p d : int) : option int :=
  match m with
  | O => Some d
  | S m' => match trial_inner n p d with
            | None => None
            | Some d' => trial_outer m' n p d'
            end
  end.

(** [2^53 + 5] and its square. *)
Definition big_prime : Z := 9007199254740997.

Definition big_square : Z := big_prime * big_prime.

(** The literal [1.0]. *)
Definition float_1 : float := S754_finite false 4503599627370496 (-52).

(** Where the remainder [r] of a division by [D] lies in its interval:
    the position that [SpecFloat] calls a location. *)
Definition loc_of (r D : Z) : location :=
  if r =? 0 then loc_Exact else loc_Inexact (2 * r ?= D).

(** A shift record holds the integer part of [N / D] and the position of
    the rest. *)
Record represents (mrs : shr_record) (N D : Z) : Prop := {
  rep_D : 0 < D;
  rep_N : 0 <= N;
  rep_m : shr_m mrs = N / D;
  rep_loc : loc_of_shr_record mrs = loc_of (N mod D) D
}.

(** *** Concrete environments *)

(** A runtime for the examples.  Its [json] codec is a stand-in that is
    right on the one value the checks encode: [loads] returns [data] for
    the text that [dumps] gives [data]. *)
Definition example_runtime : runtime :=
  {| isoformat := fun t => pretty t;
     json_dumps := fun v => inr (if py_eq v data then "data" else "report");
     json_loads := fun text =>
       if String.eqb text "data" then inr data
       else inl (Exn ValueError "Expecting value");
     sys_version := "3.11";
     sys_platform := "linux";
     getcwd := "/work" |}.

(** A process start: no results, an empty working directory, a silent
    console, a clock that advances by one microsecond per reading, and an
    operating system that refuses what [faults] lists. *)
Definition fresh (faults : os_call -> option (Z * string)) : state :=
  {| test_results := [];
     start_time := 0;
     files := ∅;
     stdout := [];
     clock := fun n => Z.of_nat n;
     ticks := 0;
     os_fault := faults |}.

Definition no_fault : os_call -> option (Z * string) := fun _ => None.

(** The working directory is read-only: nothing can be opened for
    writing. *)
Definition read_only : os_call -> option (Z * string) :=
  fun c => match c with
           | OpenW path => Some (13, ("[Errno 13] Permission denied: '" ++ path ++ "'")%string)
           | _ => None
           end.


(** The state with the given results. *)
Definition with_results (l : list TestResult) (s : state) : state :=
  set_test_results (fun _ => l) s.

Definition passing (name : string) : TestResult :=
  {| test := name; success := true; details := EmptyString; timestamp := "0" |}.

Definition failing (name text : string) : TestResult :=
  {| test := name; success := false; details := text; timestamp := "0" |}.

(** The three results of the unit test [test_generate_report]. *)
Definition two_of_three : state :=
  with_results [passing "Test 1"; passing "Test 2"; failing "Test 3" "Error message"]
    (fresh no_fault).

(** A working directory in which a file of the probe's name is left over. *)
Definition leftover : state :=
  set_files (insert test_file "kept") (fresh no_fault).

(** A list that a 64-bit process can hold: its entries are as many
    pointers of 8 bytes, in an address space of at most [2^57] bytes. *)
Definition holdable {A} (l : list A) : Prop := 8 * Z.of_nat (length l) < 2 ^ 57.

(** The machine of the failing start: Linux, port 8000 held by another
    listener. *)
Definition linux_8000_busy : host :=
  {| os := Linux;
     occupied := fun p => p =? 8000;
     bind_fault := fun _ => None;
     chdir_fault := None |}.

Definition darwin_8000_busy : host :=
  {| os := Darwin;
     occupied := fun p => p =? 8000;
     bind_fault := fun _ => None;
     chdir_fault := None |}.

(** ** Further vocabulary: the runner *)

(** The Fibonacci numbers: [fib 0 = 0], [fib 1 = 1] and
    [fib (n + 2) = fib (n + 1) + fib n]. *)
Fixpoint fib_pair (n : nat) : Z * Z :=
  match n with
  | O => (0, 1)
  | S n' => let '(a, b) := fib_pair n' in (b, a + b)
  end.

Definition fib (n : nat) : Z := fst (fib_pair n).

(** The summary that a check logs with its success. *)
Definition check_summary (c : check) : string :=
  match c with
  | BasicOperations => "Math, strings, and lists working correctly"
  | FileOperations => "File write/read/delete successful"
  | DataStructures => "Dictionaries, JSON, and sets working correctly"
  | Algorithms => "Fibonacci, sorting, and prime checking working"
  | ErrorHandling => "All expected errors caught correctly"
  end.

(** The checks whose suite touches neither the file system nor the
    codec. *)
Definition self_contained (c : check) : bool :=
  match c with
  | BasicOperations | Algorithms | ErrorHandling => true
  | FileOperations | DataStructures => false
  end.

(** The entry that a check appends at clock reading [t]. *)
Definition passed_entry (rt : runtime) (c : check) (t : Z) : TestResult :=
  {| test := check_name c; success := true; details := check_summary c;
     timestamp := isoformat rt t |}.

Definition failed_entry (rt : runtime) (c : check) (text : string) (t : Z) : TestResult :=
  {| test := check_name c; success := false; details := text;
     timestamp := isoformat rt t |}.

(** The codec gives back the dict of [test_data_structures]. *)
Definition round_trips (rt : runtime) : bool :=
  match json_dumps rt data with
  | inr text =>
      match json_loads rt text with
      | inr v => py_eq v data
      | inl _ => false
      end
  | inl _ => false
  end.

(** The calls that [test_file_operations] makes, in their order. *)
Definition file_calls : list os_call :=
  [OpenW test_file; WriteTo test_file; OpenR test_file; ReadFrom test_file; Remove test_file].

(** The first call of [l] that the operating system refuses, with the
    errno and the text of its [OSError]. *)
Fixpoint first_fault (faults : os_call -> option (Z * string)) (l : list os_call)
  : option (os_call * (Z * string)) :=
  match l with
  | [] => None
  | c :: l' =>
      match faults c with
      | Some f => Some (c, f)
      | None => first_fault faults l'
      end
  end.

(** The working directory after [test_file_operations], by the call that
    was refused first. *)
Definition files_after_file_check (fs : gmap string string)
    (fault : option (os_call * (Z * string))) : gmap string string :=
  match fault with
  | None => delete test_file fs
  | Some (OpenW _, _) => fs
  | Some (WriteTo _, _) => <[test_file := EmptyString]> fs
  | Some (_, _) => <[test_file := test_content]> fs
  end.

(** The lines of the report's summary, for the report [rep] generated at
    clock reading [end_time]. *)
Definition summary_lines (rt : runtime) (rep : report) (end_time : Z) : list (list piece) :=
  [[PStr newline; PStr "=================================================="];
   [PStr "AGENT TEST REPORT"];
   [PStr "=================================================="];
   [PStr "Total Tests: "; PInt (total rep)];
   [PStr "Passed: "; PInt (passed rep)];
   [PStr "Failed: "; PInt (failed rep)];
   [PStr "Success Rate: "; PFixed 1 (success_rate rep); PStr "%"];
   [PStr "Duration: "; PFixed 2 (duration_seconds rep); PStr " seconds"];
   [PStr "Timestamp: "; PStr (isoformat rt end_time)]].

Definition failed_line (r : TestResult) : list piece :=
  [PStr "  - "; PStr (test r); PStr ": "; PStr (details r)].

(** The section that lists the failed tests. *)
Definition failed_section (l : list TestResult) : list (list piece) :=
  match List.filter (fun r => negb (success r)) l with
  | [] => []
  | fl => [PStr newline; PStr "Failed Tests:"] :: map failed_line fl
  end.

(** The names of the five checks, in the order in which [main] runs
    them. *)
Definition checks_in_order : list check :=
  [BasicOperations; FileOperations; DataStructures; Algorithms; ErrorHandling].

(** ** Further vocabulary: the server *)



(** [bind] on [port] is refused as "address already in use" under the
    number that [start_server] tests for. *)
Definition refused_48 (h : host) (port : Z) : Prop :=
  exists msg, tcp_bind h port = BindOSError 48 msg.

(** None of the calls of [l] is refused. *)
Definition no_refusal (faults : os_call -> option (Z * string)) (l : list os_call) : bool :=
  match first_fault faults l with
  | None => true
  | Some _ => false
  end.

(** Whether a check passes, by what it depends on: the file check on the
    operating system, the data check on the codec, the others on
    nothing. *)
Definition check_passes (rt : runtime) (faults : os_call -> option (Z * string)) (c : check) : bool :=
  match c with
  | FileOperations => no_refusal faults file_calls
  | DataStructures => round_trips rt
  | BasicOperations | Algorithms | ErrorHandling => true
  end.

(** The working directory after a check. *)
Definition files_after (c : check) (faults : os_call -> option (Z * string))
    (fs : gmap string string) : gmap string string :=
  match c with
  | FileOperations => files_after_file_check fs (first_fault faults file_calls)
  | _ => fs
  end.

(** ** The runner under any start of the interpreter *)

(** What the runner depends on in the way its process was started:
    whether [assert] statements are compiled ([python -O] and
    [PYTHONOPTIMIZE] leave them out), and what the console does with a
    line.  [refuses ip out line] is the exception that [print] raises for
    [line] on a console that holds [out]: [UnicodeEncodeError] where the
    encoding of stdout lacks a character of the text, [OSError] on a pipe
    that was closed; [None] where the line is printed. *)
Record interp := {
  optimize : bool;
  refuses : list (list piece) -> list piece -> option exn
}.

(** The start that Section [Runner] describes: assertions are compiled,
    the console takes every line. *)
Definition plain : interp :=
  {| optimize := false; refuses := fun _ _ => None |}.

(** The console takes every line. *)
Definition accepts (ip : interp) : Prop :=
  forall out line, refuses ip out line = None.

(** The line on which [log_test] prints the status. *)
Definition status_line (ok : bool) (test_name : string) : list piece :=
  [PStr (if ok then "PASS" else "FAIL"); PStr ": "; PStr test_name].

Module Started.

Section Methods.

Variable rt : runtime.
Variable ip : interp.

(** [print(line)]: the console is unchanged when the line is refused. *)
Definition print (line : list piece) : M unit :=
  fun s => match refuses ip (stdout s) line with
           | Some e => (inl e, s)
           | None => (inr tt, set_stdout (fun out => out ++ [line]) s)
           end.

(** [assert cond, msg]: under [-O] the statement is not compiled, and
    [cond] is not evaluated. *)
Definition py_assert (cond : M bool) (msg : string) : M unit :=
  if optimize ip then ret tt
  else c <- cond ;;
       if c then ret tt else raise (Exn AssertionError msg).

(** [AgentTester.log_test]: the entry is appended before anything is
    printed. *)
Definition log_test (test_name : string) (ok : bool) (text : string) : M unit :=
  t <- datetime_now ;;
  modify (set_test_results (fun l =>
    l ++ [{| test := test_name; success := ok; details := text;
             timestamp := isoformat rt t |}])) ;;
  let status := if ok then "PASS" else "FAIL" in
  print [PStr status; PStr ": "; PStr test_name] ;;
  if String.eqb text EmptyString then ret tt
  else print [PStr "  Details: "; PStr text].

(** The [try] suite of [test_basic_operations]. *)
Definition test_basic_operations_body : M unit :=
  let result := 2 + 2 in
  py_assert (ret (result =? 4)) ("Expected 4, got " ++ pretty result) ;;
  let text := "Hello, Agent!" in
  py_assert (ret (Z.of_nat (String.length text) =? 13))
    ("Expected length 13, got " ++ pretty (Z.of_nat (String.length text))) ;;
  let numbers := [1; 2; 3; 4; 5] in
  let squared := map (fun x => x ^ 2) numbers in
  py_assert (ret (bool_decide (squared = [1; 4; 9; 16; 25])))
    ("Unexpected result: " ++ repr_list squared) ;;
  log_test "Basic Operations" true "Math, strings, and lists working correctly".

Definition test_basic_operations : M unit :=
  try_except Exception test_basic_operations_body
    (fun e => log_test "Basic Operations" false (exn_str e)).

(** The [try] suite of [test_file_operations]. *)
Definition test_file_operations_body : M unit :=
  open_w test_file ;;
  file_write test_file test_content ;;
  open_r test_file ;;
  read_content <- file_read test_file ;;
  py_assert (ret (String.eqb read_content test_content)) "File content mismatch" ;;
  os_remove test_file ;;
  log_test "File Operations" true "File write/read/delete successful".

Definition test_file_operations : M unit :=
  try_except Exception test_file_operations_body
    (fun e => log_test "File Operations" false (exn_str e)).

(** The [try] suite of [test_data_structures]. *)
Definition test_data_structures_body : M unit :=
  json_str <- lift (json_dumps rt data) ;;
  parsed_data <- lift (json_loads rt json_str) ;;
  py_assert (ret (py_eq parsed_data data)) "JSON serialization/deserialization failed" ;;
  let set1 : gset Z := {[1; 2; 3; 4; 5]} in
  let set2 : gset Z := {[4; 5; 6; 7; 8]} in
  let intersection := set1 ∩ set2 in
  py_assert (ret (bool_decide (intersection = {[4; 5]})))
    ("Expected (4, 5), got " ++ repr_set (elements intersection)) ;;
  log_test "Data Structures" true "Dictionaries, JSON, and sets working correctly".

Definition test_data_structures : M unit :=
  try_except Exception test_data_structures_body
    (fun e => log_test "Data Structures" false (exn_str e)).

(** The [try] suite of [test_algorithms]; the calls of [is_prime] are
    part of the assertions. *)
Definition test_algorithms_body : M unit :=
  fib_10 <- lift (fibonacci recursion_limit 10) ;;
  py_assert (ret (fib_10 =? 55)) ("Expected 55, got " ++ pretty fib_10) ;;
  let unsorted_list := [64; 34; 25; 12; 22; 11; 90] in
  let sorted_list := merge_sort Z.le unsorted_list in
  let expected := [11; 12; 22; 25; 34; 64; 90] in
  py_assert (ret (bool_decide (sorted_list = expected)))
    ("Expected " ++ repr_list expected ++ ", got " ++ repr_list sorted_list) ;;
  py_assert (p17 <- lift (is_prime 17) ;; ret (Bool.eqb p17 true)) "17 should be prime" ;;
  py_assert (p18 <- lift (is_prime 18) ;; ret (Bool.eqb p18 false)) "18 should not be prime" ;;
  log_test "Algorithms" true "Fibonacci, sorting, and prime checking working".

Definition test_algorithms : M unit :=
  try_except Exception test_algorithms_body
    (fun e => log_test "Algorithms" false (exn_str e)).

(** The [try] suite of [test_error_handling]. *)
Definition test_error_handling_body : M unit :=
  try_except is_ZeroDivisionError
    (result <- lift (int_truediv 10 0) ;;
     log_test "Error Handling" false "Should have caught division by zero")
    (fun _ => ret tt) ;;
  try_except is_IndexError
    (let lst := [1; 2; 3] in
     item <- lift (py_getitem lst 10) ;;
     log_test "Error Handling" false "Should have caught index error")
    (fun _ => ret tt) ;;
  try_except is_TypeError
    (result <- lift (py_add (PyStr "string") (PyInt 42)) ;;
     log_test "Error Handling" false "Should have caught type error")
    (fun _ => ret tt) ;;
  log_test "Error Handling" true "All expected errors caught correctly".

Definition test_error_handling : M unit :=
  try_except Exception test_error_handling_body
    (fun e => log_test "Error Handling" false (exn_str e)).

(** The loop printing the failed tests. *)
Fixpoint print_failed (l : list TestResult) : M unit :=
  match l with
  | [] => ret tt
  | r :: l' =>
      (if negb (success r)
       then print [PStr "  - "; PStr (test r); PStr ": "; PStr (details r)]
       else ret tt) ;;
      print_failed l'
  end.

(** [AgentTester.generate_report] *)
Definition generate_report : M report :=
  end_time <- datetime_now ;;
  s <- get ;;
  let duration := end_time - start_time s in
  let n_passed := py_sum (map (fun _ => 1) (List.filter success (test_results s))) in
  let n_total := Z.of_nat (length (test_results s)) in
  print [PStr newline; PStr "=================================================="] ;;
  print [PStr "AGENT TEST REPORT"] ;;
  print [PStr "=================================================="] ;;
  print [PStr "Total Tests: "; PInt n_total] ;;
  print [PStr "Passed: "; PInt n_passed] ;;
  print [PStr "Failed: "; PInt (n_total - n_passed)] ;;
  ratio <- lift (int_truediv n_passed n_total) ;;
  print [PStr "Success Rate: "; PFixed 1 (Float64.mul ratio (Float64.of_int 100)); PStr "%"] ;;
  print [PStr "Duration: "; PFixed 2 (total_seconds duration); PStr " seconds"] ;;
  print [PStr "Timestamp: "; PStr (isoformat rt end_time)] ;;
  (if 0 <? n_total - n_passed
   then print [PStr newline; PStr "Failed Tests:"] ;; print_failed (test_results s)
   else ret tt) ;;
  ratio' <- lift (int_truediv n_passed n_total) ;;
  ret {| total := n_total;
         passed := n_passed;
         failed := n_total - n_passed;
         success_rate := Float64.mul ratio' (Float64.of_int 100);
         duration_seconds := total_seconds duration;
         results := test_results s |}.

(** The statements of [main] up to the report, and from the report
    on. *)
Definition checks_and_report : M report :=
  print [PStr "Starting Agent Capability Tests..."] ;;
  print [PStr "Python Version: "; PStr (sys_version rt)] ;;
  print [PStr "Platform: "; PStr (sys_platform rt)] ;;
  print [PStr "Working Directory: "; PStr (getcwd rt)] ;;
  print [PStr "--------------------------------------------------"] ;;
  AgentTester_init ;;
  test_basic_operations ;;
  test_file_operations ;;
  test_data_structures ;;
  test_algorithms ;;
  test_error_handling ;;
  generate_report.

Definition save_report (rep : report) : M bool :=
  open_w report_file ;;
  text <- lift (json_dumps rt (report_to_py rep)) ;;
  file_write report_file text ;;
  print [PStr newline; PStr "Test report saved to: agent_test_report.json"] ;;
  ret (Float64.eqb (success_rate rep) float_100).

(** [main] *)
Definition main : M bool :=
  print [PStr "Starting Agent Capability Tests..."] ;;
  print [PStr "Python Version: "; PStr (sys_version rt)] ;;
  print [PStr "Platform: "; PStr (sys_platform rt)] ;;
  print [PStr "Working Directory: "; PStr (getcwd rt)] ;;
  print [PStr "--------------------------------------------------"] ;;
  AgentTester_init ;;
  test_basic_operations ;;
  test_file_operations ;;
  test_data_structures ;;
  test_algorithms ;;
  test_error_handling ;;
  rep <- generate_report ;;
  open_w report_file ;;
  text <- lift (json_dumps rt (report_to_py rep)) ;;
  file_write report_file text ;;
  print [PStr newline; PStr "Test report saved to: agent_test_report.json"] ;;
  ret (Float64.eqb (success_rate rep) float_100).

(** The [__main__] block. *)
Definition exit_status (s : state) : Z :=
  match fst (main s) with
  | inr true => 0
  | inr false => 1
  | inl _ => 1
  end.

(** The [try] suite of a check, and its method. *)
Definition check_body (c : check) : M unit :=
  match c with
  | BasicOperations => test_basic_operations_body
  | FileOperations => test_file_operations_body
  | DataStructures => test_data_structures_body
  | Algorithms => test_algorithms_body
  | ErrorHandling => test_error_handling_body
  end.

Definition run_check (c : check) : M unit :=
  match c with
  | BasicOperations => test_basic_operations
  | FileOperations => test_file_operations
  | DataStructures => test_data_structures
  | Algorithms => test_algorithms
  | ErrorHandling => test_error_handling
  end.

(** The data check finds nothing wrong: the codec returns twice, and
    what it decodes is the dict, which only a compiled assertion looks
    at. *)
Definition data_check_passes : bool :=
  match json_dumps rt data with
  | inr text =>
      match json_loads rt text with
      | inr v => optimize ip || py_eq v data
      | inl _ => false
      end
  | inl _ => false
  end.

(** Whether the suite of a check reaches its last statement, the logging
    of the success. *)
Definition check_passes (faults : os_call -> option (Z * string)) (c : check) : bool :=
  match c with
  | FileOperations => no_refusal faults file_calls
  | DataStructures => data_check_passes
  | BasicOperations | Algorithms | ErrorHandling => true
  end.

End Methods.

End Started.

(** What a runner whose assertions are not compiled makes of the codec:
    it does not look at what [json.loads] returns, as if that were the
    dict encoded.  With the assertions compiled the runtime is as it
    is. *)
Definition unasserted (rt : runtime) (ip : interp) : runtime :=
  {| isoformat := isoformat rt;
     json_dumps := json_dumps rt;
     json_loads := fun text =>
       if optimize ip
       then match json_loads rt text with
            | inr _ => inr data
            | inl e => inl e
            end
       else json_loads rt text;
     sys_version := sys_version rt;
     sys_platform := sys_platform rt;
     getcwd := getcwd rt |}.

(** A statement that only reads the tester: whether it returns or
    raises, it leaves everything but the console and the number of clock
    readings as it was. *)
Definition reads_only {A} (m : M A) : Prop :=
  forall s, same_tester s (snd (m s)).

(** The text of the [UnicodeEncodeError] for a line that begins with
    three characters outside ASCII, as the status lines do. *)
Definition ascii_refusal : exn :=
  Exn UnicodeEncodeError
    "'ascii' codec can't encode characters in position 0-2: ordinal not in range(128)".

(** A console whose encoding is ASCII (a process started with
    [PYTHONIOENCODING=ascii], or under the C locale of an interpreter
    that does not coerce it).  The marks before PASS and FAIL are not
    ASCII, so the status lines of [log_test] are refused. *)
Definition ascii_console : interp :=
  {| optimize := false;
     refuses := fun _ line =>
       match line with
       | [PStr status; PStr _; PStr _] =>
           if String.eqb status "PASS" || String.eqb status "FAIL"
           then Some ascii_refusal else None
       | _ => None
       end |}.

(** The interpreter started with [-O], on a console that takes every
    line. *)
Definition optimized : interp :=
  {| optimize := true; refuses := fun _ _ => None |}.

(** A codec that decodes to another dict than the one encoded. *)
Definition lossy_runtime : runtime :=
  {| isoformat := fun t => pretty t;
     json_dumps := fun _ => inr "{}";
     json_loads := fun _ => inr (PyDict []);
     sys_version := "3.11";
     sys_platform := "linux";
     getcwd := "/work" |}.

(** The disk is full: nothing can be written. *)
Definition disk_full : os_call -> option (Z * string) :=
  fun c => match c with
           | WriteTo _ => Some (28, "[Errno 28] No space left on device")
           | _ => None
           end.



(** ** test_agent.py: the unit tests of [AgentTester] *)

(** *** The assertions of [unittest.TestCase]

    These are method calls, which [-O] leaves in place.  A failed
    assertion raises [AssertionError]; its text is the first line of the
    one that unittest composes. *)

(** [self.fail(msg)] unless [expr] holds. *)
Definition failUnless (expr : bool) (msg : string) : M unit :=
  if expr then ret tt else raise (Exn AssertionError msg).

(** [assertEqual] on ints. *)
Definition assertEqual_int (first second : Z) : M unit :=
  failUnless (first =? second) (pretty first ++ " != " ++ pretty second).

(** [assertEqual] on strings. *)
Definition assertEqual_str (first second : string) : M unit :=
  failUnless (String.eqb first second) ("'" ++ first ++ "' != '" ++ second ++ "'").

Definition assertTrue (expr : bool) : M unit :=
  failUnless expr "False is not true".

Definition assertFalse (expr : bool) : M unit :=
  failUnless (negb expr) "True is not false".

(** The keys of a dict. *)
Definition keys (v : pyval) : list string :=
  match v with
  | PyDict d => map fst d
  | _ => []
  end.

(** [assertIn(member, container)] for a dict [container]. *)
Definition assertIn (member : string) (container : pyval) : M unit :=
  failUnless (bool_decide (member ∈ keys container))
    ("'" ++ member ++ "' not found in the dict").

(** [round(x, places) == 0]: the decimal rounding of a finite [x] is zero
    when [|x|] is at most half a unit of the last place kept (a tie goes
    to the even neighbour, which is zero). *)
Definition rounds_to_zero (x : float) (places : nat) : bool :=
  let half := (1 # Pos.of_nat (2 * 10 ^ places))%Q in
  is_finite x && Qle_bool (Qopp half) (Float64.to_Q x) && Qle_bool (Float64.to_Q x) half.

(** [first - second] on floats. *)
Definition float_sub (x y : float) : float := SFsub Float64.prec Float64.emax x y.

(** [assertAlmostEqual(first, second, places=places)]. *)
Definition assertAlmostEqual (first second : float) (places : nat) : M unit :=
  if Float64.eqb first second then ret tt
  else
    let diff := SFabs (float_sub first second) in
    failUnless (rounds_to_zero diff places) "first != second within the places".

(** The literal [66.7]. *)
Definition float_66_7 : float := S754_finite false 4693595236650189 (-46).

(** [l[i]] on the list of results, with Python's negative indices. *)
Definition getitem (l : list TestResult) (i : Z) : M TestResult :=
  let n := Z.of_nat (length l) in
  let j := if i <? 0 then i + n else i in
  if (j <? 0) || (n <=? j) then raise (Exn IndexError "list index out of range")
  else match l !! Z.to_nat j with
       | Some r => ret r
       | None => raise (Exn IndexError "list index out of range")
       end.

(** [len(self.tester.test_results)]. *)
Definition len_results : M Z :=
  s <- get ;; ret (Z.of_nat (length (test_results s))).

(** *** Statements under [unittest.mock.patch] *)

(** The two objects that [test_file_operations] patches, [builtins.open]
    and [os.remove], by the number of calls each has received. *)
Record mocks := {
  open_calls : nat;
  remove_calls : nat
}.

Definition no_calls : mocks := {| open_calls := 0; remove_calls := 0 |}.

(** A statement that runs under the patches: it sees the mocks beside
    the state of the process. *)
Definition Patched (A : Type) : Type := mocks * state -> result A * (mocks * state).

Definition pret {A} (a : A) : Patched A := fun ks => (inr a, ks).

Definition pbind {A B} (m : Patched A) (k : A -> Patched B) : Patched B :=
  fun ks => match m ks with
            | (inl e, ks') => (inl e, ks')
            | (inr a, ks') => k a ks'
            end.

(** A statement that does not touch the patched names. *)
Definition unpatched {A} (m : M A) : Patched A :=
  fun ks => match m (snd ks) with
            | (r, s') => (r, (fst ks, s'))
            end.

Definition ptry_except {A} (catches : exn_class -> bool) (body : Patched A)
    (handler : exn -> Patched A) : Patched A :=
  fun ks => match body ks with
            | (inl e, ks') => if catches (exn_cls e) then handler e ks' else (inl e, ks')
            | (inr a, ks') => (inr a, ks')
            end.

(** A call of the mock of [open]; the call of the mock of [os.remove]. *)
Definition call_open : Patched unit :=
  fun ks => (inr tt, ({| open_calls := S (open_calls (fst ks));
                         remove_calls := remove_calls (fst ks) |}, snd ks)).

Definition call_remove : Patched unit :=
  fun ks => (inr tt, ({| open_calls := open_calls (fst ks);
                         remove_calls := S (remove_calls (fst ks)) |}, snd ks)).

Definition get_mocks : Patched mocks := fun ks => (inr (fst ks), ks).

Declare Scope patched_scope.
Delimit Scope patched_scope with patched.
Notation "x <- m ;; k" := (pbind m (fun x => k))
  (at level 20, m at level 99, k at level 200, only parsing) : patched_scope.
Notation "m ;; k" := (pbind m (fun _ => k))
  (at level 100, k at level 200, only parsing, right associativity) : patched_scope.

(** The names that [test_file_operations] looks up at run time: [open]
    in its two modes, the methods of the file object, [os.remove]. *)
Record file_api := {
  api_open_w : string -> Patched unit;
  api_write : string -> string -> Patched unit;
  api_open_r : string -> Patched unit;
  api_read : string -> Patched string;
  api_remove : string -> Patched unit
}.

(** Without a patch the names are those of the interpreter. *)
Definition builtin_files : file_api :=
  {| api_open_w := fun path => unpatched (open_w path);
     api_write := fun path text => unpatched (file_write path text);
     api_open_r := fun path => unpatched (open_r path);
     api_read := fun path => unpatched (file_read path);
     api_remove := fun path => unpatched (os_remove path) |}.

(** Under [patch("builtins.open", new_callable=mock_open,
    read_data=read_data)] and [patch("os.remove")]: a call is counted and
    touches no file, [write] does nothing, [read] returns [read_data]. *)
Definition mock_files (read_data : string) : file_api :=
  {| api_open_w := fun _ => call_open;
     api_write := fun _ _ => pret tt;
     api_open_r := fun _ => call_open;
     api_read := fun _ => pret read_data;
     api_remove := fun _ => call_remove |}.

(** [mock.assert_called()] and [mock.assert_called_once()]. *)
Definition assert_called (name : string) (call_count : nat) : M unit :=
  failUnless (negb (Nat.eqb call_count 0))
    ("Expected '" ++ name ++ "' to have been called.").

Definition assert_called_once (name : string) (call_count : nat) : M unit :=
  failUnless (Nat.eqb call_count 1)
    ("Expected '" ++ name ++ "' to have been called once. Called "
       ++ pretty (Z.of_nat call_count) ++ " times.").

Module TestAgentTester.

Section Tests.

Variable rt : runtime.
Variable ip : interp.

(** [setUp]: [self.tester = AgentTester()]. *)
Definition setUp : M unit := AgentTester_init.

(** [test_initialization].  That [test_results] is a list and
    [start_time] is not [None] holds by the types of the two fields. *)
Definition test_initialization : M unit :=
  n <- len_results ;;
  assertEqual_int n 0.

Definition test_log_test_success : M unit :=
  Started.log_test rt ip "Test Case" true "Success details" ;;
  n <- len_results ;;
  assertEqual_int n 1 ;;
  s <- get ;;
  result <- getitem (test_results s) 0 ;;
  assertEqual_str (test result) "Test Case" ;;
  assertTrue (success result) ;;
  assertEqual_str (details result) "Success details" ;;
  assertIn "timestamp" (result_to_py result).

Definition test_log_test_failure : M unit :=
  Started.log_test rt ip "Test Case" false "Failure details" ;;
  n <- len_results ;;
  assertEqual_int n 1 ;;
  s <- get ;;
  result <- getitem (test_results s) 0 ;;
  assertEqual_str (test result) "Test Case" ;;
  assertFalse (success result) ;;
  assertEqual_str (details result) "Failure details".

(** The statements that follow the call of the check in the five tests of
    the checks. *)
Definition expect_pass (initial_count : Z) (name : string) : M unit :=
  n <- len_results ;;
  assertEqual_int n (initial_count + 1) ;;
  s <- get ;;
  result <- getitem (test_results s) (-1) ;;
  assertTrue (success result) ;;
  assertEqual_str (test result) name.

Definition test_basic_operations : M unit :=
  initial_count <- len_results ;;
  Started.run_check rt ip BasicOperations ;;
  expect_pass initial_count "Basic Operations".

Definition test_data_structures : M unit :=
  initial_count <- len_results ;;
  Started.run_check rt ip DataStructures ;;
  expect_pass initial_count "Data Structures".

Definition test_algorithms : M unit :=
  initial_count <- len_results ;;
  Started.run_check rt ip Algorithms ;;
  expect_pass initial_count "Algorithms".

Definition test_error_handling : M unit :=
  initial_count <- len_results ;;
  Started.run_check rt ip ErrorHandling ;;
  expect_pass initial_count "Error Handling".

Definition test_generate_report : M unit :=
  Started.log_test rt ip "Test 1" true EmptyString ;;
  Started.log_test rt ip "Test 2" true EmptyString ;;
  Started.log_test rt ip "Test 3" false "Error message" ;;
  report <- Started.generate_report rt ip ;;
  assertIn "total" (report_to_py report) ;;
  assertIn "passed" (report_to_py report) ;;
  assertIn "failed" (report_to_py report) ;;
  assertIn "success_rate" (report_to_py report) ;;
  assertIn "duration_seconds" (report_to_py report) ;;
  assertIn "results" (report_to_py report) ;;
  assertEqual_int (total report) 3 ;;
  assertEqual_int (passed report) 2 ;;
  assertEqual_int (failed report) 1 ;;
  assertAlmostEqual (success_rate report) float_66_7 1.

(** [AgentTester.test_file_operations] with the names of its file
    operations looked up in [io]; its [assert] is a statement of the
    runner and is compiled or not with it. *)
Definition tester_test_file_operations (io : file_api) : Patched unit :=
  ptry_except Exception
    (api_open_w io test_file ;;
     api_write io test_file test_content ;;
     api_open_r io test_file ;;
     read_content <- api_read io test_file ;;
     unpatched (Started.py_assert ip (ret (String.eqb read_content test_content))
                  "File content mismatch") ;;
     api_remove io test_file ;;
     unpatched (Started.log_test rt ip "File Operations" true
                  "File write/read/delete successful"))%patched
    (fun e => unpatched (Started.log_test rt ip "File Operations" false (exn_str e))).

(** [test_file_operations], which runs under the two patches. *)
Definition test_file_operations : Patched unit :=
  (initial_count <- unpatched len_results ;;
   tester_test_file_operations (mock_files "test content") ;;
   unpatched (expect_pass initial_count "File Operations") ;;
   k <- get_mocks ;;
   unpatched (assert_called "open" (open_calls k)) ;;
   unpatched (assert_called_once "remove" (remove_calls k)))%patched.

End Tests.

(** The tests that run without a patch. *)
Inductive unit_test :=
| Initialization
| LogTestSuccess
| LogTestFailure
| BasicOperationsTest
| DataStructuresTest
| AlgorithmsTest
| ErrorHandlingTest
| GenerateReportTest.

Definition test_method (rt : runtime) (ip : interp) (t : unit_test) : M unit :=
  match t with
  | Initialization => test_initialization
  | LogTestSuccess => test_log_test_success rt ip
  | LogTestFailure => test_log_test_failure rt ip
  | BasicOperationsTest => test_basic_operations rt ip
  | DataStructuresTest => test_data_structures rt ip
  | AlgorithmsTest => test_algorithms rt ip
  | ErrorHandlingTest => test_error_handling rt ip
  | GenerateReportTest => test_generate_report rt ip
  end.

(** One test as unittest runs it: [setUp], then the method. *)
Definition run_test (rt : runtime) (ip : interp) (t : unit_test) : M unit :=
  setUp ;; test_method rt ip t.

Definition run_test_file_operations (rt : runtime) (ip : interp) : Patched unit :=
  (unpatched setUp ;; test_file_operations rt ip)%patched.

End TestAgentTester.


(** ** server.py: the request handler *)

Definition CRLF : string :=
  String (Ascii.ascii_of_nat 13%nat) (String (Ascii.ascii_of_nat 10%nat) EmptyString).

(** What the header methods use of a [BaseHTTPRequestHandler]: the
    version of the request, the buffer of header lines
    ([_headers_buffer], an attribute that does not exist before the first
    line is buffered), the blocks written to the socket so far, and the
    flag [close_connection]. *)
Record handler := {
  request_version : string;
  headers_buffer : option (list string);
  wfile : list string;
  close_connection : bool
}.

Definition ascii_lower (c : Ascii.ascii) : Ascii.ascii :=
  let n := Ascii.nat_of_ascii c in
  if (65 <=? n)%nat && (n <=? 90)%nat then Ascii.ascii_of_nat (n + 32) else c.

(** [str.lower()] on ASCII text. *)
Fixpoint lower (s : string) : string :=
  match s with
  | EmptyString => EmptyString
  | String c s' => String (ascii_lower c) (lower s')
  end.

(** [BaseHTTPRequestHandler.send_header] of the standard library. *)
Definition send_header (keyword value : string) (h : handler) : handler :=
  let h1 :=
    if String.eqb (request_version h) "HTTP/0.9" then h
    else {| request_version := request_version h;
            headers_buffer :=
              Some (default [] (headers_buffer h) ++ [(keyword ++ ": " ++ value ++ CRLF)%string]);
            wfile := wfile h;
            close_connection := close_connection h |} in
  if String.eqb (lower keyword) "connection" then
    if String.eqb (lower value) "close" then
      {| request_version := request_version h1; headers_buffer := headers_buffer h1;
         wfile := wfile h1; close_connection := true |}
    else if String.eqb (lower value) "keep-alive" then
      {| request_version := request_version h1; headers_buffer := headers_buffer h1;
         wfile := wfile h1; close_connection := false |}
    else h1
  else h1.

(** [BaseHTTPRequestHandler.flush_headers]: one write of the joined
    lines. *)
Definition flush_headers (h : handler) : handler :=
  match headers_buffer h with
  | Some lines =>
      {| request_version := request_version h;
         headers_buffer := Some [];
         wfile := wfile h ++ [String.concat EmptyString lines];
         close_connection := close_connection h |}
  | None => h
  end.

(** [BaseHTTPRequestHandler.end_headers]; [None] is the [AttributeError]
    of appending to a buffer that does not exist. *)
Definition base_end_headers (h : handler) : option handler :=
  if String.eqb (request_version h) "HTTP/0.9" then Some h
  else match headers_buffer h with
       | Some lines =>
           Some (flush_headers
                   {| request_version := request_version h;
                      headers_buffer := Some (lines ++ [CRLF]);
                      wfile := wfile h;
                      close_connection := close_connection h |})
       | None => None
       end.

(** [CustomHTTPRequestHandler.end_headers] *)
Definition end_headers (h : handler) : option handler :=
  let h1 := send_header "Cache-Control" "no-cache, no-store, must-revalidate" h in
  let h2 := send_header "Pragma" "no-cache" h1 in
  let h3 := send_header "Expires" "0" h2 in
  base_end_headers h3.

(** The three header lines that [end_headers] adds. *)
Definition no_cache_lines : list string :=
  [("Cache-Control: no-cache, no-store, must-revalidate" ++ CRLF)%string;
   ("Pragma: no-cache" ++ CRLF)%string;
   ("Expires: 0" ++ CRLF)%string].



(** ** A client of [AgentTester] *)

(** A call of one of the methods of a tester. *)
Inductive call :=
| LogTest (test_name : string) (ok : bool) (text : string)
| RunCheck (c : check)
| GenerateReport.

Definition do_call (rt : runtime) (ip : interp) (c : call) : M unit :=
  match c with
  | LogTest test_name ok text => Started.log_test rt ip test_name ok text
  | RunCheck c => Started.run_check rt ip c
  | GenerateReport => Started.generate_report rt ip ;; ret tt
  end.

(** A script: the calls one after the other, up to the first exception
    that one of them lets out. *)
Fixpoint script (rt : runtime) (ip : interp) (l : list call) : M unit :=
  match l with
  | [] => ret tt
  | c :: l' => do_call rt ip c ;; script rt ip l'
  end.

(** The calls that append a result. *)
Definition appends (c : call) : bool :=
  match c with
  | LogTest _ _ _ | RunCheck _ => true
  | GenerateReport => false
  end.

(** * Proofs *)

(** ** Rounding in binary64 *)

Lemma digits2_pos_size p : digits2_pos p = Pos.size p.
Proof. induction p; simpl; congruence. Qed.

Lemma Zdigits2_bounds m : 0 < m -> 2 ^ (Zdigits2 m - 1) <= m < 2 ^ Zdigits2 m.
Proof.
  destruct m as [|p|p]; try lia. intros _. simpl. rewrite digits2_pos_size.
  pose proof (Pos.size_gt p) as Hgt. pose proof (Pos.size_le p) as Hle.
  split.
  - assert (Hp : (2 ^ Z.pos (Pos.size p) <= 2 * Z.pos p)).
    { change (2 * Z.pos p) with (Z.pos p~0). rewrite <- Pos2Z.inj_pow. apply Pos2Z.pos_le_pos. exact Hle. }
    replace (Z.pos (Pos.size p)) with (Z.succ (Z.pos (Pos.size p) - 1)) in Hp by lia.
    rewrite Z.pow_succ_r in Hp by lia. lia.
  - rewrite <- Pos2Z.inj_pow. apply Pos2Z.pos_lt_pos. exact Hgt.
Qed.

Lemma Zdigits2_unique m d : 0 < d -> 2 ^ (d - 1) <= m < 2 ^ d -> Zdigits2 m = d.
Proof.
  intros Hd [Hlo Hhi].
  assert (Hm : 0 < m) by (pose proof (Z.pow_pos_nonneg 2 (d - 1)); lia).
  pose proof (Zdigits2_bounds m Hm) as [Hlo' Hhi'].
  assert (Hpos : 0 < Zdigits2 m) by (destruct m; simpl; lia).
  destruct (Z.lt_trichotomy (Zdigits2 m) d) as [Hlt|[Heq|Hgt]]; [|exact Heq|].
  - assert (2 ^ Zdigits2 m <= 2 ^ (d - 1)) by (apply Z.pow_le_mono_r; lia). lia.
  - assert (2 ^ d <= 2 ^ (Zdigits2 m - 1)) by (apply Z.pow_le_mono_r; lia). lia.
Qed.

Lemma iter_pos_nat {A} (f : A -> A) p x : SpecFloat.iter_pos f p x = Nat.iter (Pos.to_nat p) f x.
Proof.
  revert x. induction p as [p IH|p IH|]; intros x.
  - change (SpecFloat.iter_pos f p~1 x) with (SpecFloat.iter_pos f p (SpecFloat.iter_pos f p (f x))).
    rewrite !IH, Pos2Nat.inj_xI, Nat.iter_succ_r.
    replace (2 * Pos.to_nat p)%nat with (Pos.to_nat p + Pos.to_nat p)%nat by lia.
    rewrite Nat.iter_add. reflexivity.
  - change (SpecFloat.iter_pos f p~0 x) with (SpecFloat.iter_pos f p (SpecFloat.iter_pos f p x)).
    rewrite !IH, Pos2Nat.inj_xO.
    replace (2 * Pos.to_nat p)%nat with (Pos.to_nat p + Pos.to_nat p)%nat by lia.
    rewrite Nat.iter_add. reflexivity.
  - reflexivity.
Qed.

Lemma shr_1_represents mrs N D : represents mrs N D -> represents (shr_1 mrs) N (2 * D).
Proof.
  intros [HD HN Hm Hloc]. destruct mrs as [m r s]. simpl in Hm, Hloc.
  pose proof (Z.div_mod N D ltac:(lia)) as Hdm.
  pose proof (Z.mod_pos_bound N D HD) as Hrho.
  assert (Hq : 0 <= N / D) by (apply Z.div_pos; lia).
  set (q := N / D) in *. set (rho := N mod D) in *.
  assert (Hdiv : N / (2 * D) = q / 2).
  { unfold q. rewrite (Z.mul_comm 2 D). rewrite <- Z.div_div by lia. reflexivity. }
  pose proof (Z.div_mod q 2 ltac:(lia)) as Hq2.
  pose proof (Z.mod_pos_bound q 2 ltac:(lia)) as Hb.
  assert (Hmod : N mod (2 * D) = D * (q mod 2) + rho).
  { symmetry. apply Z.mod_unique with (q := q / 2); [left; nia | nia]. }
  assert (Hs : shr_1 {| shr_m := m; shr_r := r; shr_s := s |} =
               {| shr_m := q / 2; shr_r := Z.odd q; shr_s := r || s |}).
  { rewrite Hm. destruct q as [|[p|p|]|p]; try lia; cbn [shr_1 Z.odd]; f_equal.
    - apply Z.div_unique with (r := 1); lia.
    - apply Z.div_unique with (r := 0); lia. }
  rewrite Hs. constructor; simpl; try lia.
  rewrite Hmod. unfold loc_of in *. rewrite Zodd_mod.
  assert (Hb' : q mod 2 = 0 \/ q mod 2 = 1) by lia.
  destruct Hb' as [Hb'|Hb']; rewrite Hb'; rewrite ?Z.mul_0_r, ?Z.mul_1_r, ?Z.add_0_l;
    change (0 =? 1) with false; change (1 =? 1) with true;
    destruct (Z.eqb_spec rho 0) as [Hr0|Hr0];
    destruct (Z.eqb_spec (D + rho) 0);
    destruct (Z.compare_spec (2 * rho) (2 * D));
    destruct (Z.compare_spec (2 * (D + rho)) (2 * D));
    destruct r, s; simpl in *; try reflexivity; try discriminate; try lia.
Qed.

Lemma iter_shr_1_represents n mrs N D :
  represents mrs N D -> represents (Nat.iter n shr_1 mrs) N (D * 2 ^ Z.of_nat n).
Proof.
  intros H. induction n as [|n IH].
  - cbn [Nat.iter nat_rect]. change (Z.of_nat 0) with 0.
    rewrite Z.pow_0_r, Z.mul_1_r. exact H.
  - cbn [Nat.iter nat_rect]. apply shr_1_represents in IH.
    replace (D * 2 ^ Z.of_nat (S n)) with (2 * (D * 2 ^ Z.of_nat n)); [exact IH|].
    rewrite Nat2Z.inj_succ, Z.pow_succ_r by lia. lia.
Qed.

Lemma shr_represents mrs e n N D :
  represents mrs N D ->
  exists mrs', shr mrs e n = (mrs', e + Z.max 0 n) /\ represents mrs' N (D * 2 ^ Z.max 0 n).
Proof.
  intros H. destruct n as [|p|p].
  - exists mrs. cbn [shr]. rewrite Z.max_id, Z.add_0_r, Z.pow_0_r, Z.mul_1_r. auto.
  - exists (SpecFloat.iter_pos shr_1 p mrs). cbn [shr].
    replace (Z.max 0 (Z.pos p)) with (Z.pos p) by lia. split; [reflexivity|].
    rewrite iter_pos_nat. rewrite <- (positive_nat_Z p). apply iter_shr_1_represents. exact H.
  - exists mrs. cbn [shr]. replace (Z.max 0 (Z.neg p)) with 0 by lia.
    rewrite Z.add_0_r, Z.pow_0_r, Z.mul_1_r. auto.
Qed.

Lemma represents_of_loc N D :
  0 < D -> 0 <= N -> represents (shr_record_of_loc (N / D) (loc_of (N mod D) D)) N D.
Proof.
  intros HD HN. constructor; auto.
  - destruct (loc_of (N mod D) D) as [|[]]; reflexivity.
  - destruct (loc_of (N mod D) D) as [|[]]; reflexivity.
Qed.

Lemma round_nearest_even_bounds N D :
  0 < D -> 0 <= N ->
  let m := round_nearest_even (N / D) (loc_of (N mod D) D) in
  N / D <= m <= N / D + 1 /\ 2 * m * D <= 2 * N + D /\ 2 * N <= 2 * m * D + D.
Proof.
  intros HD HN.
  pose proof (Z.div_mod N D ltac:(lia)) as Hdm.
  pose proof (Z.mod_pos_bound N D HD) as Hrho.
  set (q := N / D) in *. set (rho := N mod D) in *.
  unfold loc_of, round_nearest_even.
  destruct (Z.eqb_spec rho 0); [cbv zeta; nia|].
  destruct (Z.compare_spec (2 * rho) D); cbv zeta; [destruct (Z.even q)| |]; nia.
Qed.

Lemma fexp_normal k : -1021 <= k -> fexp prec emax k = k - 53.
Proof. unfold fexp, emin, prec, emax. lia. Qed.

Lemma pow2_digits_le m : 0 < m -> 2 ^ 52 <= m -> 53 <= Zdigits2 m.
Proof.
  intros Hm Hle. pose proof (Zdigits2_bounds m Hm) as [_ Hhi].
  destruct (Z.le_gt_cases 53 (Zdigits2 m)) as [|Hlt]; [assumption|].
  assert (2 ^ Zdigits2 m <= 2 ^ 52) by (apply Z.pow_le_mono_r; lia). lia.
Qed.

Lemma bra_normal sx mx ex lx N D :
  0 < D -> 0 <= N -> mx = N / D -> lx = loc_of (N mod D) D ->
  2 ^ 52 <= mx -> -1074 <= ex -> Zdigits2 mx + ex <= 1023 ->
  exists m k,
    binary_round_aux prec emax sx mx ex lx = S754_finite sx m (ex + k) /\
    0 <= k /\ 2 ^ 52 <= Z.pos m < 2 ^ 53 /\
    2 * Z.pos m * (D * 2 ^ k) <= 2 * N + D * 2 ^ k /\
    2 * N <= 2 * Z.pos m * (D * 2 ^ k) + D * 2 ^ k.
Proof.
  intros HD HN Hmx Hlx Hlo Hex Hhi.
  assert (Hmx0 : 0 < mx) by lia.
  pose proof (pow2_digits_le mx Hmx0 Hlo) as Hdx.
  pose proof (Zdigits2_bounds mx Hmx0) as [Hdlo Hdhi].
  set (dx := Zdigits2 mx) in *.
  unfold binary_round_aux, shr_fexp. fold dx.
  rewrite fexp_normal by lia.
  destruct (shr_represents (shr_record_of_loc mx lx) ex (dx + ex - 53 - ex) N D) as (mrs' & Hshr & Hrep).
  { subst mx lx. apply represents_of_loc; assumption. }
  rewrite Hshr. replace (Z.max 0 (dx + ex - 53 - ex)) with (dx - 53) in * by lia.
  set (n := dx - 53) in *.
  assert (Hn : 0 <= n) by (unfold n; lia).
  assert (HD' : 0 < D * 2 ^ n) by (apply Z.mul_pos_pos; [lia | apply Z.pow_pos_nonneg; lia]).
  destruct Hrep as [_ _ Hm Hloc]. rewrite Hm, Hloc.
  pose proof (round_nearest_even_bounds N (D * 2 ^ n) HD' HN) as (Hq & Hub & Hlb).
  cbv zeta in Hq, Hub, Hlb.
  set (m1 := round_nearest_even (N / (D * 2 ^ n)) (loc_of (N mod (D * 2 ^ n)) (D * 2 ^ n))) in *.
  assert (Hqdiv : N / (D * 2 ^ n) = mx / 2 ^ n).
  { rewrite Hmx. rewrite Z.div_div; [reflexivity | lia | apply Z.pow_pos_nonneg; lia]. }
  assert (Hpn : 0 < 2 ^ n) by (apply Z.pow_pos_nonneg; lia).
  assert (Hsplit : 2 ^ (dx - 1) = 2 ^ 52 * 2 ^ n /\ 2 ^ dx = 2 ^ 53 * 2 ^ n).
  { split; rewrite <- Z.pow_add_r by lia; f_equal; unfold n; lia. }
  destruct Hsplit as [Hs1 Hs2].
  assert (Hqlo : 2 ^ 52 <= N / (D * 2 ^ n)).
  { rewrite Hqdiv. apply Z.div_le_lower_bound; lia. }
  assert (Hqhi : N / (D * 2 ^ n) < 2 ^ 53).
  { rewrite Hqdiv. apply Z.div_lt_upper_bound; lia. }
  destruct (Z.eq_dec m1 (2 ^ 53)) as [Hcarry|Hnc].
  - (* the increment carried into a 54th bit *)
    rewrite Hcarry in *.
    replace (Zdigits2 (2 ^ 53)) with 54 by reflexivity.
    rewrite fexp_normal by lia.
    replace (54 + (ex + n) - 53 - (ex + n)) with 1 by lia.
    cbn [shr shr_record_of_loc SpecFloat.iter_pos shr_1 shr_m].
    change (2 ^ 53) with (Z.pos (2 ^ 53)%positive).
    cbn [shr_1 shr_m].
    exists (2 ^ 52)%positive, (n + 1).
    replace (Z.leb (ex + n + 1) (emax - prec)) with true
      by (symmetry; apply Z.leb_le; unfold emax, prec, n; lia).
    split; [f_equal; lia|]. split; [lia|]. split; [lia|].
    rewrite Z.pow_add_r by lia. change (2 ^ 1) with 2.
    change (Z.pos (2 ^ 52)) with (2 ^ 52). change (2 ^ 53) with (2 * 2 ^ 52) in Hub, Hlb.
    split; nia.
  - assert (Hm1 : 2 ^ 52 <= m1 < 2 ^ 53) by lia.
    rewrite (Zdigits2_unique m1 53) by lia.
    rewrite fexp_normal by lia.
    replace (53 + (ex + n) - 53 - (ex + n)) with 0 by lia.
    cbn [shr shr_record_of_loc shr_m].
    destruct m1 as [|m|m]; try lia.
    exists m, n.
    replace (Z.leb (ex + n) (emax - prec)) with true
      by (symmetry; apply Z.leb_le; unfold emax, prec, n; lia).
    split; [reflexivity|]. split; [lia|]. split; [lia|]. split; lia.
Qed.

Lemma div_eucl_div_mod a b : Z.div_eucl a b = (a / b, a mod b).
Proof. unfold Z.div, Z.modulo. destruct (Z.div_eucl a b). reflexivity. Qed.

Lemma new_location_loc_of nb k : 0 < nb -> 0 <= k -> new_location nb k = loc_of k nb.
Proof.
  intros Hnb Hk. unfold new_location, new_location_even, new_location_odd, loc_of.
  destruct (Z.even nb) eqn:Hev; [reflexivity|].
  destruct (Z.eqb_spec k 0); [reflexivity|]. f_equal.
  assert (Hodd : Z.odd nb = true) by (rewrite <- Z.negb_even, Hev; reflexivity).
  apply Z.odd_spec in Hodd. destruct Hodd as [c Hc].
  destruct (Z.compare_spec (2 * k + 1) nb); destruct (Z.compare_spec (2 * k) nb);
    try reflexivity; lia.
Qed.

Lemma Zdigits2_le m d : 0 < m -> m < 2 ^ d -> 0 <= d -> Zdigits2 m <= d.
Proof.
  intros Hm Hlt Hd. pose proof (Zdigits2_bounds m Hm) as [Hlo _].
  destruct (Z.le_gt_cases (Zdigits2 m) d) as [|Hgt]; [assumption|].
  assert (2 ^ d <= 2 ^ (Zdigits2 m - 1)) by (apply Z.pow_le_mono_r; lia). lia.
Qed.

Lemma Zdigits2_mono a b : 0 < a -> a <= b -> Zdigits2 a <= Zdigits2 b.
Proof.
  intros Ha Hab. pose proof (Zdigits2_bounds b ltac:(lia)) as [_ Hhi].
  apply Zdigits2_le; try lia. destruct b; simpl; lia.
Qed.

Lemma Zdigits2_pos m : 0 < m -> 0 < Zdigits2 m.
Proof. destruct m; simpl; lia. Qed.

(** Rounding a mantissa of at least 53 bits: the result in terms of the
    number of bits dropped before the rounding, which is what decides a
    tie. *)
Lemma bra_sharp sx mx ex lx N D :
  0 < D -> 0 <= N -> mx = N / D -> lx = loc_of (N mod D) D ->
  2 ^ 52 <= mx -> -1074 <= ex -> Zdigits2 mx + ex <= 1023 ->
  exists m k,
    binary_round_aux prec emax sx mx ex lx = S754_finite sx m (ex + k) /\
    Zdigits2 mx - 53 <= k <= Zdigits2 mx - 52 /\ 2 ^ 52 <= Z.pos m < 2 ^ 53 /\
    2 * (Z.pos m * 2 ^ k) * D <= 2 * N + D * 2 ^ (Zdigits2 mx - 53) /\
    2 * N <= 2 * (Z.pos m * 2 ^ k) * D + D * 2 ^ (Zdigits2 mx - 53).
Proof.
  intros HD HN Hmx Hlx Hlo Hex Hhi.
  assert (Hmx0 : 0 < mx) by lia.
  pose proof (pow2_digits_le mx Hmx0 Hlo) as Hdx.
  pose proof (Zdigits2_bounds mx Hmx0) as [Hdlo Hdhi].
  set (dx := Zdigits2 mx) in *.
  unfold binary_round_aux, shr_fexp. fold dx.
  rewrite fexp_normal by lia.
  destruct (shr_represents (shr_record_of_loc mx lx) ex (dx + ex - 53 - ex) N D) as (mrs' & Hshr & Hrep).
  { subst mx lx. apply represents_of_loc; assumption. }
  rewrite Hshr. replace (Z.max 0 (dx + ex - 53 - ex)) with (dx - 53) in * by lia.
  set (n := dx - 53) in *.
  assert (Hn : 0 <= n) by (unfold n; lia).
  assert (HD' : 0 < D * 2 ^ n) by (apply Z.mul_pos_pos; [lia | apply Z.pow_pos_nonneg; lia]).
  destruct Hrep as [_ _ Hm Hloc]. rewrite Hm, Hloc.
  pose proof (round_nearest_even_bounds N (D * 2 ^ n) HD' HN) as (Hq & Hub & Hlb).
  cbv zeta in Hq, Hub, Hlb.
  set (m1 := round_nearest_even (N / (D * 2 ^ n)) (loc_of (N mod (D * 2 ^ n)) (D * 2 ^ n))) in *.
  assert (Hqdiv : N / (D * 2 ^ n) = mx / 2 ^ n).
  { rewrite Hmx. rewrite Z.div_div; [reflexivity | lia | apply Z.pow_pos_nonneg; lia]. }
  assert (Hpn : 0 < 2 ^ n) by (apply Z.pow_pos_nonneg; lia).
  assert (Hsplit : 2 ^ (dx - 1) = 2 ^ 52 * 2 ^ n /\ 2 ^ dx = 2 ^ 53 * 2 ^ n).
  { split; rewrite <- Z.pow_add_r by lia; f_equal; unfold n; lia. }
  destruct Hsplit as [Hs1 Hs2].
  assert (Hqlo : 2 ^ 52 <= N / (D * 2 ^ n)).
  { rewrite Hqdiv. apply Z.div_le_lower_bound; lia. }
  assert (Hqhi : N / (D * 2 ^ n) < 2 ^ 53).
  { rewrite Hqdiv. apply Z.div_lt_upper_bound; lia. }
  destruct (Z.eq_dec m1 (2 ^ 53)) as [Hcarry|Hnc].
  - rewrite Hcarry in *.
    replace (Zdigits2 (2 ^ 53)) with 54 by reflexivity.
    rewrite fexp_normal by lia.
    replace (54 + (ex + n) - 53 - (ex + n)) with 1 by lia.
    cbn [shr shr_record_of_loc SpecFloat.iter_pos shr_1 shr_m].
    change (2 ^ 53) with (Z.pos (2 ^ 53)%positive).
    cbn [shr_1 shr_m].
    exists (2 ^ 52)%positive, (n + 1).
    replace (Z.leb (ex + n + 1) (emax - prec)) with true
      by (symmetry; apply Z.leb_le; unfold emax, prec, n; lia).
    split; [f_equal; lia|]. split; [lia|]. split; [lia|].
    rewrite Z.pow_add_r by lia. change (2 ^ 1) with 2.
    change (Z.pos (2 ^ 52)) with (2 ^ 52). change (Z.pos (2 ^ 53)) with (2 * 2 ^ 52) in Hub, Hlb.
    split; nia.
  - assert (Hm1 : 2 ^ 52 <= m1 < 2 ^ 53) by lia.
    rewrite (Zdigits2_unique m1 53) by lia.
    rewrite fexp_normal by lia.
    replace (53 + (ex + n) - 53 - (ex + n)) with 0 by lia.
    cbn [shr shr_record_of_loc shr_m].
    destruct m1 as [|m|m]; try lia.
    exists m, n.
    replace (Z.leb (ex + n) (emax - prec)) with true
      by (symmetry; apply Z.leb_le; unfold emax, prec, n; lia).
    split; [reflexivity|]. split; [lia|]. split; [lia|]. split; nia.
Qed.

(** The quotient of two counts, the smaller by the larger, the larger
    below [2^54]: a normal number below one. *)
Lemma div_below_one p t :
  0 < p < t -> t < 2 ^ 54 ->
  exists m e, Float64.div (Z2SF p) (Z2SF t) = S754_finite false m e /\
              2 ^ 52 <= Z.pos m < 2 ^ 53 /\ -106 <= e <= -53.
Proof.
  intros [Hp Hpt] Ht.
  destruct p as [|pp|pp]; try lia. destruct t as [|tt|tt]; try lia.
  unfold Float64.div. cbn [Z2SF SFdiv xorb].
  unfold SFdiv_core_binary.
  pose proof (Zdigits2_bounds (Z.pos pp) ltac:(lia)) as [Hp1 Hp2].
  pose proof (Zdigits2_bounds (Z.pos tt) ltac:(lia)) as [Ht1 Ht2].
  pose proof (Zdigits2_mono (Z.pos pp) (Z.pos tt) ltac:(lia) ltac:(lia)) as Hd12.
  pose proof (Zdigits2_le (Z.pos tt) 54 ltac:(lia) Ht ltac:(lia)) as Hd2.
  pose proof (Zdigits2_pos (Z.pos pp) ltac:(lia)) as Hd1.
  set (d1 := Zdigits2 (Z.pos pp)) in *. set (d2 := Zdigits2 (Z.pos tt)) in *.
  rewrite !Z.add_0_r. rewrite fexp_normal by lia.
  replace (Z.min (d1 - d2 - 53) (0 - 0)) with (d1 - d2 - 53) by lia.
  replace (0 - 0 - (d1 - d2 - 53)) with (53 + d2 - d1) by lia.
  set (s := 53 + d2 - d1).
  assert (Hs : 53 <= s <= 106) by (unfold s; lia).
  destruct s as [|sp|sp] eqn:Hseq; try lia. rewrite <- Hseq in *. clear Hseq sp.
  rewrite Z.shiftl_mul_pow2 by lia.
  rewrite div_eucl_div_mod.
  set (N := Z.pos pp * 2 ^ s).
  assert (Hps : 0 < 2 ^ s) by (apply Z.pow_pos_nonneg; lia).
  assert (HN : 0 <= N) by (unfold N; lia).
  rewrite new_location_loc_of by (try lia; apply Z.mod_pos_bound; lia).
  assert (Hpow1 : 2 ^ (d1 - 1) * 2 ^ s = 2 ^ 52 * 2 ^ d2).
  { rewrite <- !Z.pow_add_r by lia. f_equal. unfold s. lia. }
  assert (Hpow2 : 2 ^ d1 * 2 ^ s = 2 ^ 54 * 2 ^ (d2 - 1)).
  { rewrite <- !Z.pow_add_r by lia. f_equal. unfold s. lia. }
  assert (Hqlo : 2 ^ 52 <= N / Z.pos tt).
  { apply Z.div_le_lower_bound; [lia|]. unfold N. nia. }
  assert (Hqhi : N / Z.pos tt < 2 ^ 54).
  { apply Z.div_lt_upper_bound; [lia|]. unfold N. nia. }
  pose proof (Zdigits2_le (N / Z.pos tt) 54 ltac:(lia) Hqhi ltac:(lia)) as Hdq.
  pose proof (pow2_digits_le (N / Z.pos tt) ltac:(lia) Hqlo) as Hdq'.
  destruct (bra_sharp false (N / Z.pos tt) (d1 - d2 - 53) (loc_of (N mod Z.pos tt) (Z.pos tt))
              N (Z.pos tt)) as (m & k & Hbra & Hk & Hm & Hub & Hlb); try lia; try reflexivity.
  rewrite Hbra. exists m, (d1 - d2 - 53 + k). split; [reflexivity|]. split; [assumption|].
  split; [lia|].
  (* the result is below one: its exponent is at most -53 *)
  destruct (Z.le_gt_cases (d1 - d2 - 53 + k) (-53)) as [|Hbig]; [assumption|exfalso].
  set (n := Zdigits2 (N / Z.pos tt) - 53) in *.
  assert (Hn : n = 0 \/ n = 1) by lia.
  assert (Hk52 : s - 52 <= k) by (unfold s; lia).
  assert (Hpk : 2 ^ s <= 2 ^ 52 * 2 ^ k).
  { rewrite <- Z.pow_add_r by lia. apply Z.pow_le_mono_r; lia. }
  assert (HPk : 0 < 2 ^ k) by (apply Z.pow_pos_nonneg; lia).
  (* the rounded quotient is at least one, so the exact one is within
     half a unit of the bits dropped *)
  assert (Hmk : 2 ^ s <= Z.pos m * 2 ^ k).
  { apply Z.le_trans with (2 ^ 52 * 2 ^ k); [exact Hpk|].
    apply Z.mul_le_mono_nonneg_r; lia. }
  assert (Hone : 2 * 2 ^ s * (Z.pos tt - Z.pos pp) <= Z.pos tt * 2 ^ n).
  { assert (H1 : 2 * 2 ^ s * Z.pos tt <= 2 * (Z.pos m * 2 ^ k) * Z.pos tt).
    { apply Z.mul_le_mono_nonneg_r; lia. }
    unfold N in Hub. fold n in Hub.
    replace (2 * 2 ^ s * (Z.pos tt - Z.pos pp))
      with (2 * 2 ^ s * Z.pos tt - 2 * (Z.pos pp * 2 ^ s)) by ring.
    lia. }
  destruct (Z.eq_dec d1 d2) as [Heq|Hne].
  - (* same number of bits: the quotient has 53 bits and nothing was
       dropped *)
    assert (Hs53 : s = 53) by (unfold s; lia).
    assert (Hq53 : N / Z.pos tt < 2 ^ 53).
    { apply Z.div_lt_upper_bound; [lia|]. unfold N. rewrite Hs53. nia. }
    assert (Hn0 : n = 0).
    { unfold n. rewrite (Zdigits2_unique (N / Z.pos tt) 53); lia. }
    rewrite Hn0, Hs53 in Hone. change (2 ^ 0) with 1 in Hone. nia.
  - assert (Hs54 : 54 <= s) by (unfold s; lia).
    assert (Hp54 : 2 ^ 54 <= 2 ^ s) by (apply Z.pow_le_mono_r; lia).
    destruct Hn as [Hn|Hn]; rewrite Hn in Hone.
    + change (2 ^ 0) with 1 in Hone. nia.
    + change (2 ^ 1) with 2 in Hone. nia.
Qed.

(** A positive count divided by itself is exactly one, whatever its size. *)
Lemma div_self p : 0 < p -> Float64.div (Z2SF p) (Z2SF p) = float_1.
Proof.
  intros Hp. destruct p as [|pp|pp]; try lia.
  unfold Float64.div. cbn [Z2SF SFdiv xorb]. unfold SFdiv_core_binary.
  rewrite !Z.add_0_r, !Z.sub_diag.
  change (fexp prec emax 0) with (-53).
  change (Z.min (-53) 0) with (-53). change (0 - -53) with 53.
  cbv iota beta.
  rewrite Z.shiftl_mul_pow2 by lia.
  rewrite div_eucl_div_mod.
  rewrite (Z.mul_comm (Z.pos pp)).
  rewrite Z.div_mul by lia. rewrite Z.mod_mul by lia.
  rewrite new_location_loc_of by lia.
  vm_compute. reflexivity.
Qed.

Lemma of_int_100 : Float64.of_int 100 = float_100.
Proof. vm_compute. reflexivity. Qed.

Lemma mul_1_100 : Float64.mul float_1 float_100 = float_100.
Proof. vm_compute. reflexivity. Qed.

Lemma eqb_100_100 : Float64.eqb float_100 float_100 = true.
Proof. vm_compute. reflexivity. Qed.


Lemma eqb_finite_100 m e :
  Float64.eqb (S754_finite false m e) float_100 = true -> e = -46 /\ Z.pos m = 7036874417766400.
Proof.
  unfold Float64.eqb, SFeqb, float_100. cbn [SFcompare].
  destruct (Z.compare_spec e (-46)) as [He|He|He]; [|intros H; discriminate H..].
  assert (Hc : forall c, PosDef.Pos.compare_cont Eq m c = Pos.compare m c) by reflexivity.
  rewrite Hc.
  destruct (Pos.compare_spec m 7036874417766400) as [Hm|Hm|Hm]; [|intros H; discriminate H..].
  intros _. split; [exact He|]. f_equal. exact Hm.
Qed.

Lemma mul_100_lt m e :
  2 ^ 52 <= Z.pos m < 2 ^ 53 -> -1028 <= e <= -53 ->
  Float64.eqb (Float64.mul (S754_finite false m e) float_100) float_100 = false.
Proof.
  intros Hm He. unfold Float64.mul. unfold float_100 at 1. cbn [SFmul xorb].
  set (c := 7036874417766400%positive).
  assert (Hc : Z.pos c = 7036874417766400) by reflexivity.
  assert (HN : Z.pos (m * c) = Z.pos m * Z.pos c) by reflexivity.
  set (N := Z.pos (m * c)) in *.
  assert (HNlo : 2 ^ 52 <= N) by lia.
  assert (HNhi : N < 2 ^ 106) by lia.
  destruct (bra_normal false N (e + -46) loc_Exact N 1) as (m' & k & Hbra & Hk & Hm' & Hub & Hlb).
  - lia.
  - lia.
  - rewrite Z.div_1_r. reflexivity.
  - rewrite Z.mod_1_r. reflexivity.
  - exact HNlo.
  - lia.
  - pose proof (Zdigits2_le N 106 ltac:(lia) HNhi ltac:(lia)). lia.
  - rewrite Hbra. destruct (Float64.eqb (S754_finite false m' (e + -46 + k)) float_100) eqn:Heq;
      [exfalso|reflexivity].
    apply eqb_finite_100 in Heq. destruct Heq as [Hek Hm100].
    assert (Hk53 : 53 <= k) by lia.
    assert (HP : 2 ^ 53 <= 2 ^ k) by (apply Z.pow_le_mono_r; lia).
    set (P := 2 ^ k) in *. rewrite Hm100 in Hub. lia.
Qed.

(** ** The runner's primitives *)

Section RunnerFacts.

Variable rt : runtime.

(** The entry that [log_test] appends when called in state [s]. *)
Lemma log_test_spec name ok text s :
  exists s',
    log_test rt name ok text s = (inr tt, s') /\
    test_results s' =
      test_results s ++ [{| test := name; success := ok; details := text;
                            timestamp := isoformat rt (clock s (ticks s)) |}] /\
    start_time s' = start_time s /\ files s' = files s /\
    clock s' = clock s /\ os_fault s' = os_fault s.
Proof.
  unfold log_test, bind, datetime_now, modify, print, ret.
  destruct (String.eqb text EmptyString); eexists; (split; [reflexivity|]); cbn; auto.
Qed.

(** [except Exception as e: self.log_test(name, False, str(e))] around a
    suite: the method returns, with the suite's state when the suite
    returned, with one more failure when it raised. *)
Lemma guarded_spec name (body : M unit) s :
  exists s',
    try_except Exception body (fun e => log_test rt name false (exn_str e)) s = (inr tt, s') /\
    match body s with
    | (inr _, s1) => s' = s1
    | (inl e, s1) =>
        test_results s' =
          test_results s1 ++ [{| test := name; success := false; details := exn_str e;
                                 timestamp := isoformat rt (clock s1 (ticks s1)) |}] /\
        start_time s' = start_time s1 /\ files s' = files s1 /\
        clock s' = clock s1 /\ os_fault s' = os_fault s1
    end.
Proof.
  unfold try_except. destruct (body s) as [[e|[]] s1].
  - cbn [Exception exn_cls]. destruct (log_test_spec name false (exn_str e) s1) as (s' & Hrun & Hres).
    exists s'. split; [destruct e; exact Hrun | exact Hres].
  - exists s1. split; reflexivity.
Qed.

Lemma run_check_guarded c :
  run_check rt c =
  try_except Exception (check_body rt c) (fun e => log_test rt (check_name c) false (exn_str e)).
Proof. destruct c; reflexivity. Qed.

(** *** The suites *)

Lemma test_basic_operations_body_eq :
  test_basic_operations_body rt =
  log_test rt "Basic Operations" true "Math, strings, and lists working correctly".
Proof. reflexivity. Qed.

Lemma fibonacci_10 : fibonacci recursion_limit 10 = inr 55.
Proof. vm_compute. reflexivity. Qed.

Lemma sorted_example :
  merge_sort Z.le [64; 34; 25; 12; 22; 11; 90] = [11; 12; 22; 25; 34; 64; 90].
Proof. vm_compute. reflexivity. Qed.

Lemma is_prime_17 : is_prime 17 = inr true.
Proof. vm_compute. reflexivity. Qed.

Lemma is_prime_18 : is_prime 18 = inr false.
Proof. vm_compute. reflexivity. Qed.

Lemma test_algorithms_body_eq :
  test_algorithms_body rt =
  log_test rt "Algorithms" true "Fibonacci, sorting, and prime checking working".
Proof.
  unfold test_algorithms_body.
  rewrite fibonacci_10, is_prime_17, is_prime_18. cbv zeta. rewrite sorted_example.
  reflexivity.
Qed.

(** The three statements of [test_error_handling] raise what their
    [except] clauses name, so none of the inner failures is logged. *)
Lemma test_error_handling_body_eq :
  test_error_handling_body rt =
  log_test rt "Error Handling" true "All expected errors caught correctly".
Proof. reflexivity. Qed.

Lemma set_intersection_example :
  bool_decide (({[1; 2; 3; 4; 5]} : gset Z) ∩ {[4; 5; 6; 7; 8]} = {[4; 5]}) = true.
Proof. vm_compute. reflexivity. Qed.

(** The suite of [test_data_structures] raises what the codec raises,
    fails its assertion when the decoded value differs, and logs a success
    otherwise. *)
Lemma test_data_structures_body_cases s :
  test_data_structures_body rt s =
  match json_dumps rt data with
  | inl e => (inl e, s)
  | inr text =>
      match json_loads rt text with
      | inl e => (inl e, s)
      | inr v =>
          if py_eq v data
          then log_test rt "Data Structures" true
                 "Dictionaries, JSON, and sets working correctly" s
          else (inl (Exn AssertionError "JSON serialization/deserialization failed"), s)
      end
  end.
Proof.
  unfold test_data_structures_body, bind, lift.
  destruct (json_dumps rt data) as [e|text]; [reflexivity|].
  destruct (json_loads rt text) as [e|v]; [reflexivity|].
  unfold py_assert at 1. destruct (py_eq v data); [|reflexivity].
  cbv zeta. rewrite set_intersection_example. reflexivity.
Qed.

End RunnerFacts.

(** *** Files *)

Lemma bind_eq {A B} (m : M A) (k : A -> M B) s :
  bind m k s = match m s with
               | (inl e, s') => (inl e, s')
               | (inr a, s') => k a s'
               end.
Proof. reflexivity. Qed.

Lemma open_w_eq path s :
  open_w path s =
  match os_fault s (OpenW path) with
  | Some (n, msg) => (inl (Exn (OSError n) msg), s)
  | None => (inr tt, set_files (insert path EmptyString) s)
  end.
Proof. unfold open_w, bind, os_check, modify. destruct (os_fault s (OpenW path)) as [[n m]|]; reflexivity. Qed.

Lemma file_write_eq path text s :
  file_write path text s =
  match os_fault s (WriteTo path) with
  | Some (n, msg) => (inl (Exn (OSError n) msg), s)
  | None => (inr tt, set_files (fun fs => <[path := String.append (default EmptyString (fs !! path)) text]> fs) s)
  end.
Proof. unfold file_write, bind, os_check, modify. destruct (os_fault s (WriteTo path)) as [[n m]|]; reflexivity. Qed.

Lemma open_r_eq path s :
  open_r path s =
  match os_fault s (OpenR path) with
  | Some (n, msg) => (inl (Exn (OSError n) msg), s)
  | None => match files s !! path with
            | Some _ => (inr tt, s)
            | None => (inl (no_such_file path), s)
            end
  end.
Proof.
  unfold open_r, bind, os_check, get. destruct (os_fault s (OpenR path)) as [[n m]|]; [reflexivity|].
  destruct (files s !! path); reflexivity.
Qed.

Lemma file_read_eq path s :
  file_read path s =
  match os_fault s (ReadFrom path) with
  | Some (n, msg) => (inl (Exn (OSError n) msg), s)
  | None => (inr (default EmptyString (files s !! path)), s)
  end.
Proof. unfold file_read, bind, os_check, get, ret. destruct (os_fault s (ReadFrom path)) as [[n m]|]; reflexivity. Qed.

Lemma os_remove_eq path s :
  os_remove path s =
  match os_fault s (Remove path) with
  | Some (n, msg) => (inl (Exn (OSError n) msg), s)
  | None => match files s !! path with
            | Some _ => (inr tt, set_files (delete path) s)
            | None => (inl (no_such_file path), s)
            end
  end.
Proof.
  unfold os_remove, bind, os_check, get, modify. destruct (os_fault s (Remove path)) as [[n m]|]; [reflexivity|].
  destruct (files s !! path); reflexivity.
Qed.

Section FileFacts.

Variable rt : runtime.

Lemma test_file_operations_body_cases s :
  match test_file_operations_body rt s with
  | (inr _, s1) =>
      test_results s1 =
        test_results s ++ [{| test := "File Operations"; success := true;
                              details := "File write/read/delete successful";
                              timestamp := isoformat rt (clock s (ticks s)) |}] /\
      files s1 = delete test_file (files s) /\
      start_time s1 = start_time s /\ clock s1 = clock s /\ os_fault s1 = os_fault s
  | (inl e, s1) =>
      test_results s1 = test_results s /\ start_time s1 = start_time s /\
      clock s1 = clock s /\ ticks s1 = ticks s /\ os_fault s1 = os_fault s
  end.
Proof.
  unfold test_file_operations_body.
  rewrite bind_eq, open_w_eq.
  destruct (os_fault s (OpenW test_file)) as [[n1 m1]|] eqn:H1; [cbn; auto|].
  rewrite bind_eq, file_write_eq. cbn [set_files os_fault files].
  destruct (os_fault s (WriteTo test_file)) as [[n2 m2]|] eqn:H2; [cbn; auto|].
  rewrite bind_eq, open_r_eq. cbn [set_files os_fault files].
  destruct (os_fault s (OpenR test_file)) as [[n3 m3]|] eqn:H3; [cbn; auto|].
  rewrite !lookup_insert_eq.
  rewrite bind_eq, file_read_eq. cbn [set_files os_fault files].
  destruct (os_fault s (ReadFrom test_file)) as [[n4 m4]|] eqn:H4; [cbn; auto|].
  rewrite !lookup_insert_eq. cbn [default String.append].
  rewrite bind_eq. unfold py_assert. rewrite String.eqb_refl. unfold ret.
  rewrite bind_eq, os_remove_eq. cbn [set_files os_fault files].
  destruct (os_fault s (Remove test_file)) as [[n5 m5]|] eqn:H5; [cbn; auto|].
  rewrite !lookup_insert_eq.
  match goal with |- context [log_test rt ?a ?b ?c ?st] =>
    destruct (log_test_spec rt a b c st) as (s' & Hrun & Hres & Hst & Hf & Hc & Ho) end.
  rewrite Hrun. rewrite Hres, Hst, Hf, Hc, Ho. cbn [test_results set_files start_time files clock ticks os_fault].
  repeat split; try reflexivity.
  rewrite !delete_insert_eq. reflexivity.
Qed.
End FileFacts.


(** *** The report *)

Lemma py_sum_acc (l : list Z) (a : Z) : fold_left Z.add l a = a + fold_left Z.add l 0.
Proof.
  revert a. induction l as [|x l IH]; intros a; cbn [fold_left]; [lia|].
  rewrite (IH (a + x)), (IH (0 + x)). lia.
Qed.

Lemma py_sum_ones {A} (l : list A) : py_sum (map (fun _ => 1) l) = Z.of_nat (length l).
Proof.
  unfold py_sum. induction l as [|x l IH]; [reflexivity|].
  cbn [map fold_left length]. rewrite py_sum_acc, IH. lia.
Qed.

Lemma print_failed_frame l s :
  exists s', print_failed l s = (inr tt, s') /\ same_tester s s'.
Proof.
  revert s. induction l as [|r l IH]; intros s.
  - exists s. split; [reflexivity|]. unfold same_tester. auto.
  - cbn [print_failed]. rewrite bind_eq.
    destruct (negb (success r)).
    + unfold print, modify.
      destruct (IH (set_stdout (fun out => out ++ [[PStr "  - "; PStr (test r); PStr ": "; PStr (details r)]]) s))
        as (s' & Hrun & Hfr).
      exists s'. split; [exact Hrun|]. exact Hfr.
    + unfold ret. destruct (IH s) as (s' & Hrun & Hfr). exists s'. split; assumption.
Qed.

Section ReportFacts.

Variable rt : runtime.

(** [generate_report] in one equation: it raises what the division
    raises, and otherwise returns the report of the recorded results. *)
Lemma generate_report_cases s :
  let l := test_results s in
  let p := Z.of_nat (length (List.filter success l)) in
  let t := Z.of_nat (length l) in
  exists s',
    same_tester s s' /\
    generate_report rt s =
      (match int_truediv p t with
       | inl e => inl e
       | inr q =>
           inr {| total := t; passed := p; failed := t - p;
                  success_rate := Float64.mul q (Float64.of_int 100);
                  duration_seconds := total_seconds (clock s (ticks s) - start_time s);
                  results := l |}
       end, s').
Proof.
  intros l p t.
  unfold generate_report, bind, datetime_now, get, print, modify, lift, ret.
  cbn [set_ticks set_stdout test_results start_time files stdout clock ticks os_fault].
  rewrite !py_sum_ones. fold l p t.
  destruct (int_truediv p t) as [e|q].
  - eexists. split; [|reflexivity]. unfold same_tester. cbn. auto.
  - destruct (0 <? t - p).
    + match goal with |- context [print_failed l ?st] =>
        destruct (print_failed_frame l st) as (s1 & Hrun & Hfr) end.
      rewrite Hrun. eexists. split; [|reflexivity].
      unfold same_tester in *. cbn in Hfr. exact Hfr.
    + eexists. split; [|reflexivity]. unfold same_tester. cbn. auto.
Qed.

End ReportFacts.

(** ** The checks on a console that takes every line *)

Section CheckClaims.

Variable rt : runtime.



End CheckClaims.

(** ** The report *)

Lemma filter_partition_length {A} (f : A -> bool) (l : list A) :
  (length (List.filter f l) + length (List.filter (fun x => negb (f x)) l))%nat = length l.
Proof.
  induction l as [|x l IH]; [reflexivity|].
  cbn [List.filter]. destruct (f x); cbn [negb length]; lia.
Qed.

Lemma two_of_three_report :
  exists rep s', generate_report example_runtime two_of_three = (inr rep, s').
Proof. vm_compute. eauto. Qed.

Section ReportClaims.

Variable rt : runtime.

(** C1 (the failing input).  On a tester that has recorded nothing,
    [generate_report] evaluates [passed / total] with [total == 0] and
    raises [ZeroDivisionError]: no report is returned. *)
Theorem generate_report_empty_raises (s : state) :
  exists s',
    generate_report rt (with_results [] s) =
    (inl (Exn ZeroDivisionError "division by zero"), s').
Proof.
  destruct (generate_report_cases rt (with_results [] s)) as (s' & _ & Heq).
  exists s'. rewrite Heq. reflexivity.
Qed.

(** The fields of a returned report. *)
Lemma generate_report_fields (s : state) (rep : report) (s' : state) :
  generate_report rt s = (inr rep, s') ->
  total rep = Z.of_nat (length (test_results s)) /\
  passed rep = Z.of_nat (length (List.filter success (test_results s))) /\
  failed rep = total rep - passed rep /\
  results rep = test_results s.
Proof.
  intros Hrun. destruct (generate_report_cases rt s) as (s1 & _ & Heq).
  rewrite Heq in Hrun.
  destruct (int_truediv _ _) as [e|q]; [discriminate|].
  injection Hrun as <- _. cbn [total passed failed results]. auto.
Qed.

(** C5. The report that [generate_report] returns counts the recorded
    results: [total] is their number, [passed] the number of those with
    [success == true], [failed] the number of those with
    [success == false], and [passed + failed == total]. *)
Theorem report_counts (s : state) (rep : report) (s' : state) :
  generate_report rt s = (inr rep, s') ->
  total rep = Z.of_nat (length (test_results s)) /\
  passed rep + failed rep = total rep /\
  passed rep = Z.of_nat (length (List.filter success (test_results s))) /\
  failed rep = Z.of_nat (length (List.filter (fun r => negb (success r)) (test_results s))).
Proof.
  intros Hrun. destruct (generate_report_fields s rep s' Hrun) as (Ht & Hp & Hf & _).
  pose proof (filter_partition_length success (test_results s)). lia.
Qed.

(** C8. [generate_report] only reads the tester: after the call the
    results sequence, the start time and the working directory are what
    they were, and the [results] of a returned report are the recorded
    sequence, in its order. *)
Theorem generate_report_pure_read (s : state) :
  same_tester s (snd (generate_report rt s)) /\
  match fst (generate_report rt s) with
  | inr rep => results rep = test_results s
  | inl _ => True
  end.
Proof.
  destruct (generate_report_cases rt s) as (s1 & Hfr & Heq).
  rewrite Heq. cbn [fst snd]. split; [exact Hfr|].
  destruct (int_truediv _ _); [exact I | reflexivity].
Qed.

End ReportClaims.

(** The scenario of the unit test: three results, two of them passed. *)
Lemma report_counts_witness :
  exists rep s',
    generate_report example_runtime two_of_three = (inr rep, s') /\
    total rep = 3 /\ passed rep = 2 /\ failed rep = 1.
Proof.
  destruct two_of_three_report as (rep & s' & Hrun).
  exists rep, s'. split; [exact Hrun|].
  destruct (report_counts example_runtime two_of_three rep s' Hrun) as (Ht & Hsum & Hp & Hf).
  rewrite Ht, Hp, Hf. repeat split.
Defined.

Lemma generate_report_pure_read_witness :
  exists rep,
    fst (generate_report example_runtime two_of_three) = inr rep /\
    results rep = test_results two_of_three /\
    test_results (snd (generate_report example_runtime two_of_three)) = test_results two_of_three.
Proof.
  destruct (generate_report_pure_read example_runtime two_of_three) as (Hfr & Hres).
  destruct two_of_three_report as (rep & s' & Hrun). rewrite Hrun in Hfr, Hres |- *.
  exists rep. split; [reflexivity|]. split; [exact Hres|]. destruct Hfr as (H & _). exact H.
Defined.

(** ** The file check and the working directory *)

Section FileClaims.

Variable rt : runtime.

(** A recorded success means that the suite ran to its end, removal of
    the probe file included: of the regular files that [files] holds,
    the one of that name is gone. *)
Lemma file_check_success_files (s s' : state) (r : TestResult) :
  test_file_operations rt s = (inr tt, s') ->
  test_results s' = test_results s ++ [r] ->
  success r = true ->
  files s' = delete test_file (files s).
Proof.
  intros Hrun Hres Hok.
  unfold test_file_operations in Hrun.
  destruct (guarded_spec rt "File Operations" (test_file_operations_body rt) s)
    as (s2 & Hrun2 & Hcase).
  rewrite Hrun in Hrun2. injection Hrun2 as <-.
  pose proof (test_file_operations_body_cases rt s) as Hbody.
  destruct (test_file_operations_body rt s) as [[e|u] s1].
  - destruct Hcase as (Hres' & _). destruct Hbody as (Hsame & _).
    rewrite Hres', Hsame in Hres. apply app_inv_head in Hres.
    injection Hres as <-. discriminate Hok.
  - subst s1. destruct Hbody as (_ & Hf & _). exact Hf.
Qed.

(** C6 (amended).  When the file check records a success, no entry of
    the probe file's name is left in the working directory; and when
    there was none before the call, the directory is as it was. *)
Theorem file_check_cleans_up (s s' : state) (r : TestResult) :
  test_file_operations rt s = (inr tt, s') ->
  test_results s' = test_results s ++ [r] ->
  success r = true ->
  files s' !! test_file = None /\
  (files s !! test_file = None -> files s' = files s).
Proof.
  intros Hrun Hres Hok.
  pose proof (file_check_success_files s s' r Hrun Hres Hok) as Hdel.
  split.
  - rewrite Hdel. apply lookup_delete_eq.
  - intros Hnone. rewrite Hdel. apply delete_id. exact Hnone.
Qed.

End FileClaims.

Lemma file_check_cleans_up_witness :
  exists s' r,
    test_file_operations example_runtime (fresh no_fault) = (inr tt, s') /\
    test_results s' = [r] /\ success r = true /\
    files s' = files (fresh no_fault).
Proof.
  assert (H : exists s' r,
             test_file_operations example_runtime (fresh no_fault) = (inr tt, s') /\
             test_results s' = test_results (fresh no_fault) ++ [r] /\ success r = true).
  { vm_compute. eauto. }
  destruct H as (s' & r & Hrun & Hres & Hok).
  exists s', r. split; [exact Hrun|]. split; [exact Hres|]. split; [exact Hok|].
  destruct (file_check_cleans_up example_runtime (fresh no_fault) s' r Hrun Hres Hok)
    as (_ & Hsame).
  apply Hsame. reflexivity.
Defined.

(** C6 as stated fails: with a regular file of the probe's name already
    there, the check succeeds and the directory is not what it was, the
    file being gone. *)
Lemma file_check_removes_leftover :
  exists s' r,
    test_file_operations example_runtime leftover = (inr tt, s') /\
    test_results s' = test_results leftover ++ [r] /\ success r = true /\
    files s' <> files leftover.
Proof.
  assert (H : exists s' r,
             test_file_operations example_runtime leftover = (inr tt, s') /\
             test_results s' = test_results leftover ++ [r] /\ success r = true).
  { vm_compute. eauto. }
  destruct H as (s' & r & Hrun & Hres & Hok).
  exists s', r. split; [exact Hrun|]. split; [exact Hres|]. split; [exact Hok|].
  pose proof (file_check_success_files example_runtime leftover s' r Hrun Hres Hok) as Hdel.
  intros Heq. rewrite Heq in Hdel. apply (f_equal (fun m => m !! test_file)) in Hdel.
  rewrite lookup_delete_eq in Hdel. unfold leftover in Hdel. cbn [files set_files] in Hdel.
  rewrite lookup_insert_eq in Hdel. discriminate Hdel.
Qed.

(** ** The success rate *)

Lemma filter_length_le {A} (f : A -> bool) (l : list A) :
  (length (List.filter f l) <= length l)%nat.
Proof.
  induction l as [|x l IH]; [reflexivity|].
  cbn [List.filter]. destruct (f x); cbn [length]; lia.
Qed.

Lemma filter_all_passed (l : list TestResult) :
  length (List.filter success l) = length l <-> all_passed l.
Proof.
  unfold all_passed. induction l as [|x l IH].
  - split; [intros _ r []|reflexivity].
  - cbn [List.filter]. destruct (success x) eqn:Hx; cbn [length].
    + split.
      * intros Hlen r [<-|Hin]; [exact Hx|]. apply IH; [lia | exact Hin].
      * intros Hall. f_equal. apply IH. intros r Hin. apply Hall. right. exact Hin.
    + split.
      * intros Hlen. pose proof (filter_length_le success l). lia.
      * intros Hall. rewrite (Hall x) in Hx; [discriminate | left; reflexivity].
Qed.

(** The rate of [p] passed out of [t], for [t] below [2^54]: it is
    [100.0] exactly when [p = t]. *)
Lemma rate_100_iff (p t : Z) :
  0 <= p <= t -> 0 < t < 2 ^ 54 ->
  exists q,
    int_truediv p t = inr q /\
    (Float64.eqb (Float64.mul q (Float64.of_int 100)) float_100 = true <-> p = t).
Proof.
  intros Hp Ht. unfold int_truediv.
  replace (t =? 0) with false by (symmetry; apply Z.eqb_neq; lia).
  rewrite of_int_100.
  destruct (Z.eq_dec p t) as [->|Hne].
  - rewrite div_self by lia. exists float_1. split; [reflexivity|].
    rewrite mul_1_100, eqb_100_100. split; reflexivity.
  - destruct (Z.eq_dec p 0) as [->|Hp0].
    + destruct t as [|tt|tt]; try lia.
      exists (S754_zero false). split; [reflexivity|].
      split; [intros H; discriminate H | intros H; discriminate H].
    + destruct (div_below_one p t ltac:(lia) ltac:(lia)) as (m & e & Hq & Hm & He).
      rewrite Hq. exists (S754_finite false m e). split; [reflexivity|].
      rewrite mul_100_lt by lia. split; [intros H; discriminate H | intros H; contradiction].
Qed.

Lemma rate_2_of_3 :
  exists q,
    int_truediv 2 3 = inr q /\
    (6665 # 100 <= Float64.to_Q (Float64.mul q (Float64.of_int 100)))%Q /\
    (Float64.to_Q (Float64.mul q (Float64.of_int 100)) < 6675 # 100)%Q.
Proof.
  eexists. split; [vm_compute; reflexivity|]. split.
  - apply Z.leb_le. vm_compute. reflexivity.
  - apply Z.ltb_lt. vm_compute. reflexivity.
Qed.

Section RateClaims.

Variable rt : runtime.

(** With one result at least, a report is returned. *)
Lemma generate_report_returns (s : state) :
  test_results s <> [] ->
  holdable (test_results s) ->
  exists rep s', generate_report rt s = (inr rep, s').
Proof.
  intros Hne Hlen. unfold holdable in Hlen.
  destruct (generate_report_cases rt s) as (s' & _ & Heq).
  pose proof (filter_length_le success (test_results s)) as Hle.
  assert (Hpos : 0 < Z.of_nat (length (test_results s))).
  { destruct (test_results s); [contradiction|cbn [length]; lia]. }
  destruct (rate_100_iff (Z.of_nat (length (List.filter success (test_results s))))
              (Z.of_nat (length (test_results s)))) as (q & Hq & _); try lia.
  cbv zeta in Heq. rewrite Hq in Heq. eauto.
Qed.

(** C3.  For every results sequence that a process can hold (it is not
    empty, a report being returned), the returned [success_rate] equals
    [100.0] if and only if every recorded result has [success == true];
    and with 2 passed out of 3 the rate lies in [66.65, 66.75), that is,
    it is 66.7 to one decimal place. *)
Theorem success_rate_100_iff_all_passed (s : state) (rep : report) (s' : state) :
  generate_report rt s = (inr rep, s') ->
  holdable (test_results s) ->
  (Float64.eqb (success_rate rep) float_100 = true <-> all_passed (test_results s)) /\
  (total rep = 3 -> passed rep = 2 ->
   (6665 # 100 <= Float64.to_Q (success_rate rep))%Q /\
   (Float64.to_Q (success_rate rep) < 6675 # 100)%Q).
Proof.
  intros Hrun Hlen. unfold holdable in Hlen.
  destruct (generate_report_cases rt s) as (s1 & _ & Heq).
  cbv zeta in Heq. rewrite Heq in Hrun.
  set (p := Z.of_nat (length (List.filter success (test_results s)))) in *.
  set (t := Z.of_nat (length (test_results s))) in *.
  destruct (int_truediv p t) as [e|q] eqn:Hq; [discriminate|].
  injection Hrun as <- _. cbn [success_rate total passed].
  assert (Ht : 0 < t).
  { destruct (Z.eq_dec t 0) as [H0|H0]; [|lia].
    unfold int_truediv in Hq. rewrite H0 in Hq. discriminate Hq. }
  pose proof (filter_length_le success (test_results s)) as Hle.
  split.
  - destruct (rate_100_iff p t ltac:(lia) ltac:(lia)) as (q' & Hq' & Hiff).
    rewrite Hq in Hq'. injection Hq' as <-. rewrite Hiff.
    rewrite <- filter_all_passed. unfold p, t. lia.
  - intros Ht3 Hp2. rewrite Ht3, Hp2 in Hq.
    destruct rate_2_of_3 as (q' & Hq' & Hbounds). rewrite Hq in Hq'. injection Hq' as <-.
    exact Hbounds.
Qed.

End RateClaims.

(** The unit test's scenario: the rate of two passed out of three is not
    [100.0], one result having failed, and it is 66.7 to one decimal. *)
Lemma success_rate_100_iff_all_passed_witness :
  exists rep s',
    generate_report example_runtime two_of_three = (inr rep, s') /\
    Float64.eqb (success_rate rep) float_100 = false /\
    (6665 # 100 <= Float64.to_Q (success_rate rep))%Q /\
    (Float64.to_Q (success_rate rep) < 6675 # 100)%Q.
Proof.
  destruct two_of_three_report as (rep & s' & Hrun).
  exists rep, s'. split; [exact Hrun|].
  assert (Hlen : holdable (test_results two_of_three)) by (unfold holdable; cbn; lia).
  destruct (success_rate_100_iff_all_passed example_runtime two_of_three rep s' Hrun Hlen)
    as (Hiff & Hdec).
  destruct (generate_report_fields example_runtime two_of_three rep s' Hrun) as (Ht & Hp & _).
  split.
  - destruct (Float64.eqb (success_rate rep) float_100); [|reflexivity].
    assert (Hall : all_passed (test_results two_of_three)) by (apply Hiff; reflexivity).
    specialize (Hall (failing "Test 3" "Error message")).
    cbn in Hall. symmetry. apply Hall. auto.
  - apply Hdec; [rewrite Ht | rewrite Hp]; reflexivity.
Defined.

(** ** The exit status of the runner *)

Lemma bind_assoc_pt {A B C} (m : M A) (f : A -> M B) (g : B -> M C) s :
  bind (bind m f) g s = bind m (fun a => bind (f a) g) s.
Proof. unfold bind. destruct (m s) as [[e|a] s']; reflexivity. Qed.

Lemma bind_congr {A B} (m : M A) (k1 k2 : A -> M B) s :
  (forall a s', k1 a s' = k2 a s') -> bind m k1 s = bind m k2 s.
Proof. intros H. unfold bind. destruct (m s) as [[e|a] s']; [reflexivity | apply H]. Qed.


Lemma AgentTester_init_eq s :
  AgentTester_init s =
  (inr tt, set_start_time (clock s (ticks s)) (set_ticks S (set_test_results (fun _ => []) s))).
Proof. reflexivity. Qed.

Section ExitClaims.

Variable rt : runtime.

Lemma main_split s : main rt s = bind (checks_and_report rt) (save_report rt) s.
Proof.
  unfold main, checks_and_report. symmetry.
  repeat (rewrite bind_assoc_pt; apply bind_congr; intros ? ?).
  reflexivity.
Qed.




End ExitClaims.


(** ** The server *)

(** C9 (the failing input).  On Linux, where "address already in use" is
    errno 98, a start on the occupied port 8000 does not go on to port
    8001: the error is taken for a fatal one, reported, and the process
    exits with status 1. *)
Theorem start_server_linux_port_busy :
  start_server recursion_limit linux_8000_busy 8000 =
    ([[PStr "Error starting server: "; PStr "[Errno 98] Address already in use"]], Exit 1) /\
  tcp_bind linux_8000_busy 8001 = BindOk.
Proof. split; vm_compute; reflexivity. Qed.

(** Where errno 48 is "address already in use", the same start goes on to
    port 8001 and serves there. *)
Lemma start_server_darwin_port_busy :
  snd (start_server recursion_limit darwin_8000_busy 8000) = Stopped 8001 /\
  hd [] (fst (start_server recursion_limit darwin_8000_busy 8000)) =
    [PStr "Port "; PInt 8000; PStr " is already in use. Trying port "; PInt 8001].
Proof. split; vm_compute; reflexivity. Qed.



(** ** The primality helper *)

Lemma is_prime_loop_spec (n : Z) (l : list Z) :
  is_prime_loop n l = true <-> forall i, i ∈ l -> n mod i <> 0.
Proof.
  induction l as [|x l IH]; cbn [is_prime_loop].
  - split; [intros _ i Hi; inversion Hi | reflexivity].
  - destruct (Z.eqb_spec (n mod x) 0) as [H0|H0].
    + split; [discriminate|]. intros H. exfalso. apply (H x); [left | exact H0].
    + rewrite IH. split.
      * intros H i Hi. apply elem_of_cons in Hi. destruct Hi as [->|Hi]; [exact H0 | apply H, Hi].
      * intros H i Hi. apply H. right. exact Hi.
Qed.

Lemma elem_of_range (lo hi i : Z) : i ∈ range lo hi <-> lo <= i < hi.
Proof. unfold range. rewrite elem_of_seqZ. lia. Qed.

Lemma is_prime_eq (n k : Z) :
  2 <= n -> sqrt_bound n = inr k -> is_prime n = inr (is_prime_loop n (range 2 (k + 1))).
Proof.
  intros Hn Hk. unfold is_prime.
  replace (n <? 2) with false by (symmetry; apply Z.ltb_ge; lia).
  unfold sqrt_bound in Hk. destruct (math_sqrt n) as [e|r]; [discriminate|].
  cbn [rbind] in Hk |- *. rewrite Hk. reflexivity.
Qed.

(** Trial division up to a bound between the integer square root and the
    number itself decides primality. *)
Lemma trial_division_correct (n k : Z) :
  2 <= n -> Z.sqrt n <= k < n ->
  (is_prime_loop n (range 2 (k + 1)) = true <-> prime n).
Proof.
  intros Hn Hk. rewrite is_prime_loop_spec. rewrite <- prime_alt.
  pose proof (Z.sqrt_spec n ltac:(lia)) as [Hlo Hhi].
  split.
  - intros Hloop. split; [lia|]. intros d Hd [c Hc].
    assert (Hcpos : 1 < c < n) by nia.
    destruct (Z.le_gt_cases d (Z.sqrt n)) as [Hsmall|Hbig].
    + apply (Hloop d); [apply elem_of_range; lia|].
      rewrite Hc. apply Z.mod_mul. lia.
    + assert (Hcs : c <= Z.sqrt n) by nia.
      apply (Hloop c); [apply elem_of_range; lia|].
      rewrite Hc, Z.mul_comm. apply Z.mod_mul. lia.
  - intros [_ Hprime] i Hi Hmod. apply elem_of_range in Hi.
    apply (Hprime i); [lia|]. apply Z.mod_divide; [lia | exact Hmod].
Qed.

Lemma is_prime_below_2 (n : Z) : n < 2 -> is_prime n = inr false.
Proof.
  intros Hn. unfold is_prime.
  replace (n <? 2) with true by (symmetry; apply Z.ltb_lt; lia). reflexivity.
Qed.

(** Where [int(math.sqrt(n))] is at least the integer square root and
    below [n], [is_prime] returns the primality of [n]. *)
Lemma is_prime_correct_if_sqrt_ok (n k : Z) :
  2 <= n -> sqrt_bound n = inr k -> Z.sqrt n <= k < n ->
  (is_prime n = inr true <-> prime n) /\ (is_prime n = inr false <-> ~ prime n).
Proof.
  intros Hn Hk Hbound. rewrite (is_prime_eq n k Hn Hk).
  pose proof (trial_division_correct n k Hn Hbound) as Hiff.
  destruct (is_prime_loop n (range 2 (k + 1))).
  - split; [split; [intros _; apply Hiff; reflexivity | reflexivity]|].
    split; [discriminate|]. intros Hnp. exfalso. apply Hnp, Hiff. reflexivity.
  - split; [split; [discriminate|]|].
    + intros Hp. apply Hiff in Hp. discriminate Hp.
    + split; [|reflexivity]. intros _ Hp. apply Hiff in Hp. discriminate Hp.
Qed.

(** *** A prime above [2^53] *)

Lemma trial_inner_sound (n : nat) (p d d' : int) :
  trial_inner n p d = Some d' ->
  0 < to_Z d -> to_Z d + 2 * Z.of_nat n < wB ->
  to_Z d' = to_Z d + 2 * Z.of_nat n /\
  forall j, 0 <= j < Z.of_nat n -> to_Z p mod (to_Z d + 2 * j) <> 0.
Proof.
  revert d. induction n as [|n IH]; intros d Hrun Hd Hbound.
  - cbn [trial_inner] in Hrun. injection Hrun as <-. split; [lia|]. intros j Hj. lia.
  - cbn [trial_inner] in Hrun.
    destruct (Uint63.eqb (Uint63.mod p d) 0%uint63) eqn:Hdiv; [discriminate|].
    pose proof (to_Z_bounded d) as Hdb.
    assert (Hd2 : to_Z (Uint63.add d 2%uint63) = to_Z d + 2).
    { rewrite add_spec. change (to_Z 2%uint63) with 2. apply Z.mod_small. lia. }
    destruct (IH (Uint63.add d 2%uint63) Hrun) as (Hd' & Hall); try lia.
    split; [lia|]. intros j Hj.
    destruct (Z.eq_dec j 0) as [->|Hj0].
    + rewrite Z.mul_0_r, Z.add_0_r. rewrite <- mod_spec.
      apply eqb_false_spec in Hdiv. intros H0. apply Hdiv. apply to_Z_inj. rewrite H0. reflexivity.
    + replace (to_Z d + 2 * j) with (to_Z (Uint63.add d 2%uint63) + 2 * (j - 1)) by lia.
      apply Hall. lia.
Qed.

Lemma trial_outer_sound (m n : nat) (p d d' : int) :
  trial_outer m n p d = Some d' ->
  0 < to_Z d -> to_Z d + 2 * (Z.of_nat m * Z.of_nat n) < wB ->
  to_Z d' = to_Z d + 2 * (Z.of_nat m * Z.of_nat n) /\
  forall j, 0 <= j < Z.of_nat m * Z.of_nat n -> to_Z p mod (to_Z d + 2 * j) <> 0.
Proof.
  revert d. induction m as [|m IH]; intros d Hrun Hd Hbound.
  - cbn [trial_outer] in Hrun. injection Hrun as <-. split; [lia|]. intros j Hj. lia.
  - cbn [trial_outer] in Hrun.
    destruct (trial_inner n p d) as [d1|] eqn:Hin; [|discriminate].
    destruct (trial_inner_sound n p d d1 Hin Hd ltac:(nia)) as (Hd1 & Hall1).
    destruct (IH d1 Hrun ltac:(lia) ltac:(nia)) as (Hd' & Hall).
    split; [nia|]. intros j Hj.
    destruct (Z.lt_ge_cases j (Z.of_nat n)) as [Hlt|Hge].
    + apply Hall1. lia.
    + replace (to_Z d + 2 * j) with (to_Z d1 + 2 * (j - Z.of_nat n)) by lia.
      apply Hall. nia.
Qed.

Lemma big_prime_odd_divisors :
  trial_outer (Z.to_nat 6900) (Z.to_nat 6900) 9007199254740997%uint63 3%uint63 = Some 95220003%uint63.
Proof. vm_compute. reflexivity. Qed.

Lemma big_prime_is_prime : prime big_prime.
Proof.
  apply prime_alt. split; [unfold big_prime; lia|]. intros d Hd [c Hc].
  destruct (trial_outer_sound _ _ _ _ _ big_prime_odd_divisors) as (_ & Hall).
  { change (to_Z 3%uint63) with 3. lia. }
  { change (to_Z 3%uint63) with 3. rewrite !Z2Nat.id by lia. change wB with 9223372036854775808. lia. }
  change (to_Z 3%uint63) with 3 in Hall.
  change (to_Z 9007199254740997%uint63) with big_prime in Hall.
  rewrite !Z2Nat.id in Hall by lia.
  assert (Hc1 : 1 < c < big_prime) by nia.
  (* the smaller of the two factors is odd and below the bound reached *)
  assert (Hx : exists x, 1 < x /\ x * x <= big_prime /\ (x | big_prime)).
  { destruct (Z.le_gt_cases d c).
    - exists d. split; [lia|]. split; [nia|]. exists c. lia.
    - exists c. split; [lia|]. split; [nia|]. exists d. lia. }
  destruct Hx as (x & Hx1 & Hxx & Hxdiv).
  assert (Hxb : x < 94906267).
  { unfold big_prime in Hxx. nia. }
  assert (Hodd : x mod 2 = 1).
  { destruct (Z.eq_dec (x mod 2) 1) as [|Hne]; [assumption|exfalso].
    assert (H0 : x mod 2 = 0) by (pose proof (Z.mod_pos_bound x 2); lia).
    apply Z.mod_divide in H0; [|lia].
    assert (H2 : (2 | big_prime)) by (eapply Z.divide_trans; eassumption).
    apply Z.mod_divide in H2; [|lia]. vm_compute in H2. discriminate H2. }
  apply (Hall ((x - 3) / 2)).
  - pose proof (Z.div_mod x 2 ltac:(lia)) as Hdm.
    assert (x >= 3) by lia.
    split; [apply Z.div_pos; lia|].
    apply Z.div_lt_upper_bound; lia.
  - replace (3 + 2 * ((x - 3) / 2)) with x.
    + apply Z.mod_divide; [lia | exact Hxdiv].
    + pose proof (Z.div_mod (x - 3) 2 ltac:(lia)) as Hdm.
      assert (Hm : (x - 3) mod 2 = 0).
      { replace (x - 3) with (x + (-2) * 2 + 1) by lia. rewrite <- Zplus_mod_idemp_l.
        rewrite Z.mod_add by lia. rewrite Hodd. reflexivity. }
      lia.
Qed.

(** The square of that prime: [float] rounds it down, the square root of
    the rounded value rounds to the even neighbour below the prime, and
    the loop stops one short of the only divisor. *)
Lemma sqrt_bound_big_square : sqrt_bound big_square = inr (big_prime - 1).
Proof. vm_compute. reflexivity. Qed.

Lemma big_square_no_small_divisor (i : Z) : 2 <= i < big_prime -> big_square mod i <> 0.
Proof.
  intros Hi Hmod. apply Z.mod_divide in Hmod; [|lia].
  pose proof big_prime_is_prime as Hp. apply prime_alt in Hp. destruct Hp as [_ Hno].
  assert (Hg : Z.gcd i big_prime = 1).
  { pose proof (Z.gcd_divide_l i big_prime) as Hl.
    pose proof (Z.gcd_divide_r i big_prime) as Hr.
    pose proof (Z.gcd_nonneg i big_prime) as Hnn.
    set (g := Z.gcd i big_prime) in *.
    destruct (Z.eq_dec g 1) as [|Hg1]; [assumption|exfalso].
    assert (Hg0 : g <> 0).
    { intros H0. rewrite H0 in Hl. apply Z.divide_0_l in Hl. lia. }
    assert (Hgi : g <= i) by (apply Z.divide_pos_le; [lia | exact Hl]).
    apply (Hno g); [lia | exact Hr]. }
  apply (Hno i); [lia|].
  apply Z.gauss with (m := big_prime); [exact Hmod | exact Hg].
Qed.

Lemma big_square_not_prime : ~ prime big_square.
Proof.
  intros Hp. apply prime_alt in Hp. destruct Hp as [_ Hno].
  apply (Hno big_prime); [unfold big_square, big_prime; lia|].
  exists big_prime. reflexivity.
Qed.

(** C10 as stated fails: [is_prime] returns [True] for the square of a
    prime above [2^53]. *)
Lemma is_prime_true_on_a_square :
  is_prime big_square = inr true /\ ~ prime big_square.
Proof.
  split; [|exact big_square_not_prime].
  assert (Hloop : is_prime_loop big_square (range 2 (big_prime - 1 + 1)) = true).
  { apply is_prime_loop_spec. intros i Hi. apply elem_of_range in Hi.
    apply big_square_no_small_divisor. lia. }
  rewrite (is_prime_eq big_square (big_prime - 1)).
  - rewrite Hloop. reflexivity.
  - unfold big_square, big_prime. lia.
  - exact sqrt_bound_big_square.
Qed.

(** *** The square root of an int below [2^53] *)

Lemma pos_iter_xO (m k : positive) : Z.pos (Pos.iter xO m k) = Z.pos m * 2 ^ Z.pos k.
Proof.
  induction k as [|k IH] using Pos.peano_ind.
  - cbn [Pos.iter]. lia.
  - rewrite Pos.iter_succ, Pos2Z.inj_xO, IH, Pos2Z.inj_succ, Z.pow_succ_r by lia. lia.
Qed.

(** A mantissa of 53 bits with an exponent in range is left as it is. *)
Lemma bra_exact sx m ex :
  2 ^ 52 <= Z.pos m < 2 ^ 53 -> -1074 <= ex <= 971 ->
  binary_round_aux prec emax sx (Z.pos m) ex loc_Exact = S754_finite sx m ex.
Proof.
  intros Hm Hex. unfold binary_round_aux, shr_fexp.
  rewrite (Zdigits2_unique (Z.pos m) 53) by lia.
  rewrite fexp_normal by lia.
  replace (53 + ex - 53 - ex) with 0 by lia.
  cbn [shr shr_record_of_loc shr_m loc_of_shr_record round_nearest_even].
  rewrite (Zdigits2_unique (Z.pos m) 53) by lia.
  rewrite fexp_normal by lia.
  replace (53 + ex - 53 - ex) with 0 by lia.
  cbn [shr shr_record_of_loc shr_m].
  replace (Z.leb ex (emax - prec)) with true
    by (symmetry; apply Z.leb_le; unfold emax, prec; lia).
  reflexivity.
Qed.

(** [float(n)] for [0 < n < 2^53] is [n] itself, normalised. *)
Lemma of_int_small n :
  0 < n < 2 ^ 53 ->
  exists m, Float64.of_int n = S754_finite false m (Zdigits2 n - 53) /\
            Z.pos m = n * 2 ^ (53 - Zdigits2 n).
Proof.
  intros Hn. destruct n as [|p|p]; try lia.
  pose proof (Zdigits2_bounds (Z.pos p) ltac:(lia)) as [Hlo Hhi].
  pose proof (Zdigits2_le (Z.pos p) 53 ltac:(lia) ltac:(lia) ltac:(lia)) as Hd.
  pose proof (Zdigits2_pos (Z.pos p) ltac:(lia)) as Hd0.
  unfold Float64.of_int, binary_normalize, binary_round, shl_align.
  change (Z.pos (digits2_pos p)) with (Zdigits2 (Z.pos p)).
  set (d := Zdigits2 (Z.pos p)) in *.
  rewrite Z.add_0_r, fexp_normal by lia. rewrite Z.sub_0_r.
  destruct (d - 53) as [|e|e] eqn:He; try lia.
  - exists p. rewrite bra_exact; [|replace d with 53 in * by lia; lia|lia].
    split; [reflexivity|]. replace (53 - d) with 0 by lia. lia.
  - exists (Pos.iter xO p e).
    assert (Hpow : Z.pos (Pos.iter xO p e) = Z.pos p * 2 ^ (53 - d)).
    { rewrite pos_iter_xO. f_equal. f_equal. lia. }
    assert (Hsplit : 2 ^ 52 = 2 ^ (d - 1) * 2 ^ (53 - d) /\ 2 ^ 53 = 2 ^ d * 2 ^ (53 - d)).
    { split; rewrite <- Z.pow_add_r by lia; f_equal; lia. }
    assert (Hpp : 0 < 2 ^ (53 - d)) by (apply Z.pow_pos_nonneg; lia).
    rewrite bra_exact; [split; [reflexivity | exact Hpow] | | lia].
    rewrite Hpow. destruct Hsplit as [-> ->]. nia.
Qed.


Lemma round_within_one (q m P N D : Z) :
  2 ^ 52 <= q < 2 ^ 53 -> 2 ^ 52 <= m < 2 ^ 53 ->
  P = 1 \/ (exists P', P = 2 * P' /\ 1 <= P') ->
  0 < D -> D * q <= N < D * (q + 1) ->
  2 * m * (D * P) <= 2 * N + D * P ->
  2 * N <= 2 * m * (D * P) + D * P ->
  q <= m * P <= q + 1.
Proof.
  intros Hq Hm HP HD HN Hub Hlb.
  destruct HP as [->|(P' & -> & HP')].
  - rewrite !Z.mul_1_r in *.
    assert (D * (2 * m) < D * (2 * q + 3)) by lia.
    assert (D * (2 * q) <= D * (2 * m + 1)) by lia.
    assert (2 * m < 2 * q + 3) by (apply (Z.mul_lt_mono_pos_l D); lia).
    assert (2 * q <= 2 * m + 1) by (apply (Z.mul_le_mono_pos_l _ _ D); lia).
    lia.
  - assert (H1 : D * (2 * (m * P')) < D * (q + 1 + P')) by nia.
    assert (H2 : 2 * (m * P') < q + 1 + P') by (apply (Z.mul_lt_mono_pos_l D); lia).
    assert (HP1 : P' = 1) by nia.
    subst P'. lia.
Qed.

Lemma pow2_split k : 0 <= k -> 2 ^ k = 1 \/ (exists P', 2 ^ k = 2 * P' /\ 1 <= P').
Proof.
  intros Hk. destruct (Z.eq_dec k 0) as [->|Hne]; [left; reflexivity|right].
  exists (2 ^ (k - 1)). split.
  - rewrite <- Z.pow_succ_r by lia. f_equal. lia.
  - pose proof (Z.pow_pos_nonneg 2 (k - 1)). lia.
Qed.

(** The square root of a 53-bit mantissa scaled to 105 or 106 bits,
    rounded: the integer root or its successor, and the successor when
    the remainder is above the root. *)
Lemma sqrt_round (m' q r e' : Z) :
  2 ^ 104 <= m' < 2 ^ 106 -> Z.sqrtrem m' = (q, r) -> -1074 <= e' <= 900 ->
  2 ^ 52 <= q < 2 ^ 53 /\ q * q <= m' < (q + 1) * (q + 1) /\
  exists m k,
    binary_round_aux prec emax false q e'
      (if r =? 0 then loc_Exact else loc_Inexact (if r <=? q then Lt else Gt)) =
    S754_finite false m (e' + k) /\
    0 <= k /\ 2 ^ 52 <= Z.pos m /\ q <= Z.pos m * 2 ^ k <= q + 1 /\
    (q < r -> Z.pos m * 2 ^ k = q + 1).
Proof.
  intros Hm' Hsq He'.
  pose proof (Z.sqrtrem_spec m' ltac:(lia)) as Hspec. rewrite Hsq in Hspec.
  destruct Hspec as (Hmq & Hr).
  assert (Hq : 2 ^ 52 <= q < 2 ^ 53) by nia.
  split; [exact Hq|]. split; [nia|].
  assert (Hdq : Zdigits2 q = 53) by (apply Zdigits2_unique; lia).
  destruct (Z.eqb_spec r 0) as [Hr0|Hr0].
  - destruct (bra_normal false q e' loc_Exact q 1) as (m & k & Hbra & Hk & Hm & Hub & Hlb);
      try lia.
    + rewrite Z.div_1_r. reflexivity.
    + rewrite Z.mod_1_r. reflexivity.
    + exists m, k. split; [exact Hbra|]. split; [exact Hk|]. split; [lia|].
      split; [|lia].
      apply (round_within_one q (Z.pos m) (2 ^ k) q 1); try lia. apply pow2_split; lia.
  - destruct (Z.leb_spec r q) as [Hle|Hgt].
    + destruct (bra_normal false q e' (loc_Inexact Lt) (4 * q + 1) 4)
        as (m & k & Hbra & Hk & Hm & Hub & Hlb); try lia.
      * apply Z.div_unique with (r := 1); lia.
      * replace ((4 * q + 1) mod 4) with 1 by (apply Z.mod_unique with (q := q); lia).
        reflexivity.
      * exists m, k. split; [exact Hbra|]. split; [exact Hk|]. split; [lia|].
        split; [|lia].
        apply (round_within_one q (Z.pos m) (2 ^ k) (4 * q + 1) 4); try lia.
        apply pow2_split; lia.
    + destruct (bra_normal false q e' (loc_Inexact Gt) (4 * q + 3) 4)
        as (m & k & Hbra & Hk & Hm & Hub & Hlb); try lia.
      * apply Z.div_unique with (r := 3); lia.
      * replace ((4 * q + 3) mod 4) with 3 by (apply Z.mod_unique with (q := q); lia).
        reflexivity.
      * exists m, k. split; [exact Hbra|]. split; [exact Hk|]. split; [lia|].
        assert (Hin : q <= Z.pos m * 2 ^ k <= q + 1).
        { apply (round_within_one q (Z.pos m) (2 ^ k) (4 * q + 3) 4); try lia.
          apply pow2_split; lia. }
        split; [exact Hin|]. intros _.
        destruct (Z.eq_dec k 0) as [->|Hk0].
        -- change (2 ^ 0) with 1 in *. lia.
        -- assert (H2k : 2 ^ 1 <= 2 ^ k) by (apply Z.pow_le_mono_r; lia).
           change (2 ^ 1) with 2 in H2k.
           assert (2 ^ 53 <= Z.pos m * 2 ^ k); [|lia].
           change (2 ^ 53) with (2 ^ 52 * 2).
           apply Z.mul_le_mono_nonneg; lia.
Qed.


(** [int(math.sqrt(n))] for [2 <= n < 2^53]: the integer square root or
    its successor, and below [n]. *)
Lemma sqrt_bound_small (n : Z) :
  2 <= n < 2 ^ 53 ->
  exists k, sqrt_bound n = inr k /\ Z.sqrt n <= k < n.
Proof.
  intros Hn.
  destruct (Z.eq_dec n 2) as [->|Hn2].
  { exists 1. split; [vm_compute; reflexivity|]. change (Z.sqrt 2) with 1. lia. }
  destruct (of_int_small n ltac:(lia)) as (m & Hof & Hm).
  pose proof (Zdigits2_bounds n ltac:(lia)) as [Hdlo Hdhi].
  pose proof (Zdigits2_le n 53 ltac:(lia) ltac:(lia) ltac:(lia)) as Hd53.
  assert (Hd2 : 2 <= Zdigits2 n).
  { destruct (Z.le_gt_cases 2 (Zdigits2 n)) as [|Hlt]; [assumption|].
    assert (2 ^ Zdigits2 n <= 2 ^ 1) by (apply Z.pow_le_mono_r; lia). lia. }
  set (d := Zdigits2 n) in *.
  assert (Hpd : 0 < 2 ^ (53 - d)) by (apply Z.pow_pos_nonneg; lia).
  assert (Hsplit : 2 ^ 52 = 2 ^ (d - 1) * 2 ^ (53 - d) /\ 2 ^ 53 = 2 ^ d * 2 ^ (53 - d)).
  { split; rewrite <- Z.pow_add_r by lia; f_equal; lia. }
  assert (Hmb : 2 ^ 52 <= Z.pos m < 2 ^ 53).
  { rewrite Hm. destruct Hsplit as [-> ->]. nia. }
  unfold sqrt_bound, math_sqrt. rewrite Hof. cbn [is_finite negb].
  replace (n <? 0) with false by (symmetry; apply Z.ltb_ge; lia).
  cbn [rbind]. unfold Float64.sqrt. cbn [SFsqrt]. unfold SFsqrt_core_binary.
  rewrite (Zdigits2_unique (Z.pos m) 53) by lia.
  rewrite !Z.div2_div.
  set (h := (d + 1) / 2).
  replace ((53 + (d - 53) + 1) / 2) with h by (unfold h; f_equal; lia).
  assert (Hh : d = 2 * h \/ d = 2 * h - 1).
  { unfold h. pose proof (Z.div_mod (d + 1) 2 ltac:(lia)).
    pose proof (Z.mod_pos_bound (d + 1) 2 ltac:(lia)). lia. }
  assert (Hh1 : 1 <= h <= 27) by lia.
  rewrite fexp_normal by lia.
  assert (Hdiv : h - 53 <= (d - 53) / 2) by (apply Z.div_le_lower_bound; lia).
  replace (Z.min (h - 53) ((d - 53) / 2)) with (h - 53) by lia.
  set (s := d - 53 - 2 * (h - 53)).
  assert (Hs : s = 52 \/ s = 53) by (unfold s; lia).
  assert (Hshift : match s with
                   | 0 => Z.pos m
                   | Z.pos _ => Z.shiftl (Z.pos m) s
                   | Z.neg _ => 0
                   end = Z.pos m * 2 ^ s).
  { destruct Hs as [-> | ->]; rewrite Z.shiftl_mul_pow2 by lia; reflexivity. }
  rewrite Hshift.
  set (m' := Z.pos m * 2 ^ s).
  (* the scaled mantissa is [n] times an even power of two *)
  set (T := 2 ^ (53 - h)).
  assert (HT : 0 < T) by (apply Z.pow_pos_nonneg; lia).
  assert (Hm'n : m' = n * (T * T)).
  { unfold m', T. rewrite Hm. rewrite <- Z.mul_assoc. f_equal.
    rewrite <- !Z.pow_add_r by lia. f_equal. unfold s. lia. }
  assert (Hm'b : 2 ^ 104 <= m' < 2 ^ 106).
  { unfold m'. destruct Hs as [-> | ->]; lia. }
  destruct (Z.sqrtrem m') as [q r] eqn:Hsq.
  destruct (sqrt_round m' q r (h - 53) Hm'b Hsq ltac:(lia))
    as (Hq & Hqq & m2 & k & Hbra & Hk & Hm2 & Hmk & Hup).
  rewrite Hbra.
  (* the rounded mantissa has at most one more bit than [q] *)
  assert (Hk1 : k <= 1).
  { destruct (Z.le_gt_cases k 1) as [|Hgt]; [assumption|exfalso].
    assert (2 ^ 2 <= 2 ^ k) by (apply Z.pow_le_mono_r; lia).
    nia. }
  pose proof (Z.sqrt_spec n ltac:(lia)) as [Hk0lo Hk0hi].
  pose proof (Z.sqrt_nonneg n) as Hk0.
  set (k0 := Z.sqrt n) in *.
  assert (HTT : 0 < T * T) by (apply Z.mul_pos_pos; lia).
  assert (Hlow : k0 * T <= q).
  { destruct (Z.le_gt_cases (k0 * T) q) as [|Hgt]; [assumption|exfalso].
    assert (H1 : (q + 1) * (q + 1) <= (k0 * T) * (k0 * T))
      by (apply Z.mul_le_mono_nonneg; lia).
    assert (H2 : (k0 * k0) * (T * T) <= n * (T * T))
      by (apply Z.mul_le_mono_nonneg_r; lia).
    replace (k0 * T * (k0 * T)) with (k0 * k0 * (T * T)) in H1 by ring. lia. }
  assert (Hhigh : q + 1 <= (k0 + 1) * T).
  { destruct (Z.le_gt_cases (q + 1) ((k0 + 1) * T)) as [|Hgt]; [assumption|exfalso].
    assert (H0 : 0 <= (k0 + 1) * T) by (apply Z.mul_nonneg_nonneg; lia).
    assert (H1 : ((k0 + 1) * T) * ((k0 + 1) * T) <= q * q)
      by (apply Z.mul_le_mono_nonneg; lia).
    assert (H2 : n * (T * T) < ((k0 + 1) * (k0 + 1)) * (T * T))
      by (apply Z.mul_lt_mono_pos_r; lia).
    replace ((k0 + 1) * T * ((k0 + 1) * T)) with ((k0 + 1) * (k0 + 1) * (T * T)) in H1 by ring.
    lia. }
  (* the exponent is negative: [int] divides the mantissa *)
  assert (Hneg : h - 53 + k < 0) by lia.
  cbn [int_of_float Float64.trunc].
  destruct (h - 53 + k) as [|ep|ep] eqn:He; try lia.
  set (U := 2 ^ (- Z.neg ep)).
  assert (HU : 0 < U) by (apply Z.pow_pos_nonneg; lia).
  assert (HTU : T = 2 ^ k * U).
  { unfold T, U. rewrite <- Z.pow_add_r by lia. f_equal. lia. }
  assert (HP : 0 < 2 ^ k) by (apply Z.pow_pos_nonneg; lia).
  eexists. split; [reflexivity|].
  assert (Hlo' : k0 * U <= Z.pos m2).
  { apply (Z.mul_le_mono_pos_r _ _ (2 ^ k) HP).
    replace (k0 * U * 2 ^ k) with (k0 * T) by (rewrite HTU; ring). lia. }
  assert (Hhi' : Z.pos m2 <= (k0 + 1) * U).
  { apply (Z.mul_le_mono_pos_r _ _ (2 ^ k) HP).
    replace ((k0 + 1) * U * 2 ^ k) with ((k0 + 1) * T) by (rewrite HTU; ring). lia. }
  assert (Hklo : k0 <= Z.pos m2 / U) by (apply Z.div_le_lower_bound; lia).
  assert (Hkhi : Z.pos m2 / U <= k0 + 1) by (apply Z.div_le_upper_bound; lia).
  assert (Hk0n : k0 + 1 < n).
  { destruct (Z.le_gt_cases n (k0 + 1)) as [Hge|]; [exfalso|assumption].
    assert ((n - 1) * (n - 1) <= k0 * k0) by (apply Z.mul_le_mono_nonneg; lia).
    nia. }
  lia.
Qed.

(** *** The square root of an int from [2^53] on *)

(** Rounding a mantissa of at least 53 bits, whatever its exponent: the
    result is the rounded mantissa, or an infinity when the exponent is
    out of range. *)
Lemma bra_any sx mx ex lx N D :
  0 < D -> 0 <= N -> mx = N / D -> lx = loc_of (N mod D) D ->
  2 ^ 52 <= mx -> -1074 <= ex ->
  exists m k,
    binary_round_aux prec emax sx mx ex lx =
      (if ex + k <=? 971 then S754_finite sx m (ex + k) else S754_infinity sx) /\
    Zdigits2 mx - 53 <= k <= Zdigits2 mx - 52 /\ 2 ^ 52 <= Z.pos m < 2 ^ 53 /\
    2 * Z.pos m * (D * 2 ^ k) <= 2 * N + D * 2 ^ k /\
    2 * N <= 2 * Z.pos m * (D * 2 ^ k) + D * 2 ^ k.
Proof.
  intros HD HN Hmx Hlx Hlo Hex.
  assert (Hmx0 : 0 < mx) by lia.
  pose proof (pow2_digits_le mx Hmx0 Hlo) as Hdx.
  pose proof (Zdigits2_bounds mx Hmx0) as [Hdlo Hdhi].
  set (dx := Zdigits2 mx) in *.
  unfold binary_round_aux, shr_fexp. fold dx.
  rewrite fexp_normal by lia.
  destruct (shr_represents (shr_record_of_loc mx lx) ex (dx + ex - 53 - ex) N D) as (mrs' & Hshr & Hrep).
  { subst mx lx. apply represents_of_loc; assumption. }
  rewrite Hshr. replace (Z.max 0 (dx + ex - 53 - ex)) with (dx - 53) in * by lia.
  set (n := dx - 53) in *.
  assert (Hn : 0 <= n) by (unfold n; lia).
  assert (HD' : 0 < D * 2 ^ n) by (apply Z.mul_pos_pos; [lia | apply Z.pow_pos_nonneg; lia]).
  destruct Hrep as [_ _ Hm Hloc]. rewrite Hm, Hloc.
  pose proof (round_nearest_even_bounds N (D * 2 ^ n) HD' HN) as (Hq & Hub & Hlb).
  cbv zeta in Hq, Hub, Hlb.
  set (m1 := round_nearest_even (N / (D * 2 ^ n)) (loc_of (N mod (D * 2 ^ n)) (D * 2 ^ n))) in *.
  assert (Hqdiv : N / (D * 2 ^ n) = mx / 2 ^ n).
  { rewrite Hmx. rewrite Z.div_div; [reflexivity | lia | apply Z.pow_pos_nonneg; lia]. }
  assert (Hpn : 0 < 2 ^ n) by (apply Z.pow_pos_nonneg; lia).
  assert (Hsplit : 2 ^ (dx - 1) = 2 ^ 52 * 2 ^ n /\ 2 ^ dx = 2 ^ 53 * 2 ^ n).
  { split; rewrite <- Z.pow_add_r by lia; f_equal; unfold n; lia. }
  destruct Hsplit as [Hs1 Hs2].
  assert (Hqlo : 2 ^ 52 <= N / (D * 2 ^ n)).
  { rewrite Hqdiv. apply Z.div_le_lower_bound; lia. }
  assert (Hqhi : N / (D * 2 ^ n) < 2 ^ 53).
  { rewrite Hqdiv. apply Z.div_lt_upper_bound; lia. }
  change (emax - prec) with 971.
  destruct (Z.eq_dec m1 (2 ^ 53)) as [Hcarry|Hnc].
  - rewrite Hcarry in *.
    replace (Zdigits2 (2 ^ 53)) with 54 by reflexivity.
    rewrite fexp_normal by lia.
    replace (54 + (ex + n) - 53 - (ex + n)) with 1 by lia.
    cbn [shr shr_record_of_loc SpecFloat.iter_pos shr_1 shr_m].
    change (2 ^ 53) with (Z.pos (2 ^ 53)%positive).
    cbn [shr_1 shr_m].
    exists (2 ^ 52)%positive, (n + 1).
    replace (ex + n + 1) with (ex + (n + 1)) by lia.
    split; [reflexivity|]. split; [lia|]. split; [lia|].
    rewrite Z.pow_add_r by lia. change (2 ^ 1) with 2.
    change (Z.pos (2 ^ 52)) with (2 ^ 52). change (2 ^ 53) with (2 * 2 ^ 52) in Hub, Hlb.
    split; nia.
  - assert (Hm1 : 2 ^ 52 <= m1 < 2 ^ 53) by lia.
    rewrite (Zdigits2_unique m1 53) by lia.
    rewrite fexp_normal by lia.
    replace (53 + (ex + n) - 53 - (ex + n)) with 0 by lia.
    cbn [shr shr_record_of_loc shr_m].
    destruct m1 as [|m|m]; try lia.
    exists m, n.
    split; [reflexivity|]. split; [lia|]. split; [lia|]. split; lia.
Qed.

(** [float(n)] for [n >= 2^53]: the nearest 53-bit mantissa, or an
    infinity. *)
Lemma of_int_large (n : Z) :
  2 ^ 53 <= n ->
  exists m k,
    Float64.of_int n =
      (if k <=? 971 then S754_finite false m k else S754_infinity false) /\
    Zdigits2 n - 53 <= k <= Zdigits2 n - 52 /\ 1 <= k /\
    2 ^ 52 <= Z.pos m < 2 ^ 53 /\
    2 * Z.pos m * 2 ^ k <= 2 * n + 2 ^ k /\
    2 * n <= 2 * Z.pos m * 2 ^ k + 2 ^ k.
Proof.
  intros Hn. destruct n as [|p|p]; try lia.
  pose proof (Zdigits2_bounds (Z.pos p) ltac:(lia)) as [Hlo Hhi].
  assert (Hd : 54 <= Zdigits2 (Z.pos p)).
  { destruct (Z.le_gt_cases 54 (Zdigits2 (Z.pos p))) as [|Hlt]; [assumption|].
    assert (2 ^ Zdigits2 (Z.pos p) <= 2 ^ 53) by (apply Z.pow_le_mono_r; lia). lia. }
  unfold Float64.of_int, binary_normalize, binary_round, shl_align.
  change (Z.pos (digits2_pos p)) with (Zdigits2 (Z.pos p)).
  set (d := Zdigits2 (Z.pos p)) in *.
  rewrite Z.add_0_r, fexp_normal by lia. rewrite Z.sub_0_r.
  destruct (d - 53) as [|e|e] eqn:He; try lia.
  destruct (bra_any false (Z.pos p) 0 loc_Exact (Z.pos p) 1)
    as (m & k & Hbra & Hk & Hm & Hub & Hlb); try lia.
  - rewrite Z.div_1_r. reflexivity.
  - rewrite Z.mod_1_r. reflexivity.
  - fold d in Hk. exists m, k. rewrite Hbra. rewrite !Z.add_0_l.
    split; [reflexivity|]. split; [lia|]. split; [lia|]. split; [lia|].
    rewrite !Z.mul_1_l in Hub, Hlb. split; lia.
Qed.

(** [int(math.sqrt(n))] for [n >= 2^53] that does not overflow: a number
    below [n]. *)
Lemma sqrt_bound_large (n : Z) :
  2 ^ 53 <= n ->
  (2 ^ 1023 <= n /\ exists e, sqrt_bound n = inl e) \/
  (exists k, sqrt_bound n = inr k /\ 0 <= k < n).
Proof.
  intros Hn.
  destruct (of_int_large n Hn) as (m & e & Hof & Hed & He1 & Hm & Hub & Hlb).
  unfold sqrt_bound, math_sqrt. rewrite Hof.
  destruct (Z.leb_spec e 971) as [He|He].
  2:{ left. split; [|eexists; reflexivity].
      pose proof (Zdigits2_bounds n ltac:(lia)) as [Hdlo _].
      assert (2 ^ 1023 <= 2 ^ (Zdigits2 n - 1)) by (apply Z.pow_le_mono_r; lia). lia. }
  right. cbn [is_finite negb].
  replace (n <? 0) with false by (symmetry; apply Z.ltb_ge; lia).
  cbn [rbind]. unfold Float64.sqrt. cbn [SFsqrt]. unfold SFsqrt_core_binary.
  rewrite (Zdigits2_unique (Z.pos m) 53) by lia.
  rewrite !Z.div2_div.
  set (h := e / 2).
  pose proof (Z.div_mod e 2 ltac:(lia)) as Hdm.
  pose proof (Z.mod_pos_bound e 2 ltac:(lia)) as Hmb. fold h in Hdm.
  replace ((53 + e + 1) / 2) with (h + 27)
    by (apply Z.div_unique with (r := e mod 2); lia).
  rewrite fexp_normal by lia.
  replace (Z.min (h + 27 - 53) h) with (h - 26) by lia.
  set (s := e - 2 * (h - 26)).
  assert (Hs : s = 52 \/ s = 53) by (unfold s; lia).
  assert (Hshift : match s with
                   | 0 => Z.pos m
                   | Z.pos _ => Z.shiftl (Z.pos m) s
                   | Z.neg _ => 0
                   end = Z.pos m * 2 ^ s).
  { destruct Hs as [-> | ->]; rewrite Z.shiftl_mul_pow2 by lia; reflexivity. }
  rewrite Hshift.
  set (m' := Z.pos m * 2 ^ s).
  assert (Hm'b : 2 ^ 104 <= m' < 2 ^ 106).
  { unfold m'. destruct Hs as [-> | ->]; lia. }
  destruct (Z.sqrtrem m') as [q r] eqn:Hsq.
  destruct (sqrt_round m' q r (h - 26) Hm'b Hsq ltac:(lia))
    as (Hq & Hqq & m2 & k & Hbra & Hk & Hm2 & Hmk & Hup).
  rewrite Hbra.
  assert (HP : 0 < 2 ^ k) by (apply Z.pow_pos_nonneg; lia).
  assert (Hk1 : k <= 1).
  { destruct (Z.le_gt_cases k 1) as [|Hgt]; [assumption|exfalso].
    assert (2 ^ 2 <= 2 ^ k) by (apply Z.pow_le_mono_r; lia).
    nia. }
  assert (Hm2hi : Z.pos m2 <= 2 ^ 53) by nia.
  assert (Hpe : 0 < 2 ^ e) by (apply Z.pow_pos_nonneg; lia).
  assert (Hn2 : (2 ^ 53 - 1) * 2 ^ e <= 2 * n) by nia.
  cbn [int_of_float Float64.trunc].
  destruct (Z.lt_ge_cases (h - 26) 0) as [Hneg|Hpos].
  - (* a square root below [2^53]: the integer part has at most 52 bits *)
    assert (Hgoal : forall v, 0 <= v <= 2 ^ 52 -> 0 <= v < n) by (intros v Hv; lia).
    destruct (h - 26 + k) as [|ep|ep] eqn:HE; try lia.
    + eexists. split; [reflexivity|]. apply Hgoal.
      assert (k = 1) by lia. subst k. change (2 ^ 1) with 2 in Hmk. lia.
    + eexists. split; [reflexivity|]. apply Hgoal.
      assert (HU : 2 <= 2 ^ (- Z.neg ep)).
      { change 2 with (2 ^ 1) at 1. apply Z.pow_le_mono_r; lia. }
      split; [apply Z.div_pos; lia|].
      apply Z.div_le_upper_bound; [lia|]. nia.
  - (* a square root of at least [2^53]: an integer of about half the
       bits of [n] *)
    assert (Hh : h - 26 <= e - 52) by lia.
    assert (Hpow : 2 ^ (h - 26) * 2 ^ 52 <= 2 ^ e).
    { rewrite <- Z.pow_add_r by lia. apply Z.pow_le_mono_r; lia. }
    assert (Hph : 0 < 2 ^ (h - 26)) by (apply Z.pow_pos_nonneg; lia).
    assert (Hval : Z.pos m2 * 2 ^ (h - 26 + k) <= 2 ^ 53 * 2 ^ (h - 26)).
    { rewrite Z.pow_add_r by lia.
      replace (Z.pos m2 * (2 ^ (h - 26) * 2 ^ k)) with ((Z.pos m2 * 2 ^ k) * 2 ^ (h - 26)) by ring.
      apply Z.mul_le_mono_nonneg_r; lia. }
    assert (Hlt : 2 ^ 53 * 2 ^ (h - 26) < n).
    { assert (2 * (2 ^ 53 * 2 ^ (h - 26)) < 2 * n); [|lia].
      apply Z.le_lt_trans with (4 * 2 ^ e); [|nia].
      change (2 ^ 53) with (2 * 2 ^ 52). nia. }
    destruct (h - 26 + k) as [|ep|ep] eqn:HE; try lia.
    + eexists. split; [reflexivity|].
      change (2 ^ 0) with 1 in Hval. lia.
    + eexists. split; [reflexivity|]. lia.
Qed.


(** [int(math.sqrt(n))] for [2^53 <= n < (2^53 + 5)^2].  While the
    root of the rounded argument is below [2^53], a float holds it to
    less than a unit, and its integer part is not below the integer
    square root; from there on it is at least [2^53]. *)
Lemma sqrt_bound_mid (n : Z) :
  2 ^ 53 <= n < big_square ->
  exists k, sqrt_bound n = inr k /\ k < n /\ (Z.sqrt n <= k \/ 2 ^ 53 <= k).
Proof.
  intros Hn.
  assert (Hn107 : n < 2 ^ 107) by (unfold big_square, big_prime in Hn; lia).
  assert (Hlow : forall k, sqrt_bound n = inr k -> Z.sqrt n <= k \/ 2 ^ 53 <= k).
  2:{ destruct (sqrt_bound_large n ltac:(lia)) as [(Hbig & _)|(k & Hk & Hb)].
      - assert (2 ^ 107 <= 2 ^ 1023) by (apply Z.pow_le_mono_r; lia). lia.
      - exists k. split; [exact Hk|]. split; [lia | apply Hlow; exact Hk]. }
  destruct (of_int_large n ltac:(lia)) as (m & e & Hof & Hed & He1 & Hm & Hub & Hlb).
  pose proof (Zdigits2_le n 107 ltac:(lia) ltac:(lia) ltac:(lia)) as Hd107.
  assert (He54 : e <= 54).
  { destruct (Z.le_gt_cases e 54) as [|Hgt]; [assumption|exfalso].
    assert (He : e = 55) by lia. rewrite He in Hub.
    assert (H1 : 2 ^ 52 * 2 ^ 55 <= Z.pos m * 2 ^ 55)
      by (apply Z.mul_le_mono_nonneg_r; lia).
    change (2 ^ 52 * 2 ^ 55) with (2 ^ 107) in H1.
    unfold big_square, big_prime in Hn. lia. }
  unfold sqrt_bound, math_sqrt. rewrite Hof.
  replace (e <=? 971) with true by (symmetry; apply Z.leb_le; lia).
  cbn [is_finite negb].
  replace (n <? 0) with false by (symmetry; apply Z.ltb_ge; lia).
  cbn [rbind]. unfold Float64.sqrt. cbn [SFsqrt]. unfold SFsqrt_core_binary.
  rewrite (Zdigits2_unique (Z.pos m) 53) by lia.
  rewrite !Z.div2_div.
  set (h := e / 2).
  pose proof (Z.div_mod e 2 ltac:(lia)) as Hdm.
  pose proof (Z.mod_pos_bound e 2 ltac:(lia)) as Hmb. fold h in Hdm.
  replace ((53 + e + 1) / 2) with (h + 27)
    by (apply Z.div_unique with (r := e mod 2); lia).
  rewrite fexp_normal by lia.
  replace (Z.min (h + 27 - 53) h) with (h - 26) by lia.
  set (s := e - 2 * (h - 26)).
  assert (Hs : s = 52 \/ s = 53) by (unfold s; lia).
  assert (Hshift : match s with
                   | 0 => Z.pos m
                   | Z.pos _ => Z.shiftl (Z.pos m) s
                   | Z.neg _ => 0
                   end = Z.pos m * 2 ^ s).
  { destruct Hs as [-> | ->]; rewrite Z.shiftl_mul_pow2 by lia; reflexivity. }
  rewrite Hshift.
  set (m' := Z.pos m * 2 ^ s).
  assert (Hm'b : 2 ^ 104 <= m' < 2 ^ 106).
  { unfold m'. destruct Hs as [-> | ->]; lia. }
  destruct (Z.sqrtrem m') as [q r] eqn:Hsq.
  destruct (sqrt_round m' q r (h - 26) Hm'b Hsq ltac:(lia))
    as (Hq & Hqq & m2 & k & Hbra & Hk & Hm2 & Hmk & Hup).
  rewrite Hbra.
  pose proof (Z.sqrtrem_spec m' ltac:(lia)) as Hspec. rewrite Hsq in Hspec.
  destruct Hspec as (Hmq & Hr).
  assert (HP : 0 < 2 ^ k) by (apply Z.pow_pos_nonneg; lia).
  assert (Hk1 : k <= 1).
  { destruct (Z.le_gt_cases k 1) as [|Hgt]; [assumption|exfalso].
    assert (H4 : 2 ^ 2 <= 2 ^ k) by (apply Z.pow_le_mono_r; lia).
    change (2 ^ 2) with 4 in H4.
    assert (2 ^ 52 * 4 <= Z.pos m2 * 2 ^ k) by (apply Z.mul_le_mono_nonneg; lia).
    lia. }
  set (V := Z.pos m2 * 2 ^ k) in *.
  pose proof (Z.sqrt_spec n ltac:(lia)) as [Hk0lo Hk0hi].
  pose proof (Z.sqrt_nonneg n) as Hk0.
  set (k0 := Z.sqrt n) in *.
  cbn [int_of_float Float64.trunc].
  intros kk Hkk.
  destruct (Z.lt_ge_cases 0 (h - 26)) as [Hpos|Hneg].
  - (* the rounded argument is [2^106] or more *)
    right.
    assert (Hh : h = 27) by lia.
    assert (Hv : 2 ^ 53 <= Z.pos m2 * 2 ^ (h - 26 + k)).
    { rewrite Z.pow_add_r by lia. rewrite Hh. change (2 ^ (27 - 26)) with 2.
      replace (Z.pos m2 * (2 * 2 ^ k)) with (2 * V) by (unfold V; ring). lia. }
    destruct (h - 26 + k) as [|ep|ep] eqn:HE; try lia.
    injection Hkk as <-. lia.
  - left.
    set (U := 2 ^ (26 - h)).
    assert (HU : 0 < U) by (apply Z.pow_pos_nonneg; lia).
    assert (Hh0 : 0 <= h) by (apply Z.div_pos; lia).
    assert (Hkey : k0 * U <= V).
    { destruct (Z.le_gt_cases (k0 * U) V) as [|Hgt]; [assumption|exfalso].
      set (A := k0 * U) in *.
      assert (HA1 : 1 <= A) by lia.
      assert (Hm'A : m' <= A * (A - 1)).
      { destruct (Z.le_gt_cases r q) as [Hrq|Hrq].
        - assert (q * (q + 1) <= (A - 1) * A) by (apply Z.mul_le_mono_nonneg; lia).
          lia.
        - pose proof (Hup Hrq) as HV.
          assert ((q + 1) * (q + 1) <= (A - 1) * (A - 1))
            by (apply Z.mul_le_mono_nonneg; lia).
          assert ((A - 1) * (A - 1) <= A * (A - 1))
            by (apply Z.mul_le_mono_nonneg_r; lia).
          lia. }
      set (X := 2 ^ e) in *.
      assert (HX : 0 < X) by (apply Z.pow_pos_nonneg; lia).
      assert (Hm'X : m' = Z.pos m * X * (U * U)).
      { unfold m', X, U. rewrite <- Z.mul_assoc. f_equal.
        rewrite <- !Z.pow_add_r by lia. f_equal. unfold s. lia. }
      (* [2 * k0 <= X * U] *)
      assert (HUU : 0 < U * U) by (apply Z.mul_pos_pos; lia).
      assert (H1 : 2 * (k0 * k0) * (U * U) <= 2 * n * (U * U))
        by (apply Z.mul_le_mono_nonneg_r; lia).
      assert (H2 : 2 * n * (U * U) <= (2 * Z.pos m * X + X) * (U * U))
        by (apply Z.mul_le_mono_nonneg_r; lia).
      assert (H3 : 2 * A <= X * (U * U)).
      { replace (2 * (k0 * k0) * (U * U)) with (2 * (A * A)) in H1 by (unfold A; ring).
        replace ((2 * Z.pos m * X + X) * (U * U))
          with (2 * (Z.pos m * X * (U * U)) + X * (U * U)) in H2 by ring.
        rewrite <- Hm'X in H2.
        replace (A * (A - 1)) with (A * A - A) in Hm'A by ring.
        lia. }
      assert (H4 : 2 * k0 <= X * U).
      { apply (Z.mul_le_mono_pos_r _ _ U HU).
        replace (2 * k0 * U) with (2 * A) by (unfold A; ring).
        replace (X * U * U) with (X * (U * U)) by ring. exact H3. }
      (* but [n] is too large for that *)
      assert (HW : X * (U * U) <= 2 ^ 53).
      { unfold X, U. rewrite <- !Z.pow_add_r by lia. apply Z.pow_le_mono_r; lia. }
      assert (HU26 : U <= 2 ^ 26) by (unfold U; apply Z.pow_le_mono_r; lia).
      assert (H5 : (X * U) * (X * U) <= 2 ^ 53 * X).
      { replace (X * U * (X * U)) with (X * (U * U) * X) by ring.
        apply Z.mul_le_mono_nonneg_r; lia. }
      assert (H6 : X * U <= 2 ^ 26 * X).
      { rewrite (Z.mul_comm X U). apply Z.mul_le_mono_nonneg_r; lia. }
      assert (H7 : (2 * k0 + 2) * (2 * k0 + 2) <= (X * U + 2) * (X * U + 2))
        by (apply Z.mul_le_mono_nonneg; lia).
      assert (H8 : (2 ^ 53 - 1) * X <= 2 * n).
      { assert (2 ^ 52 * X <= Z.pos m * X) by (apply Z.mul_le_mono_nonneg_r; lia).
        lia. }
      replace ((2 * k0 + 2) * (2 * k0 + 2)) with (4 * ((k0 + 1) * (k0 + 1))) in H7 by ring.
      replace ((X * U + 2) * (X * U + 2)) with (X * U * (X * U) + 4 * (X * U) + 4) in H7 by ring.
      lia. }
    assert (Hkey' : 0 <= 26 - h - k -> k0 * 2 ^ (26 - h - k) <= Z.pos m2).
    { intros Hj. apply (Z.mul_le_mono_pos_r _ _ (2 ^ k) HP).
      replace (k0 * 2 ^ (26 - h - k) * 2 ^ k) with (k0 * U); [exact Hkey|].
      unfold U. rewrite <- Z.mul_assoc, <- Z.pow_add_r by lia. do 2 f_equal. lia. }
    destruct (h - 26 + k) as [|ep|ep] eqn:HE.
    + injection Hkk as <-. specialize (Hkey' ltac:(lia)).
      replace (26 - h - k) with 0 in Hkey' by lia. change (2 ^ 0) with 1 in Hkey'. lia.
    + injection Hkk as <-.
      assert (Hk' : k = 1 /\ h = 26) by lia. destruct Hk' as [Hk' Hh26].
      unfold U in Hkey. rewrite Hh26 in Hkey. change (2 ^ (26 - 26)) with 1 in Hkey.
      replace (Z.pos ep) with k by lia. fold V. lia.
    + injection Hkk as <-. specialize (Hkey' ltac:(lia)).
      replace (- Z.neg ep) with (26 - h - k) by lia.
      assert (Hj : 0 < 2 ^ (26 - h - k)) by (apply Z.pow_pos_nonneg; lia).
      apply Z.div_le_lower_bound; lia.
Qed.

(** None of the four numbers between [2^53] and the prime [2^53 + 5]
    is prime. *)
Lemma big_prime_gap (a : Z) :
  2 ^ 53 < a < big_prime -> exists p, 2 <= p <= 5 /\ (p | a).
Proof.
  unfold big_prime. intros Ha.
  assert (H : a = 9007199254740993 \/ a = 9007199254740994 \/
              a = 9007199254740995 \/ a = 9007199254740996) by lia.
  destruct H as [->|[->|[->| ->]]].
  - exists 3. split; [lia|]. exists 3002399751580331. reflexivity.
  - exists 2. split; [lia|]. exists 4503599627370497. reflexivity.
  - exists 5. split; [lia|]. exists 1801439850948199. reflexivity.
  - exists 2. split; [lia|]. exists 4503599627370498. reflexivity.
Qed.

(** Below [(2^53 + 5)^2], trial division up to a bound of at least
    [2^53] decides primality: the least divisor of a composite is a
    prime whose square is at most the number. *)
Lemma trial_division_to_2_53 (n k : Z) :
  2 <= n < big_square -> 2 ^ 53 <= k < n ->
  (is_prime_loop n (range 2 (k + 1)) = true <-> prime n).
Proof.
  intros Hn Hk. rewrite is_prime_loop_spec. rewrite <- prime_alt.
  split.
  - intros Hloop. split; [lia|]. intros d Hd [c Hc].
    assert (Hcpos : 1 < c < n) by nia.
    (* the smaller of the two factors *)
    assert (Hsmall : exists a, 1 < a < big_prime /\ (a | n)).
    { destruct (Z.lt_ge_cases d big_prime) as [Hdlt|Hdge].
      - exists d. split; [lia|]. exists c. exact Hc.
      - exists c. split; [|exists d; rewrite Hc; ring].
        split; [lia|].
        destruct (Z.lt_ge_cases c big_prime) as [|Hcge]; [assumption|exfalso].
        assert (big_prime * big_prime <= c * d)
          by (apply Z.mul_le_mono_nonneg; unfold big_prime in *; lia).
        unfold big_square in Hn. lia. }
    destruct Hsmall as (a & Ha & Hdiv).
    destruct (Z.le_gt_cases a (2 ^ 53)) as [Hle|Hgt].
    + apply (Hloop a); [apply elem_of_range; lia|].
      apply Z.mod_divide; [lia | exact Hdiv].
    + destruct (big_prime_gap a ltac:(lia)) as (p & Hp & Hpa).
      apply (Hloop p); [apply elem_of_range; lia|].
      apply Z.mod_divide; [lia|]. apply Z.divide_trans with a; assumption.
  - intros [_ Hprime] i Hi Hmod. apply elem_of_range in Hi.
    apply (Hprime i); [lia|]. apply Z.mod_divide; [lia | exact Hmod].
Qed.

(** Where the loop decides primality, so does [is_prime]. *)
Lemma is_prime_correct_if_loop (n k : Z) :
  2 <= n -> sqrt_bound n = inr k ->
  (is_prime_loop n (range 2 (k + 1)) = true <-> prime n) ->
  (is_prime n = inr true <-> prime n) /\ (is_prime n = inr false <-> ~ prime n).
Proof.
  intros Hn Hk Hiff. rewrite (is_prime_eq n k Hn Hk).
  destruct (is_prime_loop n (range 2 (k + 1))).
  - split; [split; [intros _; apply Hiff; reflexivity | reflexivity]|].
    split; [discriminate|]. intros Hnp. exfalso. apply Hnp, Hiff. reflexivity.
  - split; [split; [discriminate|]|].
    + intros Hp. apply Hiff in Hp. discriminate Hp.
    + split; [|reflexivity]. intros _ Hp. apply Hiff in Hp. discriminate Hp.
Qed.



(** C10 (amended).  For every integer [n] below [(2^53 + 5)^2],
    [is_prime(n)] returns [True] if and only if [n] is prime, and [False]
    if and only if it is not; in particular it returns [False] for every
    [n < 2]. *)
Theorem is_prime_correct_below_big_square (n : Z) :
  n < big_square ->
  (is_prime n = inr true <-> prime n) /\
  (is_prime n = inr false <-> ~ prime n) /\
  (n < 2 -> is_prime n = inr false).
Proof.
  intros Hn. destruct (Z.lt_ge_cases n 2) as [Hsmall|Hbig].
  - rewrite (is_prime_below_2 n Hsmall).
    assert (Hnp : ~ prime n) by (intros [H1 _]; lia).
    split; [split; [discriminate | intros Hp; contradiction]|].
    split; [split; [intros _; exact Hnp | reflexivity] | reflexivity].
  - assert (Hres : (is_prime n = inr true <-> prime n) /\
                   (is_prime n = inr false <-> ~ prime n)).
    { destruct (Z.lt_ge_cases n (2 ^ 53)) as [H53|H53].
      - destruct (sqrt_bound_small n ltac:(lia)) as (k & Hk & Hbound).
        exact (is_prime_correct_if_sqrt_ok n k Hbig Hk Hbound).
      - destruct (sqrt_bound_mid n ltac:(lia)) as (k & Hk & Hlt & [Hroot|Htop]).
        + exact (is_prime_correct_if_sqrt_ok n k Hbig Hk ltac:(lia)).
        + apply (is_prime_correct_if_loop n k Hbig Hk).
          apply trial_division_to_2_53; lia. }
    destruct Hres as (Ht & Hf).
    split; [exact Ht|]. split; [exact Hf|]. intros Hlt. lia.
Qed.

Lemma is_prime_correct_below_big_square_witness :
  big_prime < big_square /\ is_prime big_prime = inr true.
Proof.
  assert (H : big_prime < big_square) by (unfold big_square, big_prime; lia).
  split; [exact H|].
  apply (is_prime_correct_below_big_square big_prime H). exact big_prime_is_prime.
Defined.



(** * Further properties of the code *)

(** ** The recursive helper [fibonacci] *)

Lemma fib_succ_succ (n : nat) : fib (S (S n)) = fib (S n) + fib n.
Proof.
  unfold fib. cbn [fib_pair]. destruct (fib_pair n) as [a b]. cbn [fst]. lia.
Qed.

Lemma fibonacci_base (d : nat) (n : Z) : n <= 1 -> fibonacci (S d) n = inr n.
Proof.
  intros Hn. cbn [fibonacci].
  replace (n <=? 1) with true by (symmetry; apply Z.leb_le; exact Hn). reflexivity.
Qed.

Lemma fibonacci_step (d : nat) (n : Z) :
  1 < n ->
  fibonacci (S d) n =
  rbind (fibonacci d (n - 1)) (fun a => rbind (fibonacci d (n - 2)) (fun b => inr (a + b))).
Proof.
  intros Hn. cbn [fibonacci].
  replace (n <=? 1) with false by (symmetry; apply Z.leb_gt; exact Hn). reflexivity.
Qed.

(** With at least [n] frames left, [fibonacci(n)] returns the [n]-th
    Fibonacci number; an argument of at most 1 (a negative one too) comes
    back unchanged. *)
Theorem fibonacci_computes_fib (d : nat) (n : Z) :
  (0 < d)%nat -> n <= Z.of_nat d ->
  fibonacci d n = inr (if n <=? 1 then n else fib (Z.to_nat n)).
Proof.
  revert n. induction d as [|d IH]; intros n Hd Hn; [lia|].
  destruct (Z.leb_spec n 1) as [Hle|Hgt].
  - apply fibonacci_base, Hle.
  - rewrite fibonacci_step by exact Hgt.
    assert (Hd' : (0 < d)%nat) by lia.
    rewrite (IH (n - 1)) by lia. rewrite (IH (n - 2)) by lia. cbn [rbind].
    f_equal.
    replace (Z.to_nat n) with (S (S (Z.to_nat (n - 2)))) by lia.
    rewrite fib_succ_succ.
    replace (S (Z.to_nat (n - 2))) with (Z.to_nat (n - 1)) by lia.
    destruct (Z.leb_spec (n - 1) 1) as [H1|H1]; destruct (Z.leb_spec (n - 2) 1) as [H2|H2]; try lia.
    + assert (n = 2) by lia. subst n. reflexivity.
    + assert (n = 3) by lia. subst n. reflexivity.
Qed.

Lemma fibonacci_computes_fib_witness :
  fibonacci recursion_limit 10 = inr 55 /\ fibonacci recursion_limit (-5) = inr (-5).
Proof.
  split.
  - apply (fibonacci_computes_fib recursion_limit 10); unfold recursion_limit; lia.
  - apply (fibonacci_computes_fib recursion_limit (-5)); unfold recursion_limit; lia.
Defined.

(** An argument above 1 that exceeds the frames left ends in
    [RecursionError]. *)
Theorem fibonacci_recursion_error (d : nat) (n : Z) :
  1 < n -> Z.of_nat d < n ->
  fibonacci d n = inl (Exn RecursionError "maximum recursion depth exceeded").
Proof.
  revert n. induction d as [|d IH]; intros n H1 Hd; [reflexivity|].
  rewrite fibonacci_step by exact H1.
  destruct d as [|d'].
  - reflexivity.
  - rewrite (IH (n - 1)) by lia. reflexivity.
Qed.

Lemma fibonacci_recursion_error_witness :
  fibonacci recursion_limit 1001 = inl (Exn RecursionError "maximum recursion depth exceeded").
Proof.
  apply (fibonacci_recursion_error recursion_limit 1001); unfold recursion_limit; lia.
Defined.

(** ** What each check depends on *)

Section CheckOutcomes.

Variable rt : runtime.

(** The suite of a self-contained check is the logging of its success. *)
Lemma self_contained_body (c : check) :
  self_contained c = true ->
  check_body rt c = log_test rt (check_name c) true (check_summary c).
Proof.
  destruct c; intros H; try discriminate H; cbn [check_body check_name check_summary].
  - apply test_basic_operations_body_eq.
  - apply test_algorithms_body_eq.
  - apply test_error_handling_body_eq.
Qed.

(** A self-contained check as a whole. *)
Lemma self_contained_check_run (c : check) (s : state) :
  self_contained c = true ->
  exists s',
    run_check rt c s = (inr tt, s') /\
    test_results s' = test_results s ++ [passed_entry rt c (clock s (ticks s))] /\
    files s' = files s /\
    start_time s' = start_time s /\ clock s' = clock s /\ os_fault s' = os_fault s.
Proof.
  intros Hc. rewrite run_check_guarded.
  destruct (guarded_spec rt (check_name c) (check_body rt c) s) as (s' & Hrun & Hcase).
  rewrite (self_contained_body c Hc) in Hcase.
  destruct (log_test_spec rt (check_name c) true (check_summary c) s)
    as (s1 & Hlog & Hres & Hst & Hfiles & Hck & Hos).
  rewrite Hlog in Hcase. subst s'.
  exists s1. split; [exact Hrun|]. auto 10.
Qed.

(** The suite of [test_file_operations], by the first call that the
    operating system refuses. *)
Lemma file_suite_run (s : state) :
  let fault := first_fault (os_fault s) file_calls in
  exists s1,
    test_file_operations_body rt s =
      (match fault with
       | None => inr tt
       | Some (_, (n, msg)) => inl (Exn (OSError n) msg)
       end, s1) /\
    files s1 = files_after_file_check (files s) fault /\
    test_results s1 =
      match fault with
      | None => test_results s ++ [passed_entry rt FileOperations (clock s (ticks s))]
      | Some _ => test_results s
      end /\
    (match fault with None => True | Some _ => ticks s1 = ticks s end) /\
    start_time s1 = start_time s /\ clock s1 = clock s /\ os_fault s1 = os_fault s.
Proof.
  unfold file_calls. cbn [first_fault]. unfold test_file_operations_body.
  rewrite bind_eq, open_w_eq.
  destruct (os_fault s (OpenW test_file)) as [[n1 m1]|] eqn:H1.
  { eexists. split; [reflexivity|]. cbn. auto 10. }
  rewrite bind_eq, file_write_eq. cbn [set_files os_fault files].
  destruct (os_fault s (WriteTo test_file)) as [[n2 m2]|] eqn:H2.
  { eexists. split; [reflexivity|]. cbn. auto 10. }
  rewrite bind_eq, open_r_eq. cbn [set_files os_fault files].
  rewrite !lookup_insert_eq. cbn [default String.append].
  destruct (os_fault s (OpenR test_file)) as [[n3 m3]|] eqn:H3.
  { eexists. split; [reflexivity|]. cbn.
    rewrite ?insert_insert_eq, ?lookup_insert_eq. cbn [default String.append]. auto 10. }
  rewrite ?lookup_insert_eq.
  rewrite bind_eq, file_read_eq. cbn [set_files os_fault files].
  destruct (os_fault s (ReadFrom test_file)) as [[n4 m4]|] eqn:H4.
  { eexists. split; [reflexivity|]. cbn.
    rewrite ?insert_insert_eq, ?lookup_insert_eq. cbn [default String.append]. auto 10. }
  rewrite ?lookup_insert_eq. cbn [default].
  rewrite bind_eq. unfold py_assert. rewrite String.eqb_refl. unfold ret.
  rewrite bind_eq, os_remove_eq. cbn [set_files os_fault files].
  destruct (os_fault s (Remove test_file)) as [[n5 m5]|] eqn:H5.
  { eexists. split; [reflexivity|]. cbn.
    rewrite ?insert_insert_eq, ?lookup_insert_eq. cbn [default String.append]. auto 10. }
  rewrite ?lookup_insert_eq.
  match goal with |- context [log_test rt ?a ?b ?c ?st] =>
    destruct (log_test_spec rt a b c st) as (s' & Hrun & Hres & Hst & Hf & Hc & Ho) end.
  exists s'. split; [exact Hrun|].
  rewrite Hres, Hst, Hf, Hc, Ho.
  cbn [test_results set_files start_time files clock ticks os_fault files_after_file_check].
  rewrite !delete_insert_eq. auto 10.
Qed.

(** [test_file_operations] as a whole. *)
Lemma file_check_run (s : state) :
  let fault := first_fault (os_fault s) file_calls in
  exists s',
    test_file_operations rt s = (inr tt, s') /\
    test_results s' =
      test_results s ++
      [match fault with
       | None => passed_entry rt FileOperations (clock s (ticks s))
       | Some (_, (_, msg)) => failed_entry rt FileOperations msg (clock s (ticks s))
       end] /\
    files s' = files_after_file_check (files s) fault /\
    start_time s' = start_time s /\ clock s' = clock s /\ os_fault s' = os_fault s.
Proof.
  intros fault.
  destruct (guarded_spec rt "File Operations" (test_file_operations_body rt) s) as (s' & Hrun & Hcase).
  destruct (file_suite_run s) as (s1 & Hbody & Hfiles & Hres & Hticks & Hst & Hck & Hos).
  fold fault in Hbody, Hfiles, Hres, Hticks.
  exists s'. split; [exact Hrun|].
  rewrite Hbody in Hcase.
  destruct fault as [[c [n msg]]|].
  - destruct Hcase as (Hres' & Hst' & Hf' & Hck' & Hos').
    rewrite Hres', Hst', Hf', Hck', Hos', Hres, Hck, Hticks. cbn [exn_str]. auto 10.
  - subst s'. auto 10.
Qed.

(** The file check passes exactly when the operating system refuses none
    of its five calls; when it refuses one, the entry is the failure whose
    details are the text of the first refusal. *)
Theorem file_check_result (s : state) :
  exists s',
    test_file_operations rt s = (inr tt, s') /\
    test_results s' =
      test_results s ++
      [match first_fault (os_fault s) file_calls with
       | None => passed_entry rt FileOperations (clock s (ticks s))
       | Some (_, (_, msg)) => failed_entry rt FileOperations msg (clock s (ticks s))
       end].
Proof.
  destruct (file_check_run s) as (s' & Hrun & Hres & _). exists s'. auto.
Qed.

(** No cleanup on failure.  In a working directory without an entry of
    the probe file's name: when the first call refused is the opening for
    writing, the directory is untouched; when it is the write, the probe
    file is left behind empty; when it is a later call, the probe file is
    left behind with the test content.  Without a refusal the directory
    is as it was. *)
Theorem file_check_leaves (s : state) :
  files s !! test_file = None ->
  files (snd (test_file_operations rt s)) =
  match first_fault (os_fault s) file_calls with
  | None | Some (OpenW _, _) => files s
  | Some (WriteTo _, _) => <[test_file := EmptyString]> (files s)
  | Some (_, _) => <[test_file := test_content]> (files s)
  end.
Proof.
  intros Hnone.
  destruct (file_check_run s) as (s' & Hrun & _ & Hfiles & _).
  rewrite Hrun. cbn [snd]. rewrite Hfiles. unfold files_after_file_check.
  destruct (first_fault (os_fault s) file_calls) as [[[p|p|p|p|p] f]|]; try reflexivity.
  apply delete_id. exact Hnone.
Qed.

(** [test_data_structures] as a whole. *)
Lemma data_check_run (s : state) :
  exists s' text,
    test_data_structures rt s = (inr tt, s') /\
    test_results s' =
      test_results s ++
      [if round_trips rt then passed_entry rt DataStructures (clock s (ticks s))
       else failed_entry rt DataStructures text (clock s (ticks s))] /\
    files s' = files s /\
    start_time s' = start_time s /\ clock s' = clock s /\ os_fault s' = os_fault s.
Proof.
  destruct (guarded_spec rt "Data Structures" (test_data_structures_body rt) s) as (s' & Hrun & Hcase).
  rewrite test_data_structures_body_cases in Hcase. unfold round_trips.
  exists s'.
  destruct (json_dumps rt data) as [e|text].
  { exists (exn_str e). split; [exact Hrun|]. destruct Hcase as (-> & -> & -> & -> & ->). auto 10. }
  destruct (json_loads rt text) as [e|v].
  { exists (exn_str e). split; [exact Hrun|]. destruct Hcase as (-> & -> & -> & -> & ->). auto 10. }
  destruct (py_eq v data).
  - exists EmptyString. split; [exact Hrun|].
    destruct (log_test_spec rt "Data Structures" true
                "Dictionaries, JSON, and sets working correctly" s)
      as (s1 & Hlog & Hres & Hst & Hf & Hck & Hos).
    rewrite Hlog in Hcase. subst s'. auto 10.
  - exists "JSON serialization/deserialization failed". split; [exact Hrun|].
    destruct Hcase as (-> & -> & -> & -> & ->). auto 10.
Qed.

End CheckOutcomes.

(** ** [main]: the five checks, the report file, the exit status *)

Section MainFacts.

Variable rt : runtime.

(** A check method in one statement: it returns, appends one entry named
    after the check whose [success] is [check_passes], and leaves the
    tester's start time, the clock and the operating system as they
    were. *)
Lemma run_check_outcome (c : check) (s : state) :
  exists r s',
    run_check rt c s = (inr tt, s') /\
    test_results s' = test_results s ++ [r] /\
    test r = check_name c /\
    success r = check_passes rt (os_fault s) c /\
    files s' = files_after c (os_fault s) (files s) /\
    start_time s' = start_time s /\ clock s' = clock s /\ os_fault s' = os_fault s.
Proof.
  destruct (self_contained c) eqn:Hsc.
  - destruct (self_contained_check_run rt c s Hsc)
      as (s' & Hrun & Hres & Hfiles & Hst & Hck & Hos).
    exists (passed_entry rt c (clock s (ticks s))), s'.
    split; [exact Hrun|]. split; [exact Hres|]. split; [reflexivity|].
    split; [destruct c; try discriminate Hsc; reflexivity|].
    split; [destruct c; try discriminate Hsc; exact Hfiles|]. auto.
  - destruct c; try discriminate Hsc.
    + destruct (file_check_run rt s) as (s' & Hrun & Hres & Hfiles & Hst & Hck & Hos).
      eexists. exists s'. split; [exact Hrun|]. split; [exact Hres|].
      cbn [check_passes files_after]. unfold no_refusal.
      destruct (first_fault (os_fault s) file_calls) as [[c [n msg]]|]; cbn; auto 10.
    + destruct (data_check_run rt s) as (s' & text & Hrun & Hres & Hfiles & Hst & Hck & Hos).
      eexists. exists s'. split; [exact Hrun|]. split; [exact Hres|].
      cbn [check_passes files_after].
      destruct (round_trips rt); cbn; auto 10.
Qed.

(** The statements of [main] before the checks: five lines on the
    console and a new tester. *)
Lemma main_prologue (k : M report) (s : state) :
  exists s0,
    (print [PStr "Starting Agent Capability Tests..."] ;;
     print [PStr "Python Version: "; PStr (sys_version rt)] ;;
     print [PStr "Platform: "; PStr (sys_platform rt)] ;;
     print [PStr "Working Directory: "; PStr (getcwd rt)] ;;
     print [PStr "--------------------------------------------------"] ;;
     AgentTester_init ;;
     k) s = k s0 /\
    test_results s0 = [] /\ files s0 = files s /\ os_fault s0 = os_fault s.
Proof.
  do 5 (rewrite bind_eq; unfold print at 1, modify at 1).
  rewrite bind_eq, AgentTester_init_eq.
  eexists. split; [reflexivity|]. cbn. auto.
Qed.

(** [main] up to the report: the five entries, the report made of them,
    and what is left of the working directory. *)
Lemma checks_and_report_run (s : state) :
  let faults := os_fault s in
  exists rep s1,
    checks_and_report rt s = (inr rep, s1) /\
    results rep = test_results s1 /\
    map test (test_results s1) = map check_name checks_in_order /\
    map success (test_results s1) = map (check_passes rt faults) checks_in_order /\
    total rep = 5 /\
    Float64.eqb (success_rate rep) float_100 =
      check_passes rt faults FileOperations && check_passes rt faults DataStructures /\
    files s1 = files_after_file_check (files s) (first_fault faults file_calls) /\
    os_fault s1 = faults.
Proof.
  intros faults. unfold checks_and_report.
  destruct (main_prologue
              (test_basic_operations rt ;; test_file_operations rt ;;
               test_data_structures rt ;; test_algorithms rt ;;
               test_error_handling rt ;; generate_report rt) s)
    as (s0 & -> & H0 & Hf0 & Ho0).
  change (test_basic_operations rt) with (run_check rt BasicOperations).
  change (test_file_operations rt) with (run_check rt FileOperations).
  change (test_data_structures rt) with (run_check rt DataStructures).
  change (test_algorithms rt) with (run_check rt Algorithms).
  change (test_error_handling rt) with (run_check rt ErrorHandling).
  rewrite bind_eq.
  destruct (run_check_outcome BasicOperations s0)
    as (r1 & s1 & -> & H1 & N1 & S1 & F1 & _ & _ & O1).
  rewrite bind_eq.
  destruct (run_check_outcome FileOperations s1)
    as (r2 & s2 & -> & H2 & N2 & S2 & F2 & _ & _ & O2).
  rewrite bind_eq.
  destruct (run_check_outcome DataStructures s2)
    as (r3 & s3 & -> & H3 & N3 & S3 & F3 & _ & _ & O3).
  rewrite bind_eq.
  destruct (run_check_outcome Algorithms s3)
    as (r4 & s4 & -> & H4 & N4 & S4 & F4 & _ & _ & O4).
  rewrite bind_eq.
  destruct (run_check_outcome ErrorHandling s4)
    as (r5 & s5 & -> & H5 & N5 & S5 & F5 & _ & _ & O5).
  assert (Hlist : test_results s5 = [r1; r2; r3; r4; r5]).
  { rewrite H5, H4, H3, H2, H1, H0. reflexivity. }
  assert (Hos : os_fault s5 = faults).
  { rewrite O5, O4, O3, O2, O1, Ho0. reflexivity. }
  rewrite O4, O3, O2, O1, Ho0 in S5. rewrite O3, O2, O1, Ho0 in S4.
  rewrite O2, O1, Ho0 in S3. rewrite O1, Ho0 in S2, F2. rewrite Ho0 in S1.
  fold faults in S1, S2, S3, S4, S5, F2.
  cbn [files_after] in F1, F2, F3, F4, F5.
  assert (Hfiles : files s5 = files_after_file_check (files s) (first_fault faults file_calls)).
  { rewrite F5, F4, F3, F2, F1, Hf0. reflexivity. }
  destruct (generate_report_cases rt s5) as (s6 & Hfr & Heq). cbv zeta in Heq.
  rewrite Hlist in Heq. cbn [length] in Heq. change (Z.of_nat 5) with 5 in Heq.
  set (p := Z.of_nat (length (List.filter success [r1; r2; r3; r4; r5]))) in *.
  assert (Hp : 0 <= p <= 5).
  { pose proof (filter_length_le success [r1; r2; r3; r4; r5]) as Hle.
    cbn [length] in Hle. unfold p. lia. }
  destruct (rate_100_iff p 5 Hp ltac:(lia)) as (q & Hq & Hiff).
  rewrite Hq in Heq.
  destruct Hfr as (Hres6 & _ & Hfiles6 & _ & Hos6).
  eexists. exists s6. split; [exact Heq|]. cbn [results total success_rate].
  rewrite Hres6, Hfiles6, Hos6, Hlist.
  split; [reflexivity|].
  split; [cbn [map checks_in_order]; rewrite N1, N2, N3, N4, N5; reflexivity|].
  split; [cbn [map checks_in_order]; rewrite S1, S2, S3, S4, S5; reflexivity|].
  split; [reflexivity|].
  split; [|split; [exact Hfiles | exact Hos]].
  assert (Hcount : p = 5 <-> success r2 && success r3 = true).
  { unfold p. cbn [List.filter]. rewrite S1, S4, S5. cbn [check_passes].
    destruct (success r2), (success r3); cbn [length andb]; split; intros H; try reflexivity;
      try discriminate H; lia. }
  rewrite <- S2, <- S3.
  destruct (Float64.eqb (Float64.mul q (Float64.of_int 100)) float_100);
    destruct (success r2 && success r3); try reflexivity.
  - exfalso. assert (H : p = 5) by (apply Hiff; reflexivity).
    apply Hcount in H. discriminate H.
  - exfalso. assert (H : p = 5) by (apply Hcount; reflexivity).
    apply Hiff in H. discriminate H.
Qed.

(** [save_report], the tail of [main], in one equation. *)
Lemma save_report_cases (rep : report) (s : state) :
  save_report rt rep s =
  match os_fault s (OpenW report_file) with
  | Some (n, msg) => (inl (Exn (OSError n) msg), s)
  | None =>
      match json_dumps rt (report_to_py rep) with
      | inl e => (inl e, set_files (insert report_file EmptyString) s)
      | inr text =>
          match os_fault s (WriteTo report_file) with
          | Some (n, msg) =>
              (inl (Exn (OSError n) msg), set_files (insert report_file EmptyString) s)
          | None =>
              (inr (Float64.eqb (success_rate rep) float_100),
               set_stdout (fun out => out ++ [[PStr newline; PStr "Test report saved to: agent_test_report.json"]])
                 (set_files (insert report_file text) s))
          end
      end
  end.
Proof.
  unfold save_report. rewrite bind_eq, open_w_eq.
  destruct (os_fault s (OpenW report_file)) as [[n m]|]; [reflexivity|].
  rewrite bind_eq. unfold lift at 1.
  destruct (json_dumps rt (report_to_py rep)) as [e|text]; [reflexivity|].
  rewrite bind_eq, file_write_eq. cbn [set_files os_fault].
  destruct (os_fault s (WriteTo report_file)) as [[n m]|]; [reflexivity|].
  rewrite bind_eq. unfold print, modify, ret. f_equal.
  unfold set_stdout, set_files.
  cbn [test_results start_time files stdout clock ticks os_fault].
  rewrite lookup_insert_eq. cbn [default String.append]. rewrite insert_insert_eq.
  reflexivity.
Qed.

(** When [main] returns, the report file holds the encoded report and
    nothing else, whatever it held before, and the value returned is the
    comparison of the report's rate with [100.0]. *)
Theorem main_saves_report (s : state) (b : bool) (final : state) :
  main rt s = (inr b, final) ->
  exists rep s1 text,
    checks_and_report rt s = (inr rep, s1) /\
    json_dumps rt (report_to_py rep) = inr text /\
    files final = <[report_file := text]> (files s1) /\
    b = Float64.eqb (success_rate rep) float_100.
Proof.
  rewrite main_split, bind_eq.
  destruct (checks_and_report_run s) as (rep & s1 & Hrun & _).
  rewrite Hrun, save_report_cases.
  destruct (os_fault s1 (OpenW report_file)) as [[n m]|]; [discriminate|].
  destruct (json_dumps rt (report_to_py rep)) as [e|text] eqn:Hdump; [discriminate|].
  destruct (os_fault s1 (WriteTo report_file)) as [[n m]|]; [discriminate|].
  intros H. injection H as <- <-.
  exists rep, s1, text. repeat split; [exact Hdump].
Qed.


End MainFacts.

(** ** [generate_report]: the console and a second call *)

(** The loop over the results prints one line for each failed entry, in
    the order of the entries, and nothing else. *)
Lemma print_failed_lines (l : list TestResult) (s : state) :
  exists s',
    print_failed l s = (inr tt, s') /\
    stdout s' = stdout s ++ map failed_line (List.filter (fun r => negb (success r)) l) /\
    same_tester s s' /\ ticks s' = ticks s.
Proof.
  revert s. induction l as [|r l IH]; intros s.
  - exists s. split; [reflexivity|]. cbn [List.filter map]. rewrite app_nil_r.
    unfold same_tester. auto 10.
  - cbn [print_failed List.filter]. rewrite bind_eq.
    destruct (negb (success r)).
    + unfold print, modify.
      destruct (IH (set_stdout (fun out => out ++ [failed_line r]) s))
        as (s' & Hrun & Hout & Hfr & Htk).
      exists s'. split; [exact Hrun|]. split; [|split; [exact Hfr | exact Htk]].
      rewrite Hout. cbn [set_stdout stdout map]. rewrite <- app_assoc. reflexivity.
    + unfold ret. destruct (IH s) as (s' & Hrun & Hout & Hfr & Htk).
      exists s'. auto.
Qed.

Lemma failed_count_pos (l : list TestResult) :
  (0 <? Z.of_nat (length l) - Z.of_nat (length (List.filter success l))) =
  match List.filter (fun r => negb (success r)) l with
  | [] => false
  | _ => true
  end.
Proof.
  pose proof (filter_partition_length success l) as Hpart.
  destruct (List.filter (fun r => negb (success r)) l) as [|r fl] eqn:Hfl.
  - cbn [length] in Hpart. apply Z.ltb_ge. lia.
  - cbn [length] in Hpart. apply Z.ltb_lt. lia.
Qed.

Section ReportConsole.

Variable rt : runtime.

(** What a call that returns has printed: the nine lines of the summary,
    with the figures of the returned report, and then the failed tests,
    each once, in recording order, under their heading; when nothing
    failed, no heading and no line. *)
Theorem generate_report_console (s : state) (rep : report) (s' : state) :
  generate_report rt s = (inr rep, s') ->
  stdout s' =
    stdout s ++ summary_lines rt rep (clock s (ticks s)) ++ failed_section (test_results s).
Proof.
  unfold generate_report, bind, datetime_now, get, print, modify, lift.
  cbn [set_ticks set_stdout test_results start_time files stdout clock ticks os_fault].
  rewrite !py_sum_ones.
  set (l := test_results s).
  set (p := Z.of_nat (length (List.filter success l))).
  set (t := Z.of_nat (length l)).
  destruct (int_truediv p t) as [e|q]; [discriminate|].
  unfold failed_section. fold l.
  pose proof (failed_count_pos l) as Hpos. fold p t in Hpos. rewrite Hpos. clear Hpos.
  destruct (List.filter (fun r => negb (success r)) l) as [|r0 fl] eqn:Hfl.
  - unfold ret. intros H. injection H as <- <-.
    cbn [stdout set_stdout set_ticks summary_lines total passed failed success_rate
         duration_seconds].
    rewrite app_nil_r, <- !app_assoc. reflexivity.
  - match goal with |- context [print_failed l ?st] =>
      destruct (print_failed_lines l st) as (s1 & Hrun & Hout & _) end.
    rewrite Hrun. unfold ret. intros H. injection H as <- <-.
    rewrite Hout, Hfl.
    cbn [stdout set_stdout set_ticks summary_lines total passed failed success_rate
         duration_seconds].
    rewrite <- !app_assoc. reflexivity.
Qed.

(** A second call right after a first one that returned gives the same
    report again, but for the duration. *)
Theorem generate_report_again (s : state) (rep : report) (s' : state) :
  generate_report rt s = (inr rep, s') ->
  exists rep' s'',
    generate_report rt s' = (inr rep', s'') /\
    total rep' = total rep /\ passed rep' = passed rep /\ failed rep' = failed rep /\
    success_rate rep' = success_rate rep /\ results rep' = results rep.
Proof.
  intros Hrun.
  destruct (generate_report_cases rt s) as (s1 & Hfr & Heq).
  rewrite Heq in Hrun. cbv zeta in Hrun.
  destruct (generate_report_cases rt s') as (s2 & _ & Heq'). cbv zeta in Heq'.
  assert (Hres : test_results s' = test_results s).
  { destruct (int_truediv _ _); [discriminate|]. injection Hrun as _ <-. apply Hfr. }
  rewrite Hres in Heq'.
  destruct (int_truediv _ _) as [e|q]; [discriminate|].
  injection Hrun as <- _.
  eexists. exists s2. split; [exact Heq'|]. cbn. auto.
Qed.

End ReportConsole.

Lemma generate_report_console_witness :
  stdout (snd (generate_report example_runtime two_of_three)) =
    [[PStr newline; PStr "=================================================="];
     [PStr "AGENT TEST REPORT"];
     [PStr "=================================================="];
     [PStr "Total Tests: "; PInt 3];
     [PStr "Passed: "; PInt 2];
     [PStr "Failed: "; PInt 1];
     [PStr "Success Rate: "; PFixed 1 (S754_finite false 4691249611844266 (-46)); PStr "%"];
     [PStr "Duration: "; PFixed 2 (S754_zero false); PStr " seconds"];
     [PStr "Timestamp: "; PStr "0"];
     [PStr newline; PStr "Failed Tests:"];
     [PStr "  - "; PStr "Test 3"; PStr ": "; PStr "Error message"]].
Proof.
  apply (generate_report_console example_runtime two_of_three
           {| total := 3; passed := 2; failed := 1;
              success_rate := S754_finite false 4691249611844266 (-46);
              duration_seconds := S754_zero false;
              results := [passing "Test 1"; passing "Test 2"; failing "Test 3" "Error message"] |}
           (snd (generate_report example_runtime two_of_three))).
  vm_compute. reflexivity.
Defined.

Lemma generate_report_again_witness :
  exists rep' s'',
    generate_report example_runtime (snd (generate_report example_runtime two_of_three)) =
      (inr rep', s'') /\
    total rep' = 3 /\ passed rep' = 2 /\ failed rep' = 1 /\
    success_rate rep' = S754_finite false 4691249611844266 (-46) /\
    results rep' = [passing "Test 1"; passing "Test 2"; failing "Test 3" "Error message"].
Proof.
  apply (generate_report_again example_runtime two_of_three
           {| total := 3; passed := 2; failed := 1;
              success_rate := S754_finite false 4691249611844266 (-46);
              duration_seconds := S754_zero false;
              results := [passing "Test 1"; passing "Test 2"; failing "Test 3" "Error message"] |}
           (snd (generate_report example_runtime two_of_three))).
  vm_compute. reflexivity.
Defined.

(** ** The runner under any start of the interpreter *)

Lemma bind_ext {A B} (m1 m2 : M A) (k1 k2 : A -> M B) s :
  m1 s = m2 s -> (forall a s', k1 a s' = k2 a s') -> bind m1 k1 s = bind m2 k2 s.
Proof.
  intros Hm Hk. unfold bind. rewrite Hm.
  destruct (m2 s) as [[e|a] s']; [reflexivity | apply Hk].
Qed.

Lemma try_except_ext {A} catches (b1 b2 : M A) (h1 h2 : exn -> M A) s :
  b1 s = b2 s -> (forall e s', h1 e s' = h2 e s') ->
  try_except catches b1 h1 s = try_except catches b2 h2 s.
Proof.
  intros Hb Hh. unfold try_except. rewrite Hb.
  destruct (b2 s) as [[e|a] s']; [|reflexivity].
  destruct (catches (exn_cls e)); [apply Hh | reflexivity].
Qed.

Lemma state_eq (s1 s2 : state) :
  test_results s1 = test_results s2 -> start_time s1 = start_time s2 ->
  files s1 = files s2 -> stdout s1 = stdout s2 -> clock s1 = clock s2 ->
  ticks s1 = ticks s2 -> os_fault s1 = os_fault s2 -> s1 = s2.
Proof.
  destruct s1, s2. cbn. intros -> -> -> -> -> -> ->. reflexivity.
Qed.

Ltac files_eq :=
  cbn [set_files files files_after_file_check];
  rewrite ?lookup_insert_eq; cbn [default String.append];
  rewrite ?insert_insert_eq, ?delete_insert_eq; reflexivity.

Lemma py_eq_data : py_eq data data = true.
Proof. vm_compute. reflexivity. Qed.

Section StartedFacts.

Variable rt : runtime.
Variable ip : interp.

Lemma started_run_check_guarded c :
  Started.run_check rt ip c =
  try_except Exception (Started.check_body rt ip c)
    (fun e => Started.log_test rt ip (check_name c) false (exn_str e)).
Proof. destruct c; reflexivity. Qed.

(** [log_test] appends its entry whatever the console does; when the
    console refuses the status line, the exception of [print] leaves the
    method after the entry was appended. *)
Lemma started_log_test_entry name ok text s :
  exists r s',
    Started.log_test rt ip name ok text s = (r, s') /\
    test_results s' =
      test_results s ++ [{| test := name; success := ok; details := text;
                            timestamp := isoformat rt (clock s (ticks s)) |}] /\
    start_time s' = start_time s /\ files s' = files s /\
    clock s' = clock s /\ os_fault s' = os_fault s /\ ticks s' = S (ticks s) /\
    match refuses ip (stdout s) (status_line ok name) with
    | Some e => r = inl e /\ stdout s' = stdout s
    | None => True
    end.
Proof.
  unfold Started.log_test, status_line. rewrite bind_eq. unfold datetime_now at 1.
  rewrite bind_eq. unfold modify at 1. rewrite bind_eq. unfold Started.print at 1.
  cbn [stdout set_test_results set_ticks].
  destruct (refuses ip (stdout s) [PStr (if ok then "PASS" else "FAIL"); PStr ": "; PStr name])
    as [e|].
  - eexists. eexists. split; [reflexivity|]. cbn. auto 10.
  - destruct (String.eqb text EmptyString).
    + eexists. eexists. split; [reflexivity|]. cbn. auto 10.
    + unfold Started.print.
      cbn [stdout set_test_results set_ticks set_stdout].
      match goal with |- context [refuses ip ?o ?l] => destruct (refuses ip o l) as [e|] end;
        eexists; eexists; (split; [reflexivity|]); cbn; auto 10.
Qed.

(** *** The suites, whatever the console does *)

Lemma started_basic_body :
  Started.test_basic_operations_body rt ip =
  Started.log_test rt ip "Basic Operations" true "Math, strings, and lists working correctly".
Proof.
  unfold Started.test_basic_operations_body, Started.py_assert.
  destruct (optimize ip); reflexivity.
Qed.

Lemma started_algorithms_body :
  Started.test_algorithms_body rt ip =
  Started.log_test rt ip "Algorithms" true "Fibonacci, sorting, and prime checking working".
Proof.
  unfold Started.test_algorithms_body, Started.py_assert.
  rewrite fibonacci_10, is_prime_17, is_prime_18. cbv zeta. rewrite sorted_example.
  destruct (optimize ip); reflexivity.
Qed.

Lemma started_error_handling_body :
  Started.test_error_handling_body rt ip =
  Started.log_test rt ip "Error Handling" true "All expected errors caught correctly".
Proof. reflexivity. Qed.

Lemma started_self_contained_body (c : check) :
  self_contained c = true ->
  Started.check_body rt ip c = Started.log_test rt ip (check_name c) true (check_summary c).
Proof.
  destruct c; intros H; try discriminate H; cbn [Started.check_body check_name check_summary].
  - apply started_basic_body.
  - apply started_algorithms_body.
  - apply started_error_handling_body.
Qed.

(** An assertion that holds, compiled or not. *)
Lemma started_assert_true msg s : Started.py_assert ip (ret true) msg s = (inr tt, s).
Proof. unfold Started.py_assert. destruct (optimize ip); reflexivity. Qed.

(** The suite of the data check. *)
Lemma started_data_body s :
  Started.test_data_structures_body rt ip s =
  match json_dumps rt data with
  | inl e => (inl e, s)
  | inr text =>
      match json_loads rt text with
      | inl e => (inl e, s)
      | inr v =>
          if optimize ip || py_eq v data
          then Started.log_test rt ip "Data Structures" true
                 "Dictionaries, JSON, and sets working correctly" s
          else (inl (Exn AssertionError "JSON serialization/deserialization failed"), s)
      end
  end.
Proof.
  unfold Started.test_data_structures_body. rewrite bind_eq. unfold lift at 1.
  destruct (json_dumps rt data) as [e|text]; [reflexivity|].
  rewrite bind_eq. unfold lift at 1.
  destruct (json_loads rt text) as [e|v]; [reflexivity|].
  cbv zeta. rewrite set_intersection_example.
  rewrite bind_eq. unfold Started.py_assert at 1.
  destruct (optimize ip) eqn:Ho; cbn [orb].
  - unfold ret at 1. rewrite bind_eq, started_assert_true. reflexivity.
  - rewrite bind_eq. unfold ret at 1.
    destruct (py_eq v data); [|reflexivity].
    unfold ret at 1. rewrite bind_eq, started_assert_true. reflexivity.
Qed.

(** The suite of the file check, by the first call that the operating
    system refuses. *)
Lemma started_file_body s :
  let fault := first_fault (os_fault s) file_calls in
  let s1 := set_files (fun fs => files_after_file_check fs fault) s in
  Started.test_file_operations_body rt ip s =
  match fault with
  | None =>
      Started.log_test rt ip "File Operations" true "File write/read/delete successful" s1
  | Some (_, (n, msg)) => (inl (Exn (OSError n) msg), s1)
  end.
Proof.
  unfold file_calls. cbn [first_fault]. cbv zeta.
  unfold Started.test_file_operations_body.
  rewrite bind_eq, open_w_eq.
  destruct (os_fault s (OpenW test_file)) as [[n1 m1]|] eqn:H1.
  { f_equal; try (apply state_eq; reflexivity). }
  rewrite bind_eq, file_write_eq. cbn [set_files os_fault files].
  destruct (os_fault s (WriteTo test_file)) as [[n2 m2]|] eqn:H2.
  { f_equal; try (apply state_eq; reflexivity). }
  rewrite bind_eq, open_r_eq. cbn [set_files os_fault files].
  rewrite !lookup_insert_eq. cbn [default String.append].
  destruct (os_fault s (OpenR test_file)) as [[n3 m3]|] eqn:H3.
  { f_equal; try (apply state_eq; try reflexivity; files_eq). }
  rewrite bind_eq, file_read_eq. cbn [set_files os_fault files].
  destruct (os_fault s (ReadFrom test_file)) as [[n4 m4]|] eqn:H4.
  { f_equal; try (apply state_eq; try reflexivity; files_eq). }
  rewrite ?lookup_insert_eq. cbn [default].
  rewrite bind_eq. rewrite String.eqb_refl, started_assert_true.
  rewrite bind_eq, os_remove_eq. cbn [set_files os_fault files].
  destruct (os_fault s (Remove test_file)) as [[n5 m5]|] eqn:H5.
  { f_equal; try (apply state_eq; try reflexivity; files_eq). }
  rewrite ?lookup_insert_eq.
  f_equal; try (apply state_eq; try reflexivity; files_eq).
Qed.

(** The suite of a check: it reaches its last statement, the logging of
    the success, exactly when [check_passes] says so, and has touched
    neither the results nor the console before. *)
Lemma started_suite_cases (c : check) (s : state) :
  exists s1,
    test_results s1 = test_results s /\ start_time s1 = start_time s /\
    clock s1 = clock s /\ ticks s1 = ticks s /\ stdout s1 = stdout s /\
    os_fault s1 = os_fault s /\
    files s1 = files_after c (os_fault s) (files s) /\
    if Started.check_passes rt ip (os_fault s) c
    then Started.check_body rt ip c s =
         Started.log_test rt ip (check_name c) true (check_summary c) s1
    else exists e, Started.check_body rt ip c s = (inl e, s1).
Proof.
  destruct (self_contained c) eqn:Hsc.
  - exists s. rewrite (started_self_contained_body c Hsc).
    destruct c; try discriminate Hsc; cbn [Started.check_passes files_after]; auto 10.
  - destruct c; try discriminate Hsc;
      cbn [Started.check_passes Started.check_body files_after check_name check_summary].
    + pose proof (started_file_body s) as Hbody. cbv zeta in Hbody. rewrite Hbody.
      unfold no_refusal.
      exists (set_files (fun fs => files_after_file_check fs
                                     (first_fault (os_fault s) file_calls)) s).
      repeat (split; [reflexivity|]).
      destruct (first_fault (os_fault s) file_calls) as [[c [n msg]]|]; [|reflexivity].
      eexists. reflexivity.
    + exists s. repeat (split; [reflexivity|]).
      rewrite started_data_body. unfold Started.data_check_passes.
      destruct (json_dumps rt data) as [e|text]; [eauto|].
      destruct (json_loads rt text) as [e|v]; [eauto|].
      destruct (optimize ip || py_eq v data); [reflexivity | eauto].
Qed.

(** A check whose suite reaches the logging of the success, on a console
    that refuses the line of the success: the exception of [print] is
    caught by the handler of the check, which logs it as a failure of the
    check, beside the success already recorded; and when the console
    refuses the line of the failure as well, that exception leaves the
    method. *)
Lemma started_check_refused (c : check) (s : state) (e1 : exn) :
  Started.check_passes rt ip (os_fault s) c = true ->
  refuses ip (stdout s) (status_line true (check_name c)) = Some e1 ->
  exists r s',
    Started.run_check rt ip c s = (r, s') /\
    test_results s' =
      test_results s ++ [passed_entry rt c (clock s (ticks s));
                         failed_entry rt c (exn_str e1) (clock s (S (ticks s)))] /\
    match refuses ip (stdout s) (status_line false (check_name c)) with
    | Some e2 => r = inl e2
    | None => True
    end.
Proof.
  intros Hpass Hrefused. rewrite started_run_check_guarded. unfold try_except.
  destruct (started_suite_cases c s) as (s1 & Hres1 & _ & Hck1 & Htk1 & Hout1 & _ & _ & Hbody).
  rewrite Hpass in Hbody. rewrite Hbody.
  destruct (started_log_test_entry (check_name c) true (check_summary c) s1)
    as (r2 & s2 & Hlog2 & Hres2 & _ & _ & Hck2 & _ & Htk2 & Hcase2).
  rewrite Hout1, Hrefused in Hcase2. destruct Hcase2 as (-> & Hout2).
  rewrite Hlog2. cbn [Exception].
  destruct (started_log_test_entry (check_name c) false (exn_str e1) s2)
    as (r3 & s3 & Hlog3 & Hres3 & _ & _ & _ & _ & _ & Hcase3).
  rewrite Hlog3. exists r3, s3. split; [reflexivity|]. split.
  - rewrite Hres3, Hres2, Hres1, Hck2, Hck1, Htk2, Htk1, <- app_assoc. reflexivity.
  - rewrite Hout2 in Hcase3.
    destruct (refuses ip (stdout s) (status_line false (check_name c))); [|exact I].
    destruct Hcase3 as (-> & _). reflexivity.
Qed.

(** Whatever the console does, a check only appends to the results: one
    entry, or two when the line of its success was refused. *)
Lemma started_run_check_grows (c : check) (s : state) :
  let s' := snd (Started.run_check rt ip c s) in
  start_time s' = start_time s /\
  exists r l, test_results s' = test_results s ++ r :: l.
Proof.
  cbv zeta. rewrite started_run_check_guarded. unfold try_except.
  destruct (started_suite_cases c s) as (s1 & Hres1 & Hst1 & _ & _ & _ & _ & _ & Hbody).
  destruct (Started.check_passes rt ip (os_fault s) c).
  - rewrite Hbody.
    destruct (started_log_test_entry (check_name c) true (check_summary c) s1)
      as (r2 & s2 & Hlog2 & Hres2 & Hst2 & _).
    rewrite Hlog2. destruct r2 as [e|[]]; cbn [Exception snd].
    + destruct (started_log_test_entry (check_name c) false (exn_str e) s2)
        as (r3 & s3 & Hlog3 & Hres3 & Hst3 & _).
      rewrite Hlog3. cbn [snd]. split; [congruence|].
      rewrite Hres3, Hres2, Hres1, <- app_assoc. eauto.
    + split; [congruence|]. rewrite Hres2, Hres1. eauto.
  - destruct Hbody as (e & Hbody). rewrite Hbody. cbn [Exception].
    destruct (started_log_test_entry (check_name c) false (exn_str e) s1)
      as (r3 & s3 & Hlog3 & Hres3 & Hst3 & _).
    rewrite Hlog3. cbn [snd]. split; [congruence|]. rewrite Hres3, Hres1. eauto.
Qed.

(** *** [generate_report] only reads, whatever the console does *)

Lemma same_tester_refl s : same_tester s s.
Proof. unfold same_tester. auto. Qed.

Lemma same_tester_trans s1 s2 s3 : same_tester s1 s2 -> same_tester s2 s3 -> same_tester s1 s3.
Proof. unfold same_tester. intros (-> & -> & -> & -> & ->) (-> & -> & -> & -> & ->). auto. Qed.

Lemma reads_only_bind {A B} (m : M A) (k : A -> M B) :
  reads_only m -> (forall a, reads_only (k a)) -> reads_only (bind m k).
Proof.
  intros Hm Hk s. unfold bind. specialize (Hm s).
  destruct (m s) as [[e|a] s1]; cbn [snd] in *; [exact Hm|].
  apply same_tester_trans with s1; [exact Hm | apply Hk].
Qed.

Lemma reads_only_ret {A} (a : A) : reads_only (ret a).
Proof. intros s. apply same_tester_refl. Qed.

Lemma reads_only_lift {A} (r : result A) : reads_only (lift r).
Proof. intros s. apply same_tester_refl. Qed.

Lemma reads_only_get : reads_only get.
Proof. intros s. apply same_tester_refl. Qed.

Lemma reads_only_now : reads_only datetime_now.
Proof. intros s. unfold same_tester. cbn. auto. Qed.

Lemma reads_only_print line : reads_only (Started.print ip line).
Proof.
  intros s. unfold Started.print.
  destruct (refuses ip (stdout s) line); unfold same_tester; cbn; auto.
Qed.

Lemma reads_only_print_failed l : reads_only (Started.print_failed ip l).
Proof.
  induction l as [|r l IH]; cbn [Started.print_failed].
  - apply reads_only_ret.
  - apply reads_only_bind; [|intros _; exact IH].
    destruct (negb (success r)); [apply reads_only_print | apply reads_only_ret].
Qed.

Lemma reads_only_generate_report : reads_only (Started.generate_report rt ip).
Proof.
  unfold Started.generate_report.
  apply reads_only_bind; [apply reads_only_now | intros end_time].
  apply reads_only_bind; [apply reads_only_get | intros s0].
  cbv zeta.
  repeat (apply reads_only_bind; [apply reads_only_print | intros _]).
  apply reads_only_bind; [apply reads_only_lift | intros ratio].
  repeat (apply reads_only_bind; [apply reads_only_print | intros _]).
  apply reads_only_bind.
  - destruct (0 <? _); [|apply reads_only_ret].
    apply reads_only_bind; [apply reads_only_print | intros _].
    apply reads_only_print_failed.
  - intros _. apply reads_only_bind; [apply reads_only_lift | intros ratio'].
    apply reads_only_ret.
Qed.

End StartedFacts.

(** *** On a console that takes every line *)

Section Accepted.

Variable rt : runtime.
Variable ip : interp.
Hypothesis Haccepts : accepts ip.

Lemma started_print_accepted line s : Started.print ip line s = print line s.
Proof. unfold Started.print. rewrite Haccepts. reflexivity. Qed.

Lemma started_log_test_accepted name ok text s :
  Started.log_test rt ip name ok text s = log_test (unasserted rt ip) name ok text s.
Proof.
  unfold Started.log_test, log_test.
  apply bind_ext; [reflexivity | intros t s1].
  apply bind_ext; [reflexivity | intros _ s2].
  apply bind_ext; [apply started_print_accepted | intros _ s3].
  destruct (String.eqb text EmptyString); [reflexivity | apply started_print_accepted].
Qed.

Lemma round_trips_unasserted :
  round_trips (unasserted rt ip) = Started.data_check_passes rt ip.
Proof.
  unfold round_trips, Started.data_check_passes. cbn [json_dumps json_loads unasserted].
  destruct (json_dumps rt data) as [e|text]; [reflexivity|].
  destruct (optimize ip); cbn [orb]; [|reflexivity].
  destruct (json_loads rt text) as [e|v]; [reflexivity|]. exact py_eq_data.
Qed.

Lemma check_passes_unasserted faults c :
  check_passes (unasserted rt ip) faults c = Started.check_passes rt ip faults c.
Proof. destruct c; try reflexivity. exact round_trips_unasserted. Qed.

(** With every line taken, a check is the check of Section [Runner], but
    for the assertion on the decoded dict, which [-O] leaves out. *)
Lemma started_check_body_accepted c s :
  Started.check_body rt ip c s = check_body (unasserted rt ip) c s.
Proof.
  destruct c; cbn [Started.check_body check_body].
  - rewrite started_basic_body, test_basic_operations_body_eq.
    apply started_log_test_accepted.
  - pose proof (started_file_body rt ip s) as H1.
    pose proof (started_file_body (unasserted rt ip) plain s) as H2.
    cbv zeta in H1, H2. rewrite H1.
    change (test_file_operations_body (unasserted rt ip) s)
      with (Started.test_file_operations_body (unasserted rt ip) plain s).
    rewrite H2.
    destruct (first_fault (os_fault s) file_calls) as [[c [n msg]]|]; [reflexivity|].
    apply started_log_test_accepted.
  - rewrite started_data_body, test_data_structures_body_cases.
    cbn [json_dumps json_loads unasserted].
    destruct (json_dumps rt data) as [e|text]; [reflexivity|].
    destruct (optimize ip); cbn [orb].
    + destruct (json_loads rt text) as [e|v]; [reflexivity|].
      rewrite py_eq_data. apply started_log_test_accepted.
    + destruct (json_loads rt text) as [e|v]; [reflexivity|].
      destruct (py_eq v data); [apply started_log_test_accepted | reflexivity].
  - rewrite started_algorithms_body, test_algorithms_body_eq.
    apply started_log_test_accepted.
  - rewrite started_error_handling_body, test_error_handling_body_eq.
    apply started_log_test_accepted.
Qed.

Lemma started_run_check_accepted c s :
  Started.run_check rt ip c s = run_check (unasserted rt ip) c s.
Proof.
  rewrite started_run_check_guarded, run_check_guarded.
  apply try_except_ext; [apply started_check_body_accepted|].
  intros e s'. apply started_log_test_accepted.
Qed.

Lemma started_print_failed_accepted l s :
  Started.print_failed ip l s = print_failed l s.
Proof.
  revert s. induction l as [|r l IH]; intros s; [reflexivity|].
  cbn [Started.print_failed print_failed].
  apply bind_ext; [|intros _ s'; apply IH].
  destruct (negb (success r)); [apply started_print_accepted | reflexivity].
Qed.

Lemma started_generate_report_accepted s :
  Started.generate_report rt ip s = generate_report (unasserted rt ip) s.
Proof.
  unfold Started.generate_report, generate_report.
  apply bind_ext; [reflexivity | intros end_time s1].
  apply bind_ext; [reflexivity | intros s0 s2]. cbv zeta.
  repeat (apply bind_ext; [apply started_print_accepted | intros _ ?]).
  apply bind_ext; [reflexivity | intros ratio ?].
  repeat (apply bind_ext; [apply started_print_accepted | intros _ ?]).
  apply bind_ext; [|reflexivity].
  destruct (0 <? _); [|reflexivity].
  apply bind_ext; [apply started_print_accepted | intros _ ?].
  apply started_print_failed_accepted.
Qed.

Lemma started_save_report_accepted rep s :
  Started.save_report rt ip rep s = save_report (unasserted rt ip) rep s.
Proof.
  unfold Started.save_report, save_report.
  apply bind_ext; [reflexivity | intros _ ?].
  apply bind_ext; [reflexivity | intros text ?].
  apply bind_ext; [reflexivity | intros _ ?].
  apply bind_ext; [apply started_print_accepted | reflexivity].
Qed.

Lemma started_checks_and_report_accepted s :
  Started.checks_and_report rt ip s = checks_and_report (unasserted rt ip) s.
Proof.
  unfold Started.checks_and_report, checks_and_report.
  do 5 (apply bind_ext; [apply started_print_accepted | intros _ ?]).
  apply bind_ext; [reflexivity | intros _ ?].
  apply bind_ext; [apply (started_run_check_accepted BasicOperations) | intros _ ?].
  apply bind_ext; [apply (started_run_check_accepted FileOperations) | intros _ ?].
  apply bind_ext; [apply (started_run_check_accepted DataStructures) | intros _ ?].
  apply bind_ext; [apply (started_run_check_accepted Algorithms) | intros _ ?].
  apply bind_ext; [apply (started_run_check_accepted ErrorHandling) | intros _ ?].
  apply started_generate_report_accepted.
Qed.

Lemma started_main_split s :
  Started.main rt ip s = bind (Started.checks_and_report rt ip) (Started.save_report rt ip) s.
Proof.
  unfold Started.main, Started.checks_and_report. symmetry.
  repeat (rewrite bind_assoc_pt; apply bind_congr; intros ? ?).
  reflexivity.
Qed.

Lemma started_main_accepted s : Started.main rt ip s = main (unasserted rt ip) s.
Proof.
  rewrite started_main_split, main_split.
  apply bind_ext; [apply started_checks_and_report_accepted|].
  intros rep s'. apply started_save_report_accepted.
Qed.

Lemma started_exit_status_accepted s :
  Started.exit_status rt ip s = exit_status (unasserted rt ip) s.
Proof. unfold Started.exit_status, exit_status. rewrite started_main_accepted. reflexivity. Qed.

(** A check in one statement. *)
Lemma started_run_check_outcome (c : check) (s : state) :
  exists r s',
    Started.run_check rt ip c s = (inr tt, s') /\
    test_results s' = test_results s ++ [r] /\
    test r = check_name c /\
    success r = Started.check_passes rt ip (os_fault s) c /\
    files s' = files_after c (os_fault s) (files s) /\
    start_time s' = start_time s /\ clock s' = clock s /\ os_fault s' = os_fault s.
Proof.
  rewrite started_run_check_accepted, <- check_passes_unasserted.
  apply run_check_outcome.
Qed.

End Accepted.

Lemma accepts_plain : accepts plain.
Proof. intros out line. reflexivity. Qed.

Lemma accepts_optimized : accepts optimized.
Proof. intros out line. reflexivity. Qed.

(** *** The runner of Section [Runner] is the runner started the plain way *)

Section Plain.

Variable rt : runtime.

Lemma log_test_unasserted_plain name ok text :
  log_test (unasserted rt plain) name ok text = log_test rt name ok text.
Proof. reflexivity. Qed.

Lemma run_check_unasserted_plain c s :
  run_check (unasserted rt plain) c s = run_check rt c s.
Proof.
  rewrite !run_check_guarded.
  apply try_except_ext; [|intros e s'; rewrite log_test_unasserted_plain; reflexivity].
  destruct c; cbn [check_body].
  - rewrite !test_basic_operations_body_eq, log_test_unasserted_plain. reflexivity.
  - unfold test_file_operations_body.
    do 6 (apply bind_ext; [reflexivity | intros ? ?]).
    rewrite log_test_unasserted_plain. reflexivity.
  - rewrite !test_data_structures_body_cases. cbn [json_dumps json_loads unasserted optimize plain].
    destruct (json_dumps rt data) as [e|text]; [reflexivity|].
    destruct (json_loads rt text) as [e|v]; [reflexivity|].
    destruct (py_eq v data); reflexivity.
  - rewrite !test_algorithms_body_eq, log_test_unasserted_plain. reflexivity.
  - rewrite !test_error_handling_body_eq, log_test_unasserted_plain. reflexivity.
Qed.

Lemma generate_report_unasserted_plain s :
  generate_report (unasserted rt plain) s = generate_report rt s.
Proof.
  unfold generate_report.
  repeat (apply bind_ext; [reflexivity | intros ? ?]). reflexivity.
Qed.

Lemma started_plain_log_test name ok text s :
  Started.log_test rt plain name ok text s = log_test rt name ok text s.
Proof.
  rewrite (started_log_test_accepted rt plain accepts_plain).
  rewrite log_test_unasserted_plain. reflexivity.
Qed.

Lemma started_plain_run_check c s : Started.run_check rt plain c s = run_check rt c s.
Proof.
  rewrite (started_run_check_accepted rt plain accepts_plain).
  apply run_check_unasserted_plain.
Qed.

Lemma started_plain_generate_report s :
  Started.generate_report rt plain s = generate_report rt s.
Proof.
  rewrite (started_generate_report_accepted rt plain accepts_plain).
  apply generate_report_unasserted_plain.
Qed.

Lemma started_plain_main s : Started.main rt plain s = main rt s.
Proof.
  rewrite (started_main_accepted rt plain accepts_plain).
  unfold main.
  do 5 (apply bind_ext; [reflexivity | intros _ ?]).
  apply bind_ext; [reflexivity | intros _ ?].
  apply bind_ext; [apply (run_check_unasserted_plain BasicOperations) | intros _ ?].
  apply bind_ext; [apply (run_check_unasserted_plain FileOperations) | intros _ ?].
  apply bind_ext; [apply (run_check_unasserted_plain DataStructures) | intros _ ?].
  apply bind_ext; [apply (run_check_unasserted_plain Algorithms) | intros _ ?].
  apply bind_ext; [apply (run_check_unasserted_plain ErrorHandling) | intros _ ?].
  apply bind_ext; [apply generate_report_unasserted_plain | intros rep ?].
  reflexivity.
Qed.

End Plain.

(** ** The checks and the console *)

(** C2 (the failing input).  [log_test] appends its entry before it
    prints the status line, and every check calls it inside its [try]
    suite and again in its handler.  On a console that refuses the line
    of the success, one invocation of a check whose suite got as far as
    logging the success leaves two entries behind, the success and a
    failure whose details are the text of the exception of [print]. *)
Theorem check_logs_twice (rt : runtime) (ip : interp) (c : check) (s : state) (e1 : exn) :
  Started.check_passes rt ip (os_fault s) c = true ->
  refuses ip (stdout s) (status_line true (check_name c)) = Some e1 ->
  test_results (snd (Started.run_check rt ip c s)) =
    test_results s ++ [passed_entry rt c (clock s (ticks s));
                       failed_entry rt c (exn_str e1) (clock s (S (ticks s)))].
Proof.
  intros Hpass Hrefused.
  destruct (started_check_refused rt ip c s e1 Hpass Hrefused) as (r & s' & Hrun & Hres & _).
  rewrite Hrun. exact Hres.
Qed.

Lemma check_logs_twice_witness :
  test_results (snd (Started.run_check example_runtime ascii_console BasicOperations
                       (fresh no_fault))) =
    [passed_entry example_runtime BasicOperations 0;
     failed_entry example_runtime BasicOperations (exn_str ascii_refusal) 1].
Proof.
  apply (check_logs_twice example_runtime ascii_console BasicOperations (fresh no_fault)
           ascii_refusal); reflexivity.
Defined.

(** C4 (the failing input).  On a console that refuses both status
    lines, the exception that [print] raises inside the handler of the
    check is caught by nothing: it leaves the check. *)
Theorem check_lets_fault_out (rt : runtime) (ip : interp) (c : check) (s : state)
    (e1 e2 : exn) :
  Started.check_passes rt ip (os_fault s) c = true ->
  refuses ip (stdout s) (status_line true (check_name c)) = Some e1 ->
  refuses ip (stdout s) (status_line false (check_name c)) = Some e2 ->
  fst (Started.run_check rt ip c s) = inl e2.
Proof.
  intros Hpass Hrefused Hrefused'.
  destruct (started_check_refused rt ip c s e1 Hpass Hrefused) as (r & s' & Hrun & _ & Hout).
  rewrite Hrefused' in Hout. rewrite Hrun. exact Hout.
Qed.

Lemma check_lets_fault_out_witness :
  fst (Started.run_check example_runtime ascii_console ErrorHandling (fresh no_fault)) =
  inl ascii_refusal.
Proof.
  apply (check_lets_fault_out example_runtime ascii_console ErrorHandling (fresh no_fault)
           ascii_refusal ascii_refusal); reflexivity.
Defined.

(** On a console that takes every line, each of the five checks returns
    and appends exactly one entry, named after the check; the entry is a
    success exactly when the suite of the check reached its end. *)
Theorem check_appends_one_result (rt : runtime) (ip : interp) (c : check) (s : state) :
  accepts ip ->
  exists r s',
    Started.run_check rt ip c s = (inr tt, s') /\
    test_results s' = test_results s ++ [r] /\
    test r = check_name c /\
    success r = Started.check_passes rt ip (os_fault s) c.
Proof.
  intros Hacc.
  destruct (started_run_check_outcome rt ip Hacc c s) as (r & s' & Hrun & Hres & Hn & Hs & _).
  exists r, s'. auto.
Qed.

Lemma check_appends_one_result_witness :
  exists r s',
    Started.run_check example_runtime optimized FileOperations (fresh read_only) = (inr tt, s') /\
    test_results s' = [r] /\ test r = "File Operations" /\ success r = false.
Proof.
  apply (check_appends_one_result example_runtime optimized FileOperations (fresh read_only)).
  exact accepts_optimized.
Defined.

(** The three checks that touch neither the file system nor the codec
    pass in every state of the process on a console that takes every
    line, with or without [-O], and leave the working directory as it
    was. *)
Theorem self_contained_checks_pass (rt : runtime) (ip : interp) (c : check) (s : state) :
  accepts ip ->
  self_contained c = true ->
  exists s',
    Started.run_check rt ip c s = (inr tt, s') /\
    test_results s' = test_results s ++ [passed_entry rt c (clock s (ticks s))] /\
    files s' = files s.
Proof.
  intros Hacc Hc. rewrite (started_run_check_accepted rt ip Hacc).
  destruct (self_contained_check_run (unasserted rt ip) c s Hc) as (s' & Hrun & Hres & Hfiles & _).
  exists s'. auto.
Qed.

Lemma self_contained_checks_pass_witness :
  exists s',
    Started.run_check example_runtime optimized Algorithms (fresh no_fault) = (inr tt, s') /\
    test_results s' =
      test_results (fresh no_fault) ++ [passed_entry example_runtime Algorithms 0] /\
    files s' = files (fresh no_fault).
Proof.
  apply (self_contained_checks_pass example_runtime optimized Algorithms (fresh no_fault)).
  - exact accepts_optimized.
  - reflexivity.
Defined.

(** On a console that takes every line, [test_data_structures] records
    a success exactly when [json.dumps] and [json.loads] return and, the
    assertions being compiled, what was decoded equals the dict; under
    [-O] the decoded value is not looked at.  The check touches no
    file. *)
Theorem data_check_result (rt : runtime) (ip : interp) (s : state) :
  accepts ip ->
  exists s' text,
    Started.test_data_structures rt ip s = (inr tt, s') /\
    test_results s' =
      test_results s ++
      [if Started.data_check_passes rt ip
       then passed_entry rt DataStructures (clock s (ticks s))
       else failed_entry rt DataStructures text (clock s (ticks s))] /\
    files s' = files s.
Proof.
  intros Hacc.
  change (Started.test_data_structures rt ip s) with (Started.run_check rt ip DataStructures s).
  rewrite (started_run_check_accepted rt ip Hacc), <- round_trips_unasserted.
  destruct (data_check_run (unasserted rt ip) s) as (s' & text & Hrun & Hres & Hfiles & _).
  exists s', text. auto.
Qed.

(** A codec that decodes to another dict: a failure with the assertions
    compiled, a success under [-O]. *)
Lemma data_check_result_witness :
  (exists s',
     Started.test_data_structures lossy_runtime plain (fresh no_fault) = (inr tt, s') /\
     map success (test_results s') = [false]) /\
  (exists s',
     Started.test_data_structures lossy_runtime optimized (fresh no_fault) = (inr tt, s') /\
     map success (test_results s') = [true]).
Proof.
  split.
  - destruct (data_check_result lossy_runtime plain (fresh no_fault) accepts_plain)
      as (s' & text & Hrun & Hres & _).
    exists s'. split; [exact Hrun|]. rewrite Hres. reflexivity.
  - destruct (data_check_result lossy_runtime optimized (fresh no_fault) accepts_optimized)
      as (s' & text & Hrun & Hres & _).
    exists s'. split; [exact Hrun|]. rewrite Hres. reflexivity.
Defined.

(** ** [main] on a console that takes every line *)

Lemma bind_inr_inv {A B} (m : M A) (k : A -> M B) s b s' :
  bind m k s = (inr b, s') -> exists a s1, m s = (inr a, s1) /\ k a s1 = (inr b, s').
Proof.
  unfold bind. destruct (m s) as [[e|a] s1]; [discriminate|]. eauto.
Qed.

Section MainSteps.

Variable rt : runtime.

(** The report of [main] counts the results it holds. *)
Lemma checks_and_report_fields (s : state) (rep : report) (s1 : state) :
  checks_and_report rt s = (inr rep, s1) ->
  total rep = Z.of_nat (length (results rep)) /\
  passed rep = Z.of_nat (length (List.filter success (results rep))) /\
  failed rep = total rep - passed rep.
Proof.
  unfold checks_and_report. intros H.
  do 11 (apply bind_inr_inv in H; destruct H as (? & ? & _ & H)).
  destruct (generate_report_fields rt _ _ _ H) as (Ht & Hp & Hf & Hr).
  rewrite Hr. auto.
Qed.


End MainSteps.

Section MainAccepted.

Variable rt : runtime.
Variable ip : interp.
Hypothesis Haccepts : accepts ip.

(** [main] up to the report, on a console that takes every line. *)
Lemma started_checks_and_report_run (s : state) :
  let faults := os_fault s in
  exists rep s1,
    Started.checks_and_report rt ip s = (inr rep, s1) /\
    checks_and_report (unasserted rt ip) s = (inr rep, s1) /\
    results rep = test_results s1 /\
    map test (results rep) = map check_name checks_in_order /\
    map success (results rep) = map (Started.check_passes rt ip faults) checks_in_order /\
    total rep = 5 /\
    Float64.eqb (success_rate rep) float_100 =
      no_refusal faults file_calls && Started.data_check_passes rt ip /\
    os_fault s1 = faults.
Proof.
  intros faults.
  destruct (checks_and_report_run (unasserted rt ip) s)
    as (rep & s1 & Hrun & Hres & Hn & Hs & Ht & Hrate & _ & Hos).
  exists rep, s1. rewrite (started_checks_and_report_accepted rt ip Haccepts).
  split; [exact Hrun|]. split; [exact Hrun|]. split; [exact Hres|].
  rewrite Hres. split; [exact Hn|]. split.
  - rewrite Hs. cbn [map checks_in_order]. rewrite !check_passes_unasserted. reflexivity.
  - split; [exact Ht|]. split; [|exact Hos].
    rewrite Hrate, !check_passes_unasserted. reflexivity.
Qed.

Lemma started_save_report_cases (rep : report) (s : state) :
  Started.save_report rt ip rep s =
  match os_fault s (OpenW report_file) with
  | Some (n, msg) => (inl (Exn (OSError n) msg), s)
  | None =>
      match json_dumps rt (report_to_py rep) with
      | inl e => (inl e, set_files (insert report_file EmptyString) s)
      | inr text =>
          match os_fault s (WriteTo report_file) with
          | Some (n, msg) =>
              (inl (Exn (OSError n) msg), set_files (insert report_file EmptyString) s)
          | None =>
              (inr (Float64.eqb (success_rate rep) float_100),
               set_stdout (fun out => out ++ [[PStr newline; PStr "Test report saved to: agent_test_report.json"]])
                 (set_files (insert report_file text) s))
          end
      end
  end.
Proof.
  rewrite (started_save_report_accepted rt ip Haccepts).
  exact (save_report_cases (unasserted rt ip) rep s).
Qed.

End MainAccepted.





(** End to end, a clean run.  On a console that takes every line, when
    the operating system refuses none of the calls of the file check and
    the data check passes, the report of [main] counts five results, all
    of them passed, at a rate of [100.0]; and when the report file can be
    opened and written and the codec encodes the report, the file holds
    that text, [main] returns [True] and the process exits with
    status 0. *)
Theorem main_clean_run (rt : runtime) (ip : interp) (s : state) :
  accepts ip ->
  no_refusal (os_fault s) file_calls = true ->
  Started.data_check_passes rt ip = true ->
  exists rep s1,
    Started.checks_and_report rt ip s = (inr rep, s1) /\
    total rep = 5 /\ passed rep = 5 /\ failed rep = 0 /\
    Float64.eqb (success_rate rep) float_100 = true /\
    forall text,
      no_refusal (os_fault s) [OpenW report_file; WriteTo report_file] = true ->
      json_dumps rt (report_to_py rep) = inr text ->
      exists final,
        Started.main rt ip s = (inr true, final) /\
        files final !! report_file = Some text /\
        Started.exit_status rt ip s = 0.
Proof.
  intros Hacc Hfile Hdata.
  destruct (started_checks_and_report_run rt ip Hacc s)
    as (rep & s1 & Hrun & Hrun' & Hres & Hn & Hs & Ht & Hrate & Hos).
  exists rep, s1. split; [exact Hrun|].
  destruct (checks_and_report_fields _ s rep s1 Hrun') as (Htot & Hpass & Hfail).
  rewrite Hfile, Hdata in Hrate.
  assert (Hp5 : passed rep = 5).
  { rewrite Hpass. cbn [map checks_in_order Started.check_passes] in Hs.
    rewrite Hfile, Hdata in Hs.
    destruct (results rep) as [|r1 [|r2 [|r3 [|r4 [|r5 [|r6 l]]]]]]; try discriminate Hs.
    cbn [map] in Hs. injection Hs as H1 H2 H3 H4 H5.
    cbn [List.filter]. rewrite H1, H2, H3, H4, H5. reflexivity. }
  split; [exact Ht|]. split; [exact Hp5|]. split; [lia|]. split; [exact Hrate|].
  intros text Hsave Hdump.
  unfold no_refusal in Hsave. cbn [first_fault] in Hsave.
  destruct (os_fault s (OpenW report_file)) as [[n m]|] eqn:Ho; [discriminate Hsave|].
  destruct (os_fault s (WriteTo report_file)) as [[n m]|] eqn:Hw; [discriminate Hsave|].
  assert (Hmain : exists final,
             Started.main rt ip s = (inr true, final) /\
             files final !! report_file = Some text).
  { rewrite started_main_split, bind_eq, Hrun, (started_save_report_cases rt ip Hacc), Hos.
    rewrite Ho, Hdump, Hw, Hrate. eexists. split; [reflexivity|].
    cbn [files set_stdout set_files]. apply lookup_insert_eq. }
  destruct Hmain as (final & Hmain & Hfiles).
  exists final. split; [exact Hmain|]. split; [exact Hfiles|].
  unfold Started.exit_status. rewrite Hmain. reflexivity.
Qed.

Lemma main_clean_run_witness :
  Started.exit_status example_runtime plain (fresh no_fault) = 0 /\
  files (snd (Started.main example_runtime plain (fresh no_fault))) !! report_file =
    Some "report".
Proof.
  destruct (main_clean_run example_runtime plain (fresh no_fault) accepts_plain
              eq_refl eq_refl)
    as (rep & s1 & Hrun & _ & _ & _ & _ & Hsave).
  destruct (Hsave "report" eq_refl) as (final & Hmain & Hfiles & Hexit).
  - reflexivity.
  - split; [exact Hexit|]. rewrite Hmain. exact Hfiles.
Defined.



(** ** The results sequence under any use of the tester *)

Section ResultsGrow.

Variable rt : runtime.
Variable ip : interp.

(** One call, whatever the console does: the entries recorded before
    are still there, in their places. *)
Lemma started_do_call_grows (c : call) (s : state) :
  let s' := snd (do_call rt ip c s) in
  start_time s' = start_time s /\ test_results s `prefix_of` test_results s'.
Proof.
  destruct c as [name ok text|c|]; cbn [do_call]; cbv zeta.
  - destruct (started_log_test_entry rt ip name ok text s) as (r & s' & -> & Hres & Hst & _).
    cbn [snd]. split; [exact Hst|]. rewrite Hres. apply prefix_app_r. reflexivity.
  - destruct (started_run_check_grows rt ip c s) as (Hst & r & l & Hres).
    split; [exact Hst|]. rewrite Hres. apply prefix_app_r. reflexivity.
  - rewrite bind_eq. pose proof (reads_only_generate_report rt ip s) as (Hres & Hst & _).
    destruct (Started.generate_report rt ip s) as [[e|rep] s']; unfold ret; cbn [snd] in *;
      (split; [exact Hst | rewrite Hres; reflexivity]).
Qed.

(** One call on a console that takes every line: it returns, and has
    appended its entry if it is one that appends. *)
Lemma started_do_call_accepted (c : call) (s : state) :
  accepts ip ->
  let s' := snd (do_call rt ip c s) in
  if appends c
  then fst (do_call rt ip c s) = inr tt /\ exists r, test_results s' = test_results s ++ [r]
  else test_results s' = test_results s.
Proof.
  intros Hacc. destruct c as [name ok text|c|]; cbn [do_call appends]; cbv zeta.
  - rewrite (started_log_test_accepted rt ip Hacc).
    destruct (log_test_spec (unasserted rt ip) name ok text s) as (s' & -> & Hres & _).
    cbn [fst snd]. eauto.
  - destruct (started_run_check_outcome rt ip Hacc c s) as (r & s' & -> & Hres & _).
    cbn [fst snd]. eauto.
  - rewrite bind_eq. pose proof (reads_only_generate_report rt ip s) as (Hres & _).
    destruct (Started.generate_report rt ip s) as [[e|rep] s']; unfold ret; cbn [snd] in *;
      exact Hres.
Qed.

End ResultsGrow.

(** No use of the methods of a tester removes, reorders or changes a
    recorded result, whatever the console does: after any script the
    sequence begins with what it was before, and the start time is the
    one set at construction.  On a console that takes every line, a
    script that ran to its end has added one entry for each call of
    [log_test] or of a check. *)
Theorem results_only_grow (rt : runtime) (ip : interp) (l : list call) (s : state) :
  let s' := snd (script rt ip l s) in
  test_results s `prefix_of` test_results s' /\
  start_time s' = start_time s /\
  (accepts ip ->
   fst (script rt ip l s) = inr tt ->
   length (test_results s') =
     (length (test_results s) + length (List.filter appends l))%nat).
Proof.
  revert s. induction l as [|c l IH]; intros s; cbv zeta.
  - cbn [script List.filter length]. unfold ret. cbn [fst snd].
    split; [reflexivity|]. split; [reflexivity|]. intros _ _. lia.
  - cbn [script List.filter]. rewrite bind_eq.
    pose proof (started_do_call_grows rt ip c s) as Hg. cbv zeta in Hg.
    pose proof (started_do_call_accepted rt ip c s) as Ha. cbv zeta in Ha.
    destruct (do_call rt ip c s) as [[e|[]] s1]; cbn [fst snd] in Hg, Ha |- *.
    + destruct Hg as (Hst & Hpre).
      split; [exact Hpre|]. split; [exact Hst|]. intros _ H. discriminate H.
    + destruct Hg as (Hst & Hpre).
      specialize (IH s1). cbv zeta in IH. destruct IH as (Hpre' & Hst' & Hlen).
      split; [|split].
      * transitivity (test_results s1); assumption.
      * rewrite Hst'. exact Hst.
      * intros Hacc Hret. rewrite (Hlen Hacc Hret). specialize (Ha Hacc).
        destruct (appends c); cbn [length].
        -- destruct Ha as (_ & r & ->). rewrite length_app. cbn [length]. lia.
        -- rewrite Ha. lia.
Qed.

Lemma results_only_grow_witness :
  length (test_results
            (snd (script example_runtime optimized
                    [RunCheck FileOperations; LogTest "Extra" true EmptyString; GenerateReport]
                    (fresh no_fault)))) = 2%nat.
Proof.
  apply (results_only_grow example_runtime optimized
           [RunCheck FileOperations; LogTest "Extra" true EmptyString; GenerateReport]
           (fresh no_fault)).
  - exact accepts_optimized.
  - vm_compute. reflexivity.
Defined.

(** ** [start_server]: the probe for a free port *)





(** The server serves only on a port that it could bind, at or above the
    one asked for, after every port in between was refused under errno
    48. *)
Theorem start_server_serves_first_free (d : nat) (h : host) (port q : Z) :
  snd (start_server d h port) = Stopped q ->
  chdir_fault h = None /\ port <= q /\ tcp_bind h q = BindOk /\
  forall r, port <= r < q -> refused_48 h r.
Proof.
  revert port. induction d as [|d IH]; intros port; cbn [start_server]; [discriminate|].
  destruct (chdir_fault h) as [[n msg]|] eqn:Hcd.
  - unfold on_OSError. destruct (n =? 48); [|discriminate].
    cbn [snd]. intros H. apply IH in H. destruct H as [H _]. discriminate H.
  - destruct (tcp_bind h port) as [|n msg|] eqn:Hb.
    + cbn [snd]. intros H. injection H as <-.
      split; [reflexivity|]. split; [lia|]. split; [exact Hb|]. intros r Hr. lia.
    + unfold on_OSError. destruct (Z.eqb_spec n 48) as [->|Hne]; [|discriminate].
      cbn [snd]. intros H. apply IH in H. destruct H as (_ & Hle & Hq & Hbetween).
      split; [reflexivity|]. split; [lia|]. split; [exact Hq|].
      intros r Hr. destruct (Z.eq_dec r port) as [->|Hrp].
      * exists msg. exact Hb.
      * apply Hbetween. lia.
    + discriminate.
Qed.

Lemma start_server_serves_first_free_witness :
  chdir_fault darwin_8000_busy = None /\ 8000 <= 8001 /\
  tcp_bind darwin_8000_busy 8001 = BindOk /\
  forall r, 8000 <= r < 8001 -> refused_48 darwin_8000_busy r.
Proof.
  apply (start_server_serves_first_free recursion_limit darwin_8000_busy 8000 8001).
  vm_compute. reflexivity.
Defined.


(** ** The unit tests of test_agent.py *)

Lemma float_66_7_literal : Float64.div (Z2SF 667) (Z2SF 10) = float_66_7.
Proof. vm_compute. reflexivity. Qed.

Lemma unpatched_bind {A B} (m : M A) (k : A -> M B) ks :
  unpatched (bind m k) ks = pbind (unpatched m) (fun a => unpatched (k a)) ks.
Proof.
  unfold unpatched, pbind, bind. destruct ks as [c s]. cbn [fst snd].
  destruct (m s) as [[e|a] s']; [reflexivity|]. cbn [fst snd]. reflexivity.
Qed.

Lemma unpatched_try_except {A} catches (body : M A) handler ks :
  unpatched (try_except catches body handler) ks =
  ptry_except catches (unpatched body) (fun e => unpatched (handler e)) ks.
Proof.
  unfold unpatched, ptry_except, try_except. destruct ks as [c s]. cbn [fst snd].
  destruct (body s) as [[e|a] s']; [|reflexivity].
  destruct (catches (exn_cls e)); reflexivity.
Qed.

Lemma pbind_congr {A B} (m : Patched A) (k1 k2 : A -> Patched B) ks :
  (forall a ks', k1 a ks' = k2 a ks') -> pbind m k1 ks = pbind m k2 ks.
Proof. intros H. unfold pbind. destruct (m ks) as [[e|a] ks']; [reflexivity | apply H]. Qed.

Lemma ptry_except_congr {A} catches (b1 b2 : Patched A) handler ks :
  b1 ks = b2 ks -> ptry_except catches b1 handler ks = ptry_except catches b2 handler ks.
Proof. intros H. unfold ptry_except. rewrite H. reflexivity. Qed.

Section UnitTests.

Variable rt : runtime.
Variable ip : interp.

(** With the names of the interpreter, the parametrised method is
    [AgentTester.test_file_operations] itself. *)
Lemma tester_test_file_operations_builtin (ks : mocks * state) :
  TestAgentTester.tester_test_file_operations rt ip builtin_files ks =
  unpatched (Started.test_file_operations rt ip) ks.
Proof.
  unfold Started.test_file_operations, TestAgentTester.tester_test_file_operations.
  rewrite unpatched_try_except. apply ptry_except_congr.
  unfold Started.test_file_operations_body.
  cbn [builtin_files api_open_w api_write api_open_r api_read api_remove].
  rewrite unpatched_bind. apply pbind_congr. intros _ ks1.
  rewrite unpatched_bind. apply pbind_congr. intros _ ks2.
  rewrite unpatched_bind. apply pbind_congr. intros _ ks3.
  rewrite unpatched_bind. apply pbind_congr. intros read_content ks4.
  rewrite unpatched_bind. apply pbind_congr. intros _ ks5.
  rewrite unpatched_bind. reflexivity.
Qed.

Hypothesis Haccepts : accepts ip.

(** Under [mock_open], the check reads [read_data] whatever it wrote.
    With its assertion compiled it records a success only when
    [read_data] is the content it writes, and otherwise the failure
    "File content mismatch", without having called [os.remove]; under
    [-O] it goes on to [os.remove] and records a success.  The working
    directory is not touched. *)
Lemma tester_test_file_operations_mocked (read_data : string) (k : mocks) (s : state) :
  let ok := optimize ip || String.eqb read_data test_content in
  exists s',
    TestAgentTester.tester_test_file_operations rt ip (mock_files read_data) (k, s) =
      (inr tt,
       ({| open_calls := S (S (open_calls k));
           remove_calls := if ok then S (remove_calls k) else remove_calls k |}, s')) /\
    test_results s' =
      test_results s ++
      [if ok
       then passed_entry rt FileOperations (clock s (ticks s))
       else failed_entry rt FileOperations "File content mismatch" (clock s (ticks s))] /\
    files s' = files s /\ start_time s' = start_time s.
Proof.
  cbv zeta.
  unfold TestAgentTester.tester_test_file_operations, ptry_except, pbind, mock_files,
    call_open, call_remove, pret, unpatched, Started.py_assert.
  cbn [api_open_w api_write api_open_r api_read api_remove fst snd open_calls remove_calls].
  destruct (optimize ip); cbn [orb].
  - unfold ret. cbn [fst snd open_calls remove_calls].
    rewrite (started_log_test_accepted rt ip Haccepts).
    destruct (log_test_spec (unasserted rt ip) "File Operations" true
                "File write/read/delete successful" s)
      as (s' & Hlog & Hres & Hst & Hf & _).
    rewrite Hlog. exists s'. auto.
  - unfold bind, ret. cbn [fst snd].
    destruct (String.eqb read_data test_content).
    + cbn [fst snd open_calls remove_calls].
      rewrite (started_log_test_accepted rt ip Haccepts).
      destruct (log_test_spec (unasserted rt ip) "File Operations" true
                  "File write/read/delete successful" s)
        as (s' & Hlog & Hres & Hst & Hf & _).
      rewrite Hlog. exists s'. auto.
    + unfold raise. cbn [fst snd open_calls remove_calls Exception exn_cls exn_str].
      rewrite (started_log_test_accepted rt ip Haccepts).
      destruct (log_test_spec (unasserted rt ip) "File Operations" false
                  "File content mismatch" s)
        as (s' & Hlog & Hres & Hst & Hf & _).
      rewrite Hlog. exists s'. auto.
Qed.

(** What follows the call of a check in its unit test, when the check
    has appended the entry [r] to the [n] entries there were. *)
Lemma expect_pass_after (l : list TestResult) (r : TestResult) (s : state) :
  test_results s = l ++ [r] ->
  TestAgentTester.expect_pass (Z.of_nat (length l)) (test r) s =
  (if success r then inr tt else inl (Exn AssertionError "False is not true"), s).
Proof.
  intros Hres.
  unfold TestAgentTester.expect_pass, len_results, assertEqual_int, assertTrue, assertEqual_str,
    getitem.
  rewrite !bind_eq. unfold get at 1. unfold ret at 1. rewrite Hres.
  rewrite length_app. cbn [length].
  replace (Z.of_nat (length l + 1) =? Z.of_nat (length l) + 1) with true
    by (symmetry; apply Z.eqb_eq; lia).
  unfold failUnless at 1. unfold ret at 1.
  rewrite !bind_eq. unfold get at 1. rewrite Hres.
  rewrite length_app. cbn [length].
  replace (-1 <? 0) with true by reflexivity.
  replace ((-1 + Z.of_nat (length l + 1) <? 0) ||
           (Z.of_nat (length l + 1) <=? -1 + Z.of_nat (length l + 1))) with false
    by (symmetry; apply orb_false_iff; split; [apply Z.ltb_ge | apply Z.leb_gt]; lia).
  replace (Z.to_nat (-1 + Z.of_nat (length l + 1))) with (length l + 0)%nat by lia.
  rewrite lookup_app_r by lia.
  replace (length l + 0 - length l)%nat with 0%nat by lia.
  cbn [lookup list_lookup]. unfold ret at 1.
  rewrite bind_eq. unfold failUnless at 1.
  destruct (success r); [|reflexivity].
  unfold ret at 1. unfold failUnless. rewrite String.eqb_refl. reflexivity.
Qed.

(** The unit test of a check raises exactly when the check records a
    failure. *)
Lemma check_unit_test (c : check) (s : state) :
  test_results s = [] ->
  fst ((initial_count <- len_results ;;
        Started.run_check rt ip c ;;
        TestAgentTester.expect_pass initial_count (check_name c)) s) =
  if Started.check_passes rt ip (os_fault s) c then inr tt
  else inl (Exn AssertionError "False is not true").
Proof.
  intros H0. rewrite bind_eq. unfold len_results at 1, bind at 1, get at 1, ret at 1.
  rewrite H0. cbn [length]. rewrite bind_eq.
  destruct (started_run_check_outcome rt ip Haccepts c s)
    as (r & s' & Hrun & Hres & Hname & Hsucc & _).
  rewrite Hrun. rewrite <- Hname, <- Hsucc.
  rewrite H0 in Hres.
  change (Z.of_nat 0) with (Z.of_nat (length (@nil TestResult))).
  rewrite (expect_pass_after [] r s' Hres). reflexivity.
Qed.

(** The three tests that call [log_test], with the calls read on a
    console that takes every line. *)
Lemma test_log_test_success_accepted s :
  TestAgentTester.test_log_test_success rt ip s =
  TestAgentTester.test_log_test_success (unasserted rt ip) plain s.
Proof.
  unfold TestAgentTester.test_log_test_success.
  apply bind_ext; [|reflexivity].
  rewrite (started_log_test_accepted rt ip Haccepts).
  rewrite (started_log_test_accepted (unasserted rt ip) plain accepts_plain). reflexivity.
Qed.

Lemma test_log_test_failure_accepted s :
  TestAgentTester.test_log_test_failure rt ip s =
  TestAgentTester.test_log_test_failure (unasserted rt ip) plain s.
Proof.
  unfold TestAgentTester.test_log_test_failure.
  apply bind_ext; [|reflexivity].
  rewrite (started_log_test_accepted rt ip Haccepts).
  rewrite (started_log_test_accepted (unasserted rt ip) plain accepts_plain). reflexivity.
Qed.

Lemma test_generate_report_accepted s :
  TestAgentTester.test_generate_report rt ip s =
  TestAgentTester.test_generate_report (unasserted rt ip) plain s.
Proof.
  unfold TestAgentTester.test_generate_report.
  do 3 (apply bind_ext;
        [rewrite (started_log_test_accepted rt ip Haccepts);
         rewrite (started_log_test_accepted (unasserted rt ip) plain accepts_plain);
         reflexivity
        | intros _ ?]).
  apply bind_ext; [|reflexivity].
  rewrite (started_generate_report_accepted rt ip Haccepts).
  rewrite (started_generate_report_accepted (unasserted rt ip) plain accepts_plain).
  unfold generate_report.
  repeat (apply bind_ext; [reflexivity | intros ? ?]). reflexivity.
Qed.

End UnitTests.

(** The unit test [test_file_operations], on a console that takes every
    line.  Its [mock_open] hands the check the text "test content",
    which is not what the check wrote.  With the assertions of the
    runner compiled, the check records the failure "File content
    mismatch" without calling [os.remove], and
    [assertTrue(result["success"])] fails the unit test.  Under [-O] the
    check does not compare what it read: it calls the mocked [os.remove]
    once and records a success, and the unit test passes. *)
Theorem unit_test_file_operations (rt : runtime) (ip : interp) (s : state) :
  accepts ip ->
  exists k' s',
    TestAgentTester.run_test_file_operations rt ip (no_calls, s) =
      (if optimize ip then inr tt else inl (Exn AssertionError "False is not true"),
       (k', s')) /\
    open_calls k' = 2%nat /\
    remove_calls k' = (if optimize ip then 1 else 0)%nat /\
    map details (test_results s') =
      [if optimize ip then "File write/read/delete successful" else "File content mismatch"] /\
    files s' = files s.
Proof.
  intros Hacc.
  unfold TestAgentTester.run_test_file_operations, TestAgentTester.test_file_operations,
    TestAgentTester.setUp.
  unfold pbind at 1. unfold unpatched at 1. rewrite AgentTester_init_eq. cbn [fst snd].
  match goal with |- context [set_start_time ?t ?st] => set (s0 := set_start_time t st) end.
  assert (H0 : test_results s0 = []) by reflexivity.
  assert (Hf0 : files s0 = files s) by reflexivity.
  clearbody s0.
  unfold pbind at 1. unfold unpatched at 1, len_results, bind, get, ret. cbn [fst snd].
  rewrite H0. cbn [length].
  assert (Hneq : String.eqb "test content" test_content = false) by (vm_compute; reflexivity).
  destruct (tester_test_file_operations_mocked rt ip Hacc "test content" no_calls s0)
    as (s1 & Hrun & Hres & Hf1 & _).
  cbv zeta in Hrun, Hres. rewrite Hneq in Hrun, Hres. rewrite H0 in Hres. cbn [app] in Hres.
  unfold pbind at 1. rewrite Hrun.
  unfold pbind at 1. unfold unpatched at 1. cbn [fst snd].
  change (Z.of_nat 0) with (Z.of_nat (length (@nil TestResult))).
  destruct (optimize ip); cbn [orb] in Hres |- *.
  - change "File Operations" with (test (passed_entry rt FileOperations (clock s0 (ticks s0)))) at 1.
    rewrite (expect_pass_after [] (passed_entry rt FileOperations (clock s0 (ticks s0))) s1 Hres).
    cbn [passed_entry success].
    unfold pbind, get_mocks, unpatched, assert_called, assert_called_once, failUnless, ret.
    cbn. eexists. exists s1. split; [reflexivity|]. rewrite Hres, Hf1, Hf0. cbn. auto.
  - change "File Operations"
      with (test (failed_entry rt FileOperations "File content mismatch" (clock s0 (ticks s0)))) at 1.
    rewrite (expect_pass_after []
               (failed_entry rt FileOperations "File content mismatch" (clock s0 (ticks s0)))
               s1 Hres).
    cbn [failed_entry success].
    unfold pbind. eexists. exists s1. split; [reflexivity|]. rewrite Hres, Hf1, Hf0. cbn. auto.
Qed.

Lemma unit_test_file_operations_witness :
  fst (TestAgentTester.run_test_file_operations example_runtime plain (no_calls, fresh no_fault)) =
    inl (Exn AssertionError "False is not true") /\
  fst (TestAgentTester.run_test_file_operations example_runtime optimized
         (no_calls, fresh no_fault)) = inr tt.
Proof.
  split.
  - destruct (unit_test_file_operations example_runtime plain (fresh no_fault) accepts_plain)
      as (k' & s' & Hrun & _).
    rewrite Hrun. reflexivity.
  - destruct (unit_test_file_operations example_runtime optimized (fresh no_fault)
                accepts_optimized)
      as (k' & s' & Hrun & _).
    rewrite Hrun. reflexivity.
Defined.

(** The unit tests of [TestAgentTester] that run without a patch, on a
    console that takes every line: all pass after [setUp], the one of
    the data check provided that the data check passes (it fails on
    [assertTrue] otherwise). *)
Theorem unit_tests_outcome (rt : runtime) (ip : interp) (t : TestAgentTester.unit_test)
    (s : state) :
  accepts ip ->
  fst (TestAgentTester.run_test rt ip t s) =
  match t with
  | TestAgentTester.DataStructuresTest =>
      if Started.data_check_passes rt ip then inr tt
      else inl (Exn AssertionError "False is not true")
  | _ => inr tt
  end.
Proof.
  intros Hacc.
  unfold TestAgentTester.run_test, TestAgentTester.setUp.
  rewrite bind_eq, AgentTester_init_eq.
  match goal with |- context [set_start_time ?t ?st] => set (s0 := set_start_time t st) end.
  assert (H0 : test_results s0 = []) by reflexivity.
  destruct t; cbn [TestAgentTester.test_method].
  - subst s0. vm_compute. reflexivity.
  - rewrite (test_log_test_success_accepted rt ip Hacc). subst s0. vm_compute. reflexivity.
  - rewrite (test_log_test_failure_accepted rt ip Hacc). subst s0. vm_compute. reflexivity.
  - clearbody s0. apply (check_unit_test rt ip Hacc BasicOperations s0 H0).
  - clearbody s0. apply (check_unit_test rt ip Hacc DataStructures s0 H0).
  - clearbody s0. apply (check_unit_test rt ip Hacc Algorithms s0 H0).
  - clearbody s0. apply (check_unit_test rt ip Hacc ErrorHandling s0 H0).
  - rewrite (test_generate_report_accepted rt ip Hacc). subst s0. vm_compute. reflexivity.
Qed.

Lemma unit_tests_outcome_witness :
  fst (TestAgentTester.run_test lossy_runtime plain TestAgentTester.DataStructuresTest
         (fresh no_fault)) = inl (Exn AssertionError "False is not true") /\
  fst (TestAgentTester.run_test lossy_runtime optimized TestAgentTester.DataStructuresTest
         (fresh no_fault)) = inr tt /\
  fst (TestAgentTester.run_test example_runtime plain TestAgentTester.GenerateReportTest
         (fresh no_fault)) = inr tt.
Proof.
  split; [|split].
  - apply (unit_tests_outcome lossy_runtime plain TestAgentTester.DataStructuresTest
             (fresh no_fault) accepts_plain).
  - apply (unit_tests_outcome lossy_runtime optimized TestAgentTester.DataStructuresTest
             (fresh no_fault) accepts_optimized).
  - apply (unit_tests_outcome example_runtime plain TestAgentTester.GenerateReportTest
             (fresh no_fault) accepts_plain).
Defined.

(** ** The request handler: the no-cache headers *)

Lemma send_header_09 (keyword value : string) (h : handler) :
  String.eqb (lower keyword) "connection" = false ->
  String.eqb (request_version h) "HTTP/0.9" = true ->
  send_header keyword value h = h.
Proof. intros Hk Hv. unfold send_header. rewrite Hk, Hv. reflexivity. Qed.

Lemma send_header_buffered (keyword value : string) (h : handler) :
  String.eqb (lower keyword) "connection" = false ->
  String.eqb (request_version h) "HTTP/0.9" = false ->
  send_header keyword value h =
  {| request_version := request_version h;
     headers_buffer :=
       Some (default [] (headers_buffer h) ++ [(keyword ++ ": " ++ value ++ CRLF)%string]);
     wfile := wfile h;
     close_connection := close_connection h |}.
Proof. intros Hk Hv. unfold send_header. rewrite Hk, Hv. reflexivity. Qed.

Lemma end_headers_eq (h : handler) :
  end_headers h =
  Some (if String.eqb (request_version h) "HTTP/0.9" then h
        else {| request_version := request_version h;
                headers_buffer := Some [];
                wfile := wfile h ++
                         [String.concat EmptyString
                            (default [] (headers_buffer h) ++ no_cache_lines ++ [CRLF])];
                close_connection := close_connection h |}).
Proof.
  unfold end_headers. cbv zeta.
  destruct (String.eqb (request_version h) "HTTP/0.9") eqn:Hv.
  - rewrite (send_header_09 "Cache-Control" _ h) by (try exact Hv; reflexivity).
    rewrite (send_header_09 "Pragma" _ h) by (try exact Hv; reflexivity).
    rewrite (send_header_09 "Expires" _ h) by (try exact Hv; reflexivity).
    unfold base_end_headers. rewrite Hv. reflexivity.
  - rewrite (send_header_buffered "Cache-Control" _ h) by (try exact Hv; reflexivity).
    rewrite (send_header_buffered "Pragma") by (try exact Hv; reflexivity).
    rewrite (send_header_buffered "Expires") by (try exact Hv; reflexivity).
    unfold base_end_headers. cbn [request_version headers_buffer wfile close_connection default].
    rewrite Hv. unfold flush_headers.
    cbn [request_version headers_buffer wfile close_connection].
    unfold no_cache_lines, id. rewrite <- !app_assoc. reflexivity.
Qed.

(** Every block of headers that the handler ends goes out with the three
    no-cache lines after the lines buffered before and right before the
    blank line, in one write that empties the buffer; this holds without
    any header sent before (the call never fails on a missing buffer).
    A request in HTTP/0.9 gets no header at all. *)
Theorem end_headers_no_cache (h : handler) :
  exists h',
    end_headers h = Some h' /\
    request_version h' = request_version h /\
    close_connection h' = close_connection h /\
    if String.eqb (request_version h) "HTTP/0.9"
    then wfile h' = wfile h /\ headers_buffer h' = headers_buffer h
    else wfile h' =
           wfile h ++
           [String.concat EmptyString
              (default [] (headers_buffer h) ++ no_cache_lines ++ [CRLF])] /\
         headers_buffer h' = Some [].
Proof.
  eexists. split; [apply end_headers_eq|].
  destruct (String.eqb (request_version h) "HTTP/0.9"); cbn; auto.
Qed.

(** ** [is_prime] beyond [2^53] *)

(** From [2^1024] on, the conversion of the argument to a float
    overflows and [is_prime] raises [OverflowError]. *)
Theorem is_prime_overflow (n : Z) :
  2 ^ 1024 <= n ->
  is_prime n = inl (Exn OverflowError "int too large to convert to float").
Proof.
  intros Hn.
  assert (H53 : 2 ^ 53 <= n).
  { assert (2 ^ 53 <= 2 ^ 1024) by (apply Z.pow_le_mono_r; lia). lia. }
  destruct (of_int_large n H53) as (m & k & Hof & Hk & _).
  pose proof (Zdigits2_bounds n ltac:(lia)) as [_ Hhi].
  assert (Hd : 1025 <= Zdigits2 n).
  { destruct (Z.le_gt_cases 1025 (Zdigits2 n)) as [|Hlt]; [assumption|].
    assert (2 ^ Zdigits2 n <= 2 ^ 1024) by (apply Z.pow_le_mono_r; lia). lia. }
  replace (k <=? 971) with false in Hof by (symmetry; apply Z.leb_gt; lia).
  unfold is_prime, math_sqrt.
  replace (n <? 2) with false by (symmetry; apply Z.ltb_ge; lia).
  rewrite Hof. reflexivity.
Qed.

Lemma is_prime_overflow_witness :
  is_prime (2 ^ 1024) = inl (Exn OverflowError "int too large to convert to float").
Proof. apply (is_prime_overflow (2 ^ 1024)). lia. Defined.

Lemma sqrt_bound_raises (n : Z) (e : exn) :
  2 <= n -> sqrt_bound n = inl e -> is_prime n = inl e.
Proof.
  intros Hn. unfold sqrt_bound, is_prime.
  replace (n <? 2) with false by (symmetry; apply Z.ltb_ge; lia).
  destruct (math_sqrt n) as [e1|r]; cbn [rbind].
  - intros H. injection H as ->. reflexivity.
  - destruct (int_of_float r) as [e2|k]; cbn [rbind]; [|discriminate].
    intros H. injection H as ->. reflexivity.
Qed.

(** The loop bound of [is_prime] stays below its argument, whatever the
    size of the argument. *)
Lemma sqrt_bound_below (n k : Z) : 2 <= n -> sqrt_bound n = inr k -> k < n.
Proof.
  intros Hn Hk. destruct (Z.lt_ge_cases n (2 ^ 53)) as [Hsmall|Hlarge].
  - destruct (sqrt_bound_small n ltac:(lia)) as (k' & Hk' & Hb).
    rewrite Hk in Hk'. injection Hk' as ->. lia.
  - destruct (sqrt_bound_large n Hlarge) as [(_ & e & He)|(k' & Hk' & Hb)].
    + rewrite Hk in He. discriminate He.
    + rewrite Hk in Hk'. injection Hk' as ->. lia.
Qed.

Lemma is_prime_loop_false (n : Z) (l : list Z) :
  is_prime_loop n l = false -> exists i, i ∈ l /\ n mod i = 0.
Proof.
  induction l as [|x l IH]; cbn [is_prime_loop]; [discriminate|].
  destruct (Z.eqb_spec (n mod x) 0) as [H0|H0].
  - intros _. exists x. split; [left | exact H0].
  - intros H. destruct (IH H) as (i & Hi & Hmod). exists i. split; [right; exact Hi | exact Hmod].
Qed.

(** A prime has no divisor between 2 and itself. *)
Lemma prime_no_proper_divisor (n i : Z) : prime n -> 2 <= i < n -> n mod i <> 0.
Proof.
  intros [_ Hrel] Hi Hmod.
  assert (Hdiv : (i | n)) by (apply Z.mod_divide; [lia | exact Hmod]).
  destruct (Hrel i ltac:(lia)) as [_ _ Hg].
  assert (Hi1 : (i | 1)) by (apply Hg; [apply Z.divide_refl | exact Hdiv]).
  apply Z.divide_1_r_nonneg in Hi1; lia.
Qed.

(** A [False] from [is_prime] is never wrong, whatever the size of the
    argument: the function answers [False] only for a number that is not
    prime. *)
Theorem is_prime_false_sound (n : Z) : is_prime n = inr false -> ~ prime n.
Proof.
  intros Hfalse Hprime.
  assert (Hn : 2 <= n) by (destruct Hprime as [H1 _]; lia).
  destruct (sqrt_bound n) as [e|k] eqn:Hk.
  - rewrite (sqrt_bound_raises n e Hn Hk) in Hfalse. discriminate Hfalse.
  - pose proof (sqrt_bound_below n k Hn Hk) as Hlt.
    rewrite (is_prime_eq n k Hn Hk) in Hfalse. injection Hfalse as Hloop.
    destruct (is_prime_loop_false n _ Hloop) as (i & Hi & Hmod).
    apply elem_of_range in Hi.
    exact (prime_no_proper_divisor n i Hprime ltac:(lia) Hmod).
Qed.

Lemma is_prime_false_sound_witness : ~ prime 18.
Proof. apply (is_prime_false_sound 18). exact is_prime_18. Defined.

(** Every prime below [2^1023] is recognised. *)
Theorem is_prime_accepts_primes (n : Z) :
  prime n -> n < 2 ^ 1023 -> is_prime n = inr true.
Proof.
  intros Hprime Hhi.
  assert (Hn : 2 <= n) by (destruct Hprime as [H1 _]; lia).
  assert (Hret : exists k, sqrt_bound n = inr k).
  { destruct (Z.lt_ge_cases n (2 ^ 53)) as [Hsmall|Hlarge].
    - destruct (sqrt_bound_small n ltac:(lia)) as (k & Hk & _). eauto.
    - destruct (sqrt_bound_large n Hlarge) as [(Hbig & _)|(k & Hk & _)]; [lia | eauto]. }
  destruct Hret as (k & Hk).
  pose proof (sqrt_bound_below n k Hn Hk) as Hlt.
  rewrite (is_prime_eq n k Hn Hk). f_equal.
  apply is_prime_loop_spec. intros i Hi. apply elem_of_range in Hi.
  apply prime_no_proper_divisor; [exact Hprime | lia].
Qed.

Lemma is_prime_accepts_primes_witness : is_prime big_prime = inr true.
Proof.
  apply (is_prime_accepts_primes big_prime big_prime_is_prime).
  unfold big_prime. lia.
Defined.

(** ** The theorems above at concrete inputs *)

(** A full disk: the probe file is opened, the write is refused, and the
    empty file is left behind. *)
Lemma file_check_leaves_witness :
  files (snd (test_file_operations example_runtime (fresh disk_full))) =
  <[test_file := EmptyString]> (files (fresh disk_full)).
Proof.
  apply (file_check_leaves example_runtime (fresh disk_full)). reflexivity.
Defined.

Lemma main_saves_report_witness :
  exists rep s1 text,
    checks_and_report example_runtime (fresh no_fault) = (inr rep, s1) /\
    json_dumps example_runtime (report_to_py rep) = inr text /\
    files (snd (main example_runtime (fresh no_fault))) =
      <[report_file := text]> (files s1) /\
    true = Float64.eqb (success_rate rep) float_100.
Proof.
  apply (main_saves_report example_runtime (fresh no_fault) true
           (snd (main example_runtime (fresh no_fault)))).
  vm_compute. reflexivity.
Defined.



